(** * deebot.js: the device session and its event decoders

    A shallow embedding of the two session classes of the library,
    [VacBot_non950type] (library/vacBot_non950type.js) and
    [VacBot_950type] (the 950-type class that extends [VacBot]), and the
    properties of their event handlers and of [run].

    Conventions of the embedding.
    - A JavaScript value that arrives in a payload is a [value]. Numbers
      on the wire are integers ([VInt]); numbers the handlers compute are
      [num]: a rational, [NaN] or an infinity. A number read from a
      payload is the number that its text denotes; the results of [/],
      [*] and [toFixed] are rounded to the nearest double ([binary64]).
      The sign of zero is not part of the model.
    - A method is a function in the monad [M S], which threads the session
      [S] and may end in a thrown exception; the fields written before the
      exception stay written, as in the source.
    - Objects used as dictionaries are [gmap string _], keyed by the
      property key (the string conversion of the subscript).
    - Code that lives outside the embedded files (lookup tables, map tools,
      the base class) is a [Variable] of the section that uses it. *)

From Stdlib Require Import ZArith QArith Qround Qpower Ascii String List Lia Lqa.
From stdpp Require Import base option list strings gmap pretty.

Set Warnings "-register-all".

Local Open Scope string_scope.
Local Open Scope Z_scope.

(** ** JavaScript numbers *)

Inductive num : Type :=
| Num (q : Q)
| NaN
| Inf (negative : bool).

Definition Qneg (q : Q) : bool := (Qnum q <? 0)%Z.
Definition Qzero (q : Q) : bool := (Qnum q =? 0)%Z.
Definition Qltb (p q : Q) : bool := (Qnum p * QDen q <? Qnum q * QDen p)%Z.

Definition of_Z (z : Z) : num := Num (inject_Z z).

(** *** Doubles

    The result of an arithmetic operation is the double nearest to the
    exact result, the one with the even last bit on a tie (IEEE 754,
    binary64, round to nearest even). *)

(** [floor (log2 q)] for [q > 0]. *)
Definition ilog2 (q : Q) : Z :=
  let k := Z.log2 (Qnum q) - Z.log2 (QDen q) in
  if Qle_bool (2 ^ k) q then k else k - 1.

(** The integer nearest to [r], the even one on a tie. *)
Definition round_half_even (r : Q) : Z :=
  let f := Qfloor r in
  match (r - inject_Z f ?= 1 # 2)%Q with
  | Lt => f
  | Gt => f + 1
  | Eq => if Z.even f then f else f + 1
  end.

(** The double nearest to [q > 0], [None] for infinity: 53 significant
    bits, the exponent of the last bit from -1074 (the subnormal
    numbers) up, infinity from [2^1024] on. *)
Definition binary64_pos (q : Q) : option Q :=
  let e := Z.max (ilog2 q - 52) (-1074) in
  let m := round_half_even (q / 2 ^ e) in
  if 1024 <=? Z.log2 m + e then None
  else Some (Qred (inject_Z m * 2 ^ e)).

Definition binary64 (q : Q) : num :=
  match Qnum q with
  | Z0 => Num 0
  | Zpos _ => match binary64_pos q with Some r => Num r | None => Inf false end
  | Zneg _ => match binary64_pos (- q) with Some r => Num (- r) | None => Inf true end
  end.

(** [a / b] *)
Definition num_div (a b : num) : num :=
  match a, b with
  | NaN, _ | _, NaN => NaN
  | Inf _, Inf _ => NaN
  | Inf s, Num q => Inf (xorb s (Qneg q))
  | Num _, Inf _ => Num 0
  | Num p, Num q =>
      if Qzero q then (if Qzero p then NaN else Inf (Qneg p))
      else binary64 (p / q)
  end.

(** [a * b] *)
Definition num_mul (a b : num) : num :=
  match a, b with
  | NaN, _ | _, NaN => NaN
  | Inf s, Inf t => Inf (xorb s t)
  | Inf s, Num q | Num q, Inf s => if Qzero q then NaN else Inf (xorb s (Qneg q))
  | Num p, Num q => binary64 (p * q)
  end.

(** [a < b] and [a >= b]; every comparison with [NaN] is false. *)
Definition num_lt (a b : num) : bool :=
  match a, b with
  | NaN, _ | _, NaN => false
  | Num p, Num q => Qltb p q
  | Inf s, Inf t => s && negb t
  | Inf s, Num _ => s
  | Num _, Inf t => negb t
  end.

Definition num_ge (a b : num) : bool :=
  match a, b with
  | NaN, _ | _, NaN => false
  | _, _ => negb (num_lt a b)
  end.

Definition num_gt (a b : num) : bool := num_lt b a.

(** [x === y] on numbers. *)
Definition num_eqb (a b : num) : bool :=
  match a, b with
  | Num p, Num q => Qeq_bool p q
  | Inf s, Inf t => Bool.eqb s t
  | _, _ => false
  end.

(** Truthiness of a number: [0] and [NaN] are falsy. *)
Definition num_truthy (a : num) : bool :=
  match a with
  | Num q => negb (Qzero q)
  | NaN => false
  | Inf _ => true
  end.

Definition isNaN_num (a : num) : bool :=
  match a with NaN => true | _ => false end.

(** The integer nearest to [q], the larger one on a tie. *)
Definition round_half_up (q : Q) : Z := Qfloor (q + (1 # 2)).

(** [Number(x.toFixed(2))] for a double [x]. Below [10^21] in magnitude
    [toFixed] writes the integer [n] for which [n / 100] is nearest to
    the exact value of [|x|], the larger one on a tie, with the sign of
    [x], and [Number] reads the double nearest to that decimal. From
    [10^21] on [toFixed] writes the number as [String] does, and
    [Number] reads it back. *)
Definition toFixed2 (a : num) : num :=
  match a with
  | Num q =>
      if Qle_bool (inject_Z (10 ^ 21)) (if Qneg q then - q else q) then a
      else if Qneg q then binary64 (- (round_half_up (- q * 100) # 100))
      else binary64 (round_half_up (q * 100) # 100)
  | _ => a
  end.

(** ** JavaScript values in payloads *)

Inductive value : Type :=
| VUndefined
| VNull
| VBool (b : bool)
| VInt (z : Z)
| VStr (s : string)
| VArr (items : list value)
| VObj (fields : list (string * value)).

(** An object literal received from the transport. *)
Abbreviation obj := (list (string * value)).

Fixpoint assoc (k : string) (fields : obj) : option value :=
  match fields with
  | [] => None
  | (k', v) :: rest => if String.eqb k k' then Some v else assoc k rest
  end.

(** [o.hasOwnProperty(k)] and [o[k]] on an object. *)
Definition hasOwnProperty (o : obj) (k : string) : bool :=
  match assoc k o with Some _ => true | None => false end.

Definition field (o : obj) (k : string) : value :=
  match assoc k o with Some v => v | None => VUndefined end.

(** [String(v)] *)
Fixpoint to_string (v : value) : string :=
  match v with
  | VUndefined => "undefined"
  | VNull => "null"
  | VBool true => "true"
  | VBool false => "false"
  | VInt z => pretty z
  | VStr s => s
  | VArr items =>
      let elem (x : value) : string :=
        match x with
        | VUndefined | VNull => ""
        | _ => to_string x
        end in
      (fix join (l : list value) : string :=
         match l with
         | [] => ""
         | [x] => elem x
         | x :: rest => elem x ++ "," ++ join rest
         end) items
  | VObj _ => "[object Object]"
  end.

(** The truthiness of a value. *)
Definition truthy (v : value) : bool :=
  match v with
  | VUndefined | VNull => false
  | VBool b => b
  | VInt z => negb (z =? 0)
  | VStr s => negb (String.eqb s "")
  | VArr _ | VObj _ => true
  end.

(** [typeof v === 'object'] (true of [null] too). *)
Definition typeof_object (v : value) : bool :=
  match v with
  | VNull | VArr _ | VObj _ => true
  | _ => false
  end.

(** [a === b]. Two objects are equal only when they are the same object;
    an object parsed from a payload is never the one held by the session,
    so object operands compare unequal. *)
Definition strict_eq (a b : value) : bool :=
  match a, b with
  | VUndefined, VUndefined => true
  | VNull, VNull => true
  | VBool x, VBool y => Bool.eqb x y
  | VInt x, VInt y => (x =? y)
  | VStr x, VStr y => String.eqb x y
  | _, _ => false
  end.

Definition strict_neq (a b : value) : bool := negb (strict_eq a b).

(** *** Numeric conversion of strings *)

Definition is_ws (c : ascii) : bool :=
  let n := nat_of_ascii c in
  ((9 <=? n) && (n <=? 13))%nat || (n =? 32)%nat.

Definition digit_of (c : ascii) : option Z :=
  let n := nat_of_ascii c in
  if ((48 <=? n) && (n <=? 57))%nat then Some (Z.of_nat (n - 48)) else None.

Definition hex_digit_of (c : ascii) : option Z :=
  let n := nat_of_ascii c in
  if ((48 <=? n) && (n <=? 57))%nat then Some (Z.of_nat (n - 48))
  else if ((65 <=? n) && (n <=? 70))%nat then Some (Z.of_nat (n - 55))
  else if ((97 <=? n) && (n <=? 102))%nat then Some (Z.of_nat (n - 87))
  else None.

Fixpoint skip_ws (cs : list ascii) : list ascii :=
  match cs with
  | c :: rest => if is_ws c then skip_ws rest else cs
  | [] => []
  end.

(** The longest prefix of digits in the given radix: its value, the
    number of digits and the rest. *)
Fixpoint take_digits (dig : ascii -> option Z) (radix : Z)
    (cs : list ascii) (acc : Z) (count : nat) : Z * nat * list ascii :=
  match cs with
  | c :: rest =>
      match dig c with
      | Some d => take_digits dig radix rest (acc * radix + d) (S count)
      | None => (acc, count, cs)
      end
  | [] => (acc, count, [])
  end.

Definition take_sign (cs : list ascii) : bool * list ascii :=
  match cs with
  | "-"%char :: rest => (true, rest)
  | "+"%char :: rest => (false, rest)
  | _ => (false, cs)
  end.

Definition signed (negative : bool) (z : Z) : Z := if negative then - z else z.

(** [parseInt(s)] without a radix: leading white space, a sign, then hex
    digits after [0x] or decimal digits; what follows is ignored. *)
Definition parseInt_string (s : string) : num :=
  let '(negative, cs) := take_sign (skip_ws (list_ascii_of_string s)) in
  match cs with
  | "0"%char :: ("x"%char | "X"%char) :: rest =>
      let '(n, count, _) := take_digits hex_digit_of 16 rest 0 0%nat in
      match count with O => NaN | _ => of_Z (signed negative n) end
  | _ =>
      let '(n, count, _) := take_digits digit_of 10 cs 0 0%nat in
      match count with O => NaN | _ => of_Z (signed negative n) end
  end.

(** [m * 10^e] *)
Definition scale10 (m e : Z) : Q :=
  if (0 <=? e)%Z then inject_Z (m * 10 ^ e) else Qred (m # Z.to_pos (10 ^ (- e))).

(** [Number(s)]: the whole trimmed string must be a numeric literal. The
    literals covered are the empty string, [Infinity], hexadecimal
    integers and decimal literals with a fraction and an exponent; octal
    and binary literals are read as [NaN]. *)
Definition StringToNumber (s : string) : num :=
  let cs := rev (skip_ws (rev (skip_ws (list_ascii_of_string s)))) in
  match cs with
  | [] => of_Z 0
  | "0"%char :: ("x"%char | "X"%char) :: rest =>
      match take_digits hex_digit_of 16 rest 0 0%nat with
      | (n, S _, []) => of_Z n
      | _ => NaN
      end
  | _ =>
      let '(negative, cs1) := take_sign cs in
      if String.eqb (string_of_list_ascii cs1) "Infinity" then Inf negative
      else
        let '(ip, icount, cs2) := take_digits digit_of 10 cs1 0 0%nat in
        let '(mant, fcount, cs3) :=
          match cs2 with
          | "."%char :: rest => take_digits digit_of 10 rest ip 0%nat
          | _ => (ip, 0%nat, cs2)
          end in
        match (icount + fcount)%nat with
        | O => NaN
        | _ =>
            match cs3 with
            | [] => Num (scale10 (signed negative mant) (- Z.of_nat fcount))
            | ("e"%char | "E"%char) :: rest =>
                let '(eneg, cs4) := take_sign rest in
                match take_digits digit_of 10 cs4 0 0%nat with
                | (e, S _, []) =>
                    Num (scale10 (signed negative mant)
                           (signed eneg e - Z.of_nat fcount))
                | _ => NaN
                end
            | _ => NaN
            end
        end
  end.

(** [Number(v)] *)
Definition to_number (v : value) : num :=
  match v with
  | VUndefined => NaN
  | VNull => of_Z 0
  | VBool b => of_Z (if b then 1 else 0)
  | VInt z => of_Z z
  | VStr s => StringToNumber s
  | VArr _ | VObj _ => StringToNumber (to_string v)
  end.

(** [parseInt(v)]: the value is converted to a string and its integer
    prefix is read. *)
Definition parseInt (v : value) : num :=
  match v with
  | VInt z => of_Z z
  | _ => parseInt_string (to_string v)
  end.

Definition isNaN (v : value) : bool := isNaN_num (to_number v).

(** [s.toLowerCase()] on the ASCII letters of command names. *)
Definition lower_ascii (c : ascii) : ascii :=
  let n := nat_of_ascii c in
  if ((65 <=? n) && (n <=? 90))%nat then ascii_of_nat (n + 32) else c.

Fixpoint toLowerCase (s : string) : string :=
  match s with
  | EmptyString => EmptyString
  | String c rest => String (lower_ascii c) (toLowerCase rest)
  end.

(** ** Methods: state and exceptions *)

Inductive result (A : Type) : Type :=
| Ok (a : A)
| Throw (error : string).
Arguments Ok {A} a.
Arguments Throw {A} error.

Definition M (S A : Type) : Type := S -> S * result A.

Definition ret {S A} (a : A) : M S A := fun s => (s, Ok a).
Definition throw {S A} (e : string) : M S A := fun s => (s, Throw e).
Definition bind {S A B} (m : M S A) (k : A -> M S B) : M S B :=
  fun s =>
    match m s with
    | (s', Ok a) => k a s'
    | (s', Throw e) => (s', Throw e)
    end.
Definition modify {S} (f : S -> S) : M S unit := fun s => (f s, Ok tt).
Definition gets {S A} (f : S -> A) : M S A := fun s => (s, Ok (f s)).

Declare Scope js_scope.
Delimit Scope js_scope with js.
Notation "x <- m ;; k" := (bind m (fun x => k))
  (at level 62, m at next level, right associativity) : js_scope.
Notation "m ;;; k" := (bind m (fun _ => k))
  (at level 62, right associativity) : js_scope.

(** [v[k]] for a named property [k]: a [TypeError] on [undefined] and
    [null]; arrays, strings, numbers and booleans have no such own
    property, except [length]. *)
Definition property (v : value) (k : string) : result value :=
  match v with
  | VUndefined | VNull => Throw "TypeError"
  | VObj fields => Ok (field fields k)
  | VArr items =>
      Ok (if String.eqb k "length" then VInt (Z.of_nat (length items)) else VUndefined)
  | VStr s =>
      Ok (if String.eqb k "length" then VInt (Z.of_nat (String.length s)) else VUndefined)
  | VBool _ | VInt _ => Ok VUndefined
  end.

Definition get {S} (v : value) (k : string) : M S value :=
  fun s => (s, property v k).

(** The values visited by [for (let i in v) if (v.hasOwnProperty(i)) ... v[i]]:
    the elements of an array, the property values of an object in the
    order of the literal, the characters of a string; nothing for the
    other values. *)
Definition own_values (v : value) : list value :=
  match v with
  | VArr items => items
  | VObj fields => map snd fields
  | VStr s => map (fun c => VStr (String c EmptyString)) (list_ascii_of_string s)
  | _ => []
  end.

(** [for (x of xs) body(x)] *)
Fixpoint for_each {S A} (body : A -> M S unit) (xs : list A) : M S unit :=
  match xs with
  | [] => ret tt
  | x :: rest => (body x ;;; for_each body rest)%js
  end.

(** A command object handed to the transport: the name of its class in
    the command catalog and the constructor arguments. *)
Record request : Type := Request { rq_name : string; rq_args : list value }.

(** [a == s] for a string literal [s]. *)
Definition loose_eq_string (a : value) (s : string) : bool :=
  match a with
  | VUndefined | VNull => false
  | VStr x => String.eqb x s
  | VInt z => num_eqb (of_Z z) (StringToNumber s)
  | VBool b => num_eqb (of_Z (if b then 1 else 0)) (StringToNumber s)
  | VArr _ | VObj _ => String.eqb (to_string a) s
  end.

(** * The session of the non-950 models (library/vacBot_non950type.js) *)

Module Non950.

Local Open Scope nat_scope.

(** What [this.ecovacs.send_command] received: the XML form of the
    action on the XMPP transport, the action itself on MQTT. *)
Inductive wire : Type :=
| WireXml (action : request)
| WireAction (action : request).

Record session : Type := Session {
  vacuum_status : value;
  clean_status : value;
  fan_speed : value;
  charge_status : value;
  battery_status : value;
  water_level : value;
  waterbox_info : value;
  components : gmap string num;
  error_event : value;
  useMqtt : bool;
  outbox : list wire
}.

Definition set_components (f : gmap string num -> gmap string num) (s : session) : session :=
  Session (vacuum_status s) (clean_status s) (fan_speed s) (charge_status s)
    (battery_status s) (water_level s) (waterbox_info s) (f (components s))
    (error_event s) (useMqtt s) (outbox s).

Definition set_error_event (v : value) (s : session) : session :=
  Session (vacuum_status s) (clean_status s) (fan_speed s) (charge_status s)
    (battery_status s) (water_level s) (waterbox_info s) (components s)
    v (useMqtt s) (outbox s).

Definition push_outbox (w : wire) (s : session) : session :=
  Session (vacuum_status s) (clean_status s) (fan_speed s) (charge_status s)
    (battery_status s) (water_level s) (waterbox_info s) (components s)
    (error_event s) (useMqtt s) (outbox s ++ [w]).

(** The state the constructor leaves. *)
Definition new_session (mqtt : bool) : session :=
  Session VNull VNull VNull VNull VNull VNull VNull ∅ VNull mqtt [].

Section Handlers.

(** [dictionary.COMPONENT_FROM_ECOVACS] of ecovacsConstants_non950type.js
    and the table of errorCodes.js: a property key to its value,
    [VUndefined] where the table has no such key. *)
Variable COMPONENT_FROM_ECOVACS : string -> value.
Variable errorCodes : string -> value.

(** The [lifespan] that [_handle_life_span] computes from the shape of
    the event; [None] is the initial [null]. *)
Definition life_span_value (event : obj) : option num :=
  if hasOwnProperty event "val" && hasOwnProperty event "total" then
    Some (num_mul (num_div (parseInt (field event "val")) (parseInt (field event "total")))
            (of_Z 100))
  else if hasOwnProperty event "val" then
    Some (num_div (parseInt (field event "val")) (of_Z 100))
  else if hasOwnProperty event "left" && hasOwnProperty event "total" then
    Some (num_mul (num_div (parseInt (field event "left")) (parseInt (field event "total")))
            (of_Z 100))
  else if hasOwnProperty event "left" then
    Some (num_div (parseInt (field event "left")) (of_Z 60))
  else None.

Definition _handle_life_span (event : obj) : M session unit :=
  let type :=
    if hasOwnProperty event "type"
    then COMPONENT_FROM_ECOVACS (to_string (field event "type"))
    else VNull in
  if negb (truthy type) then ret tt
  else
    match life_span_value event with
    | Some lifespan =>
        if num_truthy lifespan
        then modify (set_components (insert (to_string type) lifespan))
        else ret tt
    | None => ret tt
    end.

Definition _handle_error (event : obj) : M session unit :=
  let known :=
    hasOwnProperty event "errno"
    && truthy (errorCodes (to_string (field event "errno"))) in
  if known && loose_eq_string (field event "errno") "100" then ret tt
  else
    let errorCode :=
      if known then errorCodes (to_string (field event "errno")) else VNull in
    let errorCode :=
      if negb (truthy errorCode) && hasOwnProperty event "error"
      then field event "error" else errorCode in
    let errorCode :=
      if negb (truthy errorCode) && hasOwnProperty event "errs"
      then field event "errs" else errorCode in
    if truthy errorCode then modify (set_error_event errorCode) else ret tt.

End Handlers.

Definition send_command (action : request) : M session unit :=
  (mqtt <- gets useMqtt ;;
   if negb mqtt then modify (push_outbox (WireXml action))
   else modify (push_outbox (WireAction action)))%js.

(** [run(action, ...)]: [args] are the arguments after [action], so
    [arguments.length] is [1 + length args]. *)
Definition run (action : string) (args : list value) : M session unit :=
  let arguments_length := S (length args) in
  let arg (i : nat) : value := nth i args VUndefined in
  let a := toLowerCase action in
  if String.eqb a "clean" then
    if arguments_length <=? 1 then send_command (Request "Clean" [])
    else if arguments_length =? 2 then send_command (Request "Clean" [arg 0])
    else send_command (Request "Clean" [arg 0; arg 1])
  else if String.eqb a "edge" then send_command (Request "Edge" [])
  else if String.eqb a "spot" then send_command (Request "Spot" [])
  else if String.eqb a "spotarea" then
    if arguments_length <? 3 then ret tt
    else send_command (Request "SpotArea" [arg 0; arg 1])
  else if String.eqb a "customarea" then
    if arguments_length <? 4 then ret tt
    else send_command (Request "CustomArea" [arg 0; arg 1; arg 2])
  else if String.eqb a "stop" then send_command (Request "Stop" [])
  else if String.eqb a "pause" then send_command (Request "Pause" [])
  else if String.eqb a "resume" then send_command (Request "Resume" [])
  else if String.eqb a "charge" then send_command (Request "Charge" [])
  else if String.eqb a "playsound" then send_command (Request "PlaySound" [])
  else if String.eqb a "getdeviceinfo" || String.eqb a "deviceinfo" then
    send_command (Request "GetDeviceInfo" [])
  else if String.eqb a "getcleanstate" || String.eqb a "cleanstate" then
    send_command (Request "GetCleanState" [])
  else if String.eqb a "getcleanspeed" || String.eqb a "cleanspeed" then
    send_command (Request "GetCleanSpeed" [])
  else if String.eqb a "getchargestate" || String.eqb a "chargestate" then
    send_command (Request "GetChargeState" [])
  else if String.eqb a "getbatterystate" || String.eqb a "batterystate" then
    send_command (Request "GetBatteryState" [])
  else if String.eqb a "getlifespan" || String.eqb a "lifespan" then
    if arguments_length <? 2 then ret tt
    else send_command (Request "GetLifeSpan" [arg 0])
  else if String.eqb a "getwaterlevel" then send_command (Request "GetWaterLevel" [])
  else if String.eqb a "setwaterlevel" then
    if arguments_length <? 2 then ret tt
    else send_command (Request "SetWaterLevel" [arg 0])
  else if String.eqb a "getwaterboxinfo" then send_command (Request "GetWaterBoxInfo" [])
  else ret tt.

(** Tables in the shape of the library's, to run the handlers on
    examples. *)
Definition sample_components (key : string) : value :=
  if String.eqb key "Brush" then VStr "main_brush"
  else if String.eqb key "SideBrush" then VStr "side_brush"
  else if String.eqb key "DustCaseHeap" then VStr "filter"
  else VUndefined.

Definition sample_errorCodes (key : string) : value :=
  if String.eqb key "100" then VStr "NoError: Robot is operational"
  else if String.eqb key "101" then VStr "BatteryLow: Low battery"
  else if String.eqb key "102" then VStr "HostHang: Robot is off the floor"
  else VUndefined.

End Non950.

(** * The session of the 950-type models

    The class [VacBot_950type]; its base class [VacBot], the command
    catalog, the dictionary, the error-code table and the map tools are
    other files of the library. *)

Module T950.

Local Open Scope nat_scope.

(** [this.chargePosition] and [this.deebotPosition] *)
Record ChargePosition : Type := {
  cp_x : value;
  cp_y : value;
  cp_a : value;
  cp_changeFlag : value
}.

Record DeebotPosition : Type := {
  dp_x : value;
  dp_y : value;
  dp_a : value;
  isInvalid : value;
  currentSpotAreaID : value;
  currentSpotAreaName : value;
  changeFlag : value;
  distanceToChargingStation : value
}.

(** An entry of [this.cleanLog]; [date] is the [Date] of the entry as
    milliseconds since the epoch. *)
Record CleanLogEntry : Type := {
  squareMeters : num;
  timestamp : num;
  date : num;
  lastTime : num;
  totalTime : num;
  totalTimeFormatted : value;
  imageUrl : value;
  type : value;
  stopReason : value
}.

(** The containers of mapTemplate.js that [handleMapSet] fills: an
    object that keeps its constructor arguments, and for the two
    collections a list that [push] appends to. *)
Record EcovacsMapSpotAreas : Type := {
  msa_mapID : value;
  msa_mapSetID : value;
  mapSpotAreas : list value
}.

Record EcovacsMapVirtualBoundary : Type := {
  mapVirtualBoundaryID : value;
  mapVirtualBoundaryType : value
}.

Record EcovacsMapVirtualBoundaries : Type := {
  mvb_mapID : value;
  mvb_mapVirtualBoundaries : list EcovacsMapVirtualBoundary
}.

(** The fields of the session that the embedded methods read or write.
    [sent] is what [this.sendCommand] was given, [warnings] the lines
    given to [tools.envLogWarn] and [emitted] the events given to
    [this.ecovacs.emit], oldest first. *)
Record session : Type := Session {
  currentSpotAreas : value;
  currentCustomAreaValues : value;
  cleanReport : value;
  chargeStatus : value;
  batteryLevel : value;
  batteryIsLow : value;
  components : gmap string num;
  lastComponentValues : gmap string num;
  emitFullLifeSpanEvent : value;
  chargePosition : ChargePosition;
  deebotPosition : DeebotPosition;
  currentMapMID : value;
  mapSpotAreaInfos : gmap string value;
  cleanLog : gmap string CleanLogEntry;
  cleanLog_lastImageUrl : value;
  cleanLog_lastTimestamp : option num;
  cleanLog_lastSquareMeters : option num;
  cleanLog_lastTotalTime : option num;
  cleanLog_lastTotalTimeString : value;
  mapVirtualBoundaries : gmap string EcovacsMapVirtualBoundaries;
  mapVirtualBoundariesResponses : gmap string (bool * bool);
  errorCode : value;
  errorDescription : value;
  createMapDataObject : value;
  createMapImage : value;
  createMapImageOnly : value;
  deviceClass : value;
  sent : list request;
  warnings : list string;
  emitted : list (string * string)
}.

Definition set_currentSpotAreas (v : value) (s : session) : session :=
  Session v (currentCustomAreaValues s) (cleanReport s) (chargeStatus s)
    (batteryLevel s) (batteryIsLow s) (components s) (lastComponentValues s)
    (emitFullLifeSpanEvent s) (chargePosition s) (deebotPosition s) (currentMapMID s) (mapSpotAreaInfos s)
    (cleanLog s) (cleanLog_lastImageUrl s) (cleanLog_lastTimestamp s)
    (cleanLog_lastSquareMeters s) (cleanLog_lastTotalTime s)
    (cleanLog_lastTotalTimeString s) (mapVirtualBoundaries s)
    (mapVirtualBoundariesResponses s) (errorCode s) (errorDescription s)
    (createMapDataObject s) (createMapImage s) (createMapImageOnly s) (deviceClass s)
    (sent s) (warnings s) (emitted s).

Definition set_currentCustomAreaValues (v : value) (s : session) : session :=
  Session (currentSpotAreas s) v (cleanReport s) (chargeStatus s) (batteryLevel s)
    (batteryIsLow s) (components s) (lastComponentValues s) (emitFullLifeSpanEvent s)
    (chargePosition s) (deebotPosition s) (currentMapMID s) (mapSpotAreaInfos s)
    (cleanLog s) (cleanLog_lastImageUrl s) (cleanLog_lastTimestamp s)
    (cleanLog_lastSquareMeters s) (cleanLog_lastTotalTime s)
    (cleanLog_lastTotalTimeString s) (mapVirtualBoundaries s)
    (mapVirtualBoundariesResponses s) (errorCode s) (errorDescription s)
    (createMapDataObject s) (createMapImage s) (createMapImageOnly s) (deviceClass s)
    (sent s) (warnings s) (emitted s).

Definition set_cleanReport (v : value) (s : session) : session :=
  Session (currentSpotAreas s) (currentCustomAreaValues s) v (chargeStatus s)
    (batteryLevel s) (batteryIsLow s) (components s) (lastComponentValues s)
    (emitFullLifeSpanEvent s) (chargePosition s) (deebotPosition s) (currentMapMID s)
    (mapSpotAreaInfos s) (cleanLog s) (cleanLog_lastImageUrl s)
    (cleanLog_lastTimestamp s) (cleanLog_lastSquareMeters s)
    (cleanLog_lastTotalTime s) (cleanLog_lastTotalTimeString s) (mapVirtualBoundaries s)
    (mapVirtualBoundariesResponses s) (errorCode s) (errorDescription s)
    (createMapDataObject s) (createMapImage s) (createMapImageOnly s) (deviceClass s)
    (sent s) (warnings s) (emitted s).

Definition set_chargeStatus (v : value) (s : session) : session :=
  Session (currentSpotAreas s) (currentCustomAreaValues s) (cleanReport s) v
    (batteryLevel s) (batteryIsLow s) (components s) (lastComponentValues s)
    (emitFullLifeSpanEvent s) (chargePosition s) (deebotPosition s) (currentMapMID s)
    (mapSpotAreaInfos s) (cleanLog s) (cleanLog_lastImageUrl s)
    (cleanLog_lastTimestamp s) (cleanLog_lastSquareMeters s)
    (cleanLog_lastTotalTime s) (cleanLog_lastTotalTimeString s) (mapVirtualBoundaries s)
    (mapVirtualBoundariesResponses s) (errorCode s) (errorDescription s)
    (createMapDataObject s) (createMapImage s) (createMapImageOnly s) (deviceClass s)
    (sent s) (warnings s) (emitted s).

Definition set_batteryLevel (v : value) (s : session) : session :=
  Session (currentSpotAreas s) (currentCustomAreaValues s) (cleanReport s)
    (chargeStatus s) v (batteryIsLow s) (components s) (lastComponentValues s)
    (emitFullLifeSpanEvent s) (chargePosition s) (deebotPosition s) (currentMapMID s)
    (mapSpotAreaInfos s) (cleanLog s) (cleanLog_lastImageUrl s)
    (cleanLog_lastTimestamp s) (cleanLog_lastSquareMeters s)
    (cleanLog_lastTotalTime s) (cleanLog_lastTotalTimeString s) (mapVirtualBoundaries s)
    (mapVirtualBoundariesResponses s) (errorCode s) (errorDescription s)
    (createMapDataObject s) (createMapImage s) (createMapImageOnly s) (deviceClass s)
    (sent s) (warnings s) (emitted s).

Definition set_batteryIsLow (v : value) (s : session) : session :=
  Session (currentSpotAreas s) (currentCustomAreaValues s) (cleanReport s)
    (chargeStatus s) (batteryLevel s) v (components s) (lastComponentValues s)
    (emitFullLifeSpanEvent s) (chargePosition s) (deebotPosition s) (currentMapMID s)
    (mapSpotAreaInfos s) (cleanLog s) (cleanLog_lastImageUrl s)
    (cleanLog_lastTimestamp s) (cleanLog_lastSquareMeters s)
    (cleanLog_lastTotalTime s) (cleanLog_lastTotalTimeString s) (mapVirtualBoundaries s)
    (mapVirtualBoundariesResponses s) (errorCode s) (errorDescription s)
    (createMapDataObject s) (createMapImage s) (createMapImageOnly s) (deviceClass s)
    (sent s) (warnings s) (emitted s).

Definition set_components (v : gmap string num) (s : session) : session :=
  Session (currentSpotAreas s) (currentCustomAreaValues s) (cleanReport s)
    (chargeStatus s) (batteryLevel s) (batteryIsLow s) v (lastComponentValues s)
    (emitFullLifeSpanEvent s) (chargePosition s) (deebotPosition s) (currentMapMID s)
    (mapSpotAreaInfos s) (cleanLog s) (cleanLog_lastImageUrl s)
    (cleanLog_lastTimestamp s) (cleanLog_lastSquareMeters s)
    (cleanLog_lastTotalTime s) (cleanLog_lastTotalTimeString s) (mapVirtualBoundaries s)
    (mapVirtualBoundariesResponses s) (errorCode s) (errorDescription s)
    (createMapDataObject s) (createMapImage s) (createMapImageOnly s) (deviceClass s)
    (sent s) (warnings s) (emitted s).

Definition set_lastComponentValues (v : gmap string num) (s : session) : session :=
  Session (currentSpotAreas s) (currentCustomAreaValues s) (cleanReport s)
    (chargeStatus s) (batteryLevel s) (batteryIsLow s) (components s) v
    (emitFullLifeSpanEvent s) (chargePosition s) (deebotPosition s) (currentMapMID s)
    (mapSpotAreaInfos s) (cleanLog s) (cleanLog_lastImageUrl s)
    (cleanLog_lastTimestamp s) (cleanLog_lastSquareMeters s)
    (cleanLog_lastTotalTime s) (cleanLog_lastTotalTimeString s) (mapVirtualBoundaries s)
    (mapVirtualBoundariesResponses s) (errorCode s) (errorDescription s)
    (createMapDataObject s) (createMapImage s) (createMapImageOnly s) (deviceClass s)
    (sent s) (warnings s) (emitted s).

Definition set_emitFullLifeSpanEvent (v : value) (s : session) : session :=
  Session (currentSpotAreas s) (currentCustomAreaValues s) (cleanReport s)
    (chargeStatus s) (batteryLevel s) (batteryIsLow s) (components s)
    (lastComponentValues s) v (chargePosition s) (deebotPosition s) (currentMapMID s)
    (mapSpotAreaInfos s) (cleanLog s) (cleanLog_lastImageUrl s)
    (cleanLog_lastTimestamp s) (cleanLog_lastSquareMeters s)
    (cleanLog_lastTotalTime s) (cleanLog_lastTotalTimeString s) (mapVirtualBoundaries s)
    (mapVirtualBoundariesResponses s) (errorCode s) (errorDescription s)
    (createMapDataObject s) (createMapImage s) (createMapImageOnly s) (deviceClass s)
    (sent s) (warnings s) (emitted s).

Definition set_chargePosition (v : ChargePosition) (s : session) : session :=
  Session (currentSpotAreas s) (currentCustomAreaValues s) (cleanReport s)
    (chargeStatus s) (batteryLevel s) (batteryIsLow s) (components s)
    (lastComponentValues s) (emitFullLifeSpanEvent s) v (deebotPosition s)
    (currentMapMID s) (mapSpotAreaInfos s) (cleanLog s) (cleanLog_lastImageUrl s)
    (cleanLog_lastTimestamp s) (cleanLog_lastSquareMeters s)
    (cleanLog_lastTotalTime s) (cleanLog_lastTotalTimeString s) (mapVirtualBoundaries s)
    (mapVirtualBoundariesResponses s) (errorCode s) (errorDescription s)
    (createMapDataObject s) (createMapImage s) (createMapImageOnly s) (deviceClass s)
    (sent s) (warnings s) (emitted s).

Definition set_deebotPosition (v : DeebotPosition) (s : session) : session :=
  Session (currentSpotAreas s) (currentCustomAreaValues s) (cleanReport s)
    (chargeStatus s) (batteryLevel s) (batteryIsLow s) (components s)
    (lastComponentValues s) (emitFullLifeSpanEvent s) (chargePosition s) v
    (currentMapMID s) (mapSpotAreaInfos s) (cleanLog s) (cleanLog_lastImageUrl s)
    (cleanLog_lastTimestamp s) (cleanLog_lastSquareMeters s)
    (cleanLog_lastTotalTime s) (cleanLog_lastTotalTimeString s) (mapVirtualBoundaries s)
    (mapVirtualBoundariesResponses s) (errorCode s) (errorDescription s)
    (createMapDataObject s) (createMapImage s) (createMapImageOnly s) (deviceClass s)
    (sent s) (warnings s) (emitted s).

Definition set_cleanLog (v : gmap string CleanLogEntry) (s : session) : session :=
  Session (currentSpotAreas s) (currentCustomAreaValues s) (cleanReport s)
    (chargeStatus s) (batteryLevel s) (batteryIsLow s) (components s)
    (lastComponentValues s) (emitFullLifeSpanEvent s) (chargePosition s)
    (deebotPosition s) (currentMapMID s) (mapSpotAreaInfos s) v
    (cleanLog_lastImageUrl s) (cleanLog_lastTimestamp s) (cleanLog_lastSquareMeters s)
    (cleanLog_lastTotalTime s) (cleanLog_lastTotalTimeString s)
    (mapVirtualBoundaries s) (mapVirtualBoundariesResponses s) (errorCode s) (errorDescription s)
    (createMapDataObject s) (createMapImage s) (createMapImageOnly s) (deviceClass s)
    (sent s) (warnings s) (emitted s).

Definition set_cleanLog_lastImageUrl (v : value) (s : session) : session :=
  Session (currentSpotAreas s) (currentCustomAreaValues s) (cleanReport s)
    (chargeStatus s) (batteryLevel s) (batteryIsLow s) (components s)
    (lastComponentValues s) (emitFullLifeSpanEvent s) (chargePosition s)
    (deebotPosition s) (currentMapMID s) (mapSpotAreaInfos s) (cleanLog s) v
    (cleanLog_lastTimestamp s) (cleanLog_lastSquareMeters s)
    (cleanLog_lastTotalTime s) (cleanLog_lastTotalTimeString s) (mapVirtualBoundaries s)
    (mapVirtualBoundariesResponses s) (errorCode s) (errorDescription s)
    (createMapDataObject s) (createMapImage s) (createMapImageOnly s) (deviceClass s)
    (sent s) (warnings s) (emitted s).

Definition set_cleanLog_lastTimestamp (v : option num) (s : session) : session :=
  Session (currentSpotAreas s) (currentCustomAreaValues s) (cleanReport s)
    (chargeStatus s) (batteryLevel s) (batteryIsLow s) (components s)
    (lastComponentValues s) (emitFullLifeSpanEvent s) (chargePosition s)
    (deebotPosition s) (currentMapMID s) (mapSpotAreaInfos s) (cleanLog s)
    (cleanLog_lastImageUrl s) v (cleanLog_lastSquareMeters s)
    (cleanLog_lastTotalTime s) (cleanLog_lastTotalTimeString s) (mapVirtualBoundaries s)
    (mapVirtualBoundariesResponses s) (errorCode s) (errorDescription s)
    (createMapDataObject s) (createMapImage s) (createMapImageOnly s) (deviceClass s)
    (sent s) (warnings s) (emitted s).

Definition set_cleanLog_lastSquareMeters (v : option num) (s : session) : session :=
  Session (currentSpotAreas s) (currentCustomAreaValues s) (cleanReport s)
    (chargeStatus s) (batteryLevel s) (batteryIsLow s) (components s)
    (lastComponentValues s) (emitFullLifeSpanEvent s) (chargePosition s)
    (deebotPosition s) (currentMapMID s) (mapSpotAreaInfos s) (cleanLog s)
    (cleanLog_lastImageUrl s) (cleanLog_lastTimestamp s) v (cleanLog_lastTotalTime s)
    (cleanLog_lastTotalTimeString s) (mapVirtualBoundaries s)
    (mapVirtualBoundariesResponses s) (errorCode s) (errorDescription s)
    (createMapDataObject s) (createMapImage s) (createMapImageOnly s) (deviceClass s)
    (sent s) (warnings s) (emitted s).

Definition set_cleanLog_lastTotalTime (v : option num) (s : session) : session :=
  Session (currentSpotAreas s) (currentCustomAreaValues s) (cleanReport s)
    (chargeStatus s) (batteryLevel s) (batteryIsLow s) (components s)
    (lastComponentValues s) (emitFullLifeSpanEvent s) (chargePosition s)
    (deebotPosition s) (currentMapMID s) (mapSpotAreaInfos s) (cleanLog s)
    (cleanLog_lastImageUrl s) (cleanLog_lastTimestamp s) (cleanLog_lastSquareMeters s)
    v (cleanLog_lastTotalTimeString s) (mapVirtualBoundaries s)
    (mapVirtualBoundariesResponses s) (errorCode s) (errorDescription s)
    (createMapDataObject s) (createMapImage s) (createMapImageOnly s) (deviceClass s)
    (sent s) (warnings s) (emitted s).

Definition set_cleanLog_lastTotalTimeString (v : value) (s : session) : session :=
  Session (currentSpotAreas s) (currentCustomAreaValues s) (cleanReport s)
    (chargeStatus s) (batteryLevel s) (batteryIsLow s) (components s)
    (lastComponentValues s) (emitFullLifeSpanEvent s) (chargePosition s)
    (deebotPosition s) (currentMapMID s) (mapSpotAreaInfos s) (cleanLog s)
    (cleanLog_lastImageUrl s) (cleanLog_lastTimestamp s) (cleanLog_lastSquareMeters s)
    (cleanLog_lastTotalTime s) v (mapVirtualBoundaries s)
    (mapVirtualBoundariesResponses s) (errorCode s) (errorDescription s)
    (createMapDataObject s) (createMapImage s) (createMapImageOnly s) (deviceClass s)
    (sent s) (warnings s) (emitted s).

Definition set_mapVirtualBoundaries (v : gmap string EcovacsMapVirtualBoundaries) (s : session) : session :=
  Session (currentSpotAreas s) (currentCustomAreaValues s) (cleanReport s)
    (chargeStatus s) (batteryLevel s) (batteryIsLow s) (components s)
    (lastComponentValues s) (emitFullLifeSpanEvent s) (chargePosition s)
    (deebotPosition s) (currentMapMID s) (mapSpotAreaInfos s) (cleanLog s)
    (cleanLog_lastImageUrl s) (cleanLog_lastTimestamp s) (cleanLog_lastSquareMeters s)
    (cleanLog_lastTotalTime s) (cleanLog_lastTotalTimeString s) v
    (mapVirtualBoundariesResponses s) (errorCode s) (errorDescription s)
    (createMapDataObject s) (createMapImage s) (createMapImageOnly s) (deviceClass s)
    (sent s) (warnings s) (emitted s).

Definition set_mapVirtualBoundariesResponses (v : gmap string (bool * bool)) (s : session) : session :=
  Session (currentSpotAreas s) (currentCustomAreaValues s) (cleanReport s)
    (chargeStatus s) (batteryLevel s) (batteryIsLow s) (components s)
    (lastComponentValues s) (emitFullLifeSpanEvent s) (chargePosition s)
    (deebotPosition s) (currentMapMID s) (mapSpotAreaInfos s) (cleanLog s)
    (cleanLog_lastImageUrl s) (cleanLog_lastTimestamp s) (cleanLog_lastSquareMeters s)
    (cleanLog_lastTotalTime s) (cleanLog_lastTotalTimeString s)
    (mapVirtualBoundaries s) v (errorCode s) (errorDescription s) (createMapDataObject s) (createMapImage s)
    (createMapImageOnly s) (deviceClass s) (sent s) (warnings s) (emitted s).

Definition set_errorCode (v : value) (s : session) : session :=
  Session (currentSpotAreas s) (currentCustomAreaValues s) (cleanReport s)
    (chargeStatus s) (batteryLevel s) (batteryIsLow s) (components s)
    (lastComponentValues s) (emitFullLifeSpanEvent s) (chargePosition s)
    (deebotPosition s) (currentMapMID s) (mapSpotAreaInfos s) (cleanLog s)
    (cleanLog_lastImageUrl s) (cleanLog_lastTimestamp s) (cleanLog_lastSquareMeters s)
    (cleanLog_lastTotalTime s) (cleanLog_lastTotalTimeString s)
    (mapVirtualBoundaries s) (mapVirtualBoundariesResponses s) v (errorDescription s)
    (createMapDataObject s) (createMapImage s) (createMapImageOnly s) (deviceClass s) (sent s) (warnings s)
    (emitted s).

Definition set_errorDescription (v : value) (s : session) : session :=
  Session (currentSpotAreas s) (currentCustomAreaValues s) (cleanReport s)
    (chargeStatus s) (batteryLevel s) (batteryIsLow s) (components s)
    (lastComponentValues s) (emitFullLifeSpanEvent s) (chargePosition s)
    (deebotPosition s) (currentMapMID s) (mapSpotAreaInfos s) (cleanLog s)
    (cleanLog_lastImageUrl s) (cleanLog_lastTimestamp s) (cleanLog_lastSquareMeters s)
    (cleanLog_lastTotalTime s) (cleanLog_lastTotalTimeString s)
    (mapVirtualBoundaries s) (mapVirtualBoundariesResponses s) (errorCode s) v (createMapDataObject s)
    (createMapImage s) (createMapImageOnly s) (deviceClass s) (sent s) (warnings s)
    (emitted s).

Definition set_createMapDataObject (v : value) (s : session) : session :=
  Session (currentSpotAreas s) (currentCustomAreaValues s) (cleanReport s)
    (chargeStatus s) (batteryLevel s) (batteryIsLow s) (components s)
    (lastComponentValues s) (emitFullLifeSpanEvent s) (chargePosition s)
    (deebotPosition s) (currentMapMID s) (mapSpotAreaInfos s) (cleanLog s)
    (cleanLog_lastImageUrl s) (cleanLog_lastTimestamp s) (cleanLog_lastSquareMeters s)
    (cleanLog_lastTotalTime s) (cleanLog_lastTotalTimeString s)
    (mapVirtualBoundaries s) (mapVirtualBoundariesResponses s) (errorCode s) (errorDescription s) v
    (createMapImage s) (createMapImageOnly s) (deviceClass s) (sent s) (warnings s)
    (emitted s).

Definition set_createMapImage (v : value) (s : session) : session :=
  Session (currentSpotAreas s) (currentCustomAreaValues s) (cleanReport s)
    (chargeStatus s) (batteryLevel s) (batteryIsLow s) (components s)
    (lastComponentValues s) (emitFullLifeSpanEvent s) (chargePosition s)
    (deebotPosition s) (currentMapMID s) (mapSpotAreaInfos s) (cleanLog s)
    (cleanLog_lastImageUrl s) (cleanLog_lastTimestamp s) (cleanLog_lastSquareMeters s)
    (cleanLog_lastTotalTime s) (cleanLog_lastTotalTimeString s)
    (mapVirtualBoundaries s) (mapVirtualBoundariesResponses s) (errorCode s) (errorDescription s)
    (createMapDataObject s) v (createMapImageOnly s) (deviceClass s) (sent s)
    (warnings s) (emitted s).

Definition set_createMapImageOnly (v : value) (s : session) : session :=
  Session (currentSpotAreas s) (currentCustomAreaValues s) (cleanReport s)
    (chargeStatus s) (batteryLevel s) (batteryIsLow s) (components s)
    (lastComponentValues s) (emitFullLifeSpanEvent s) (chargePosition s)
    (deebotPosition s) (currentMapMID s) (mapSpotAreaInfos s) (cleanLog s)
    (cleanLog_lastImageUrl s) (cleanLog_lastTimestamp s) (cleanLog_lastSquareMeters s)
    (cleanLog_lastTotalTime s) (cleanLog_lastTotalTimeString s)
    (mapVirtualBoundaries s) (mapVirtualBoundariesResponses s) (errorCode s) (errorDescription s)
    (createMapDataObject s) (createMapImage s) v (deviceClass s) (sent s) (warnings s)
    (emitted s).

Definition set_sent (v : list request) (s : session) : session :=
  Session (currentSpotAreas s) (currentCustomAreaValues s) (cleanReport s)
    (chargeStatus s) (batteryLevel s) (batteryIsLow s) (components s)
    (lastComponentValues s) (emitFullLifeSpanEvent s) (chargePosition s)
    (deebotPosition s) (currentMapMID s) (mapSpotAreaInfos s) (cleanLog s)
    (cleanLog_lastImageUrl s) (cleanLog_lastTimestamp s) (cleanLog_lastSquareMeters s)
    (cleanLog_lastTotalTime s) (cleanLog_lastTotalTimeString s)
    (mapVirtualBoundaries s) (mapVirtualBoundariesResponses s) (errorCode s) (errorDescription s)
    (createMapDataObject s) (createMapImage s) (createMapImageOnly s) (deviceClass s)
    v (warnings s) (emitted s).

Definition set_warnings (v : list string) (s : session) : session :=
  Session (currentSpotAreas s) (currentCustomAreaValues s) (cleanReport s)
    (chargeStatus s) (batteryLevel s) (batteryIsLow s) (components s)
    (lastComponentValues s) (emitFullLifeSpanEvent s) (chargePosition s)
    (deebotPosition s) (currentMapMID s) (mapSpotAreaInfos s) (cleanLog s)
    (cleanLog_lastImageUrl s) (cleanLog_lastTimestamp s) (cleanLog_lastSquareMeters s)
    (cleanLog_lastTotalTime s) (cleanLog_lastTotalTimeString s)
    (mapVirtualBoundaries s) (mapVirtualBoundariesResponses s) (errorCode s) (errorDescription s)
    (createMapDataObject s) (createMapImage s) (createMapImageOnly s) (deviceClass s)
    (sent s) v (emitted s).

Definition set_emitted (v : list (string * string)) (s : session) : session :=
  Session (currentSpotAreas s) (currentCustomAreaValues s) (cleanReport s)
    (chargeStatus s) (batteryLevel s) (batteryIsLow s) (components s)
    (lastComponentValues s) (emitFullLifeSpanEvent s) (chargePosition s)
    (deebotPosition s) (currentMapMID s) (mapSpotAreaInfos s) (cleanLog s)
    (cleanLog_lastImageUrl s) (cleanLog_lastTimestamp s) (cleanLog_lastSquareMeters s)
    (cleanLog_lastTotalTime s) (cleanLog_lastTotalTimeString s)
    (mapVirtualBoundaries s) (mapVirtualBoundariesResponses s) (errorCode s) (errorDescription s)
    (createMapDataObject s) (createMapImage s) (createMapImageOnly s) (deviceClass s)
    (sent s) (warnings s) v.

Definition set_currentMapMID (v : value) (s : session) : session :=
  Session (currentSpotAreas s) (currentCustomAreaValues s) (cleanReport s)
    (chargeStatus s) (batteryLevel s) (batteryIsLow s) (components s)
    (lastComponentValues s) (emitFullLifeSpanEvent s) (chargePosition s)
    (deebotPosition s) v (mapSpotAreaInfos s) (cleanLog s)
    (cleanLog_lastImageUrl s) (cleanLog_lastTimestamp s) (cleanLog_lastSquareMeters s)
    (cleanLog_lastTotalTime s) (cleanLog_lastTotalTimeString s)
    (mapVirtualBoundaries s) (mapVirtualBoundariesResponses s) (errorCode s) (errorDescription s)
    (createMapDataObject s) (createMapImage s) (createMapImageOnly s) (deviceClass s)
    (sent s) (warnings s) (emitted s).

Definition set_mapSpotAreaInfos (v : gmap string value) (s : session) : session :=
  Session (currentSpotAreas s) (currentCustomAreaValues s) (cleanReport s)
    (chargeStatus s) (batteryLevel s) (batteryIsLow s) (components s)
    (lastComponentValues s) (emitFullLifeSpanEvent s) (chargePosition s)
    (deebotPosition s) (currentMapMID s) v (cleanLog s)
    (cleanLog_lastImageUrl s) (cleanLog_lastTimestamp s) (cleanLog_lastSquareMeters s)
    (cleanLog_lastTotalTime s) (cleanLog_lastTotalTimeString s)
    (mapVirtualBoundaries s) (mapVirtualBoundariesResponses s) (errorCode s) (errorDescription s)
    (createMapDataObject s) (createMapImage s) (createMapImageOnly s) (deviceClass s)
    (sent s) (warnings s) (emitted s).

(** A session in which nothing has been recorded yet, to run the methods
    on examples; the constructor of the base class sets these fields. *)
Definition new_session : session :=
  Session (VStr "") (VStr "") VNull VNull VNull VNull ∅ ∅ VNull
    (Build_ChargePosition VNull VNull VNull (VBool false))
    (Build_DeebotPosition VNull VNull VNull (VBool false) (VStr "unknown")
       (VStr "unknown") (VBool false) VNull)
    VNull ∅ ∅ VNull None None None VNull ∅ ∅ VNull VNull
    VNull VNull VNull VNull [] [] [].

(** [this.sendCommand], [tools.envLogWarn] and [this.ecovacs.emit] hand
    their argument to the transport and to the log; the session records
    it. *)
Definition sendCommand (command : request) : M session unit :=
  modify (fun s => set_sent (sent s ++ [command]) s).

Definition envLogWarn (message : string) : M session unit :=
  modify (fun s => set_warnings (warnings s ++ [message]) s).

Definition emit (name message : string) : M session unit :=
  modify (fun s => set_emitted (emitted s ++ [(name, message)]) s).

(** [v.toString()] *)
Definition toString (v : value) : M session string :=
  match v with
  | VUndefined | VNull => throw "TypeError"
  | _ => ret (to_string v)
  end.

(** [v || d] *)
Definition or_else (v d : value) : value := if truthy v then v else d.

Section Methods.

(** [super.run], the capability queries and [getModelType] of the base
    class, two predicates of tools.js and the component table of the
    dictionary. *)
Variable super_run : string -> list value -> M session unit.
Variable hasMainBrush hasUnitCareInfo hasRoundMopInfo : session -> bool.
Variable isMapImageSupported : session -> bool.
Variable getModelType : session -> string.
Variable isValidVirtualWallType : value -> bool.
Variable isAirPurifier : value -> bool.
Variable COMPONENT_TO_ECOVACS : string -> value.

(** The [switch] of [run] on the lower-cased command name [c]. *)
Definition run_switch (c : string) (args : list value) : M session unit :=
  let arg (i : nat) : value := nth i args VUndefined in
  let case (name : string) : bool := String.eqb c (toLowerCase name) in
  let send (name : string) (l : list value) := sendCommand (Request name l) in
  let positive (v : value) : bool := num_gt (to_number v) (of_Z 0) in
  (if case "GetMapImage" then
     mapID <- toString (arg 0) ;;
     let mapType := or_else (arg 1) (VStr "outline") in
     modify (set_createMapDataObject (VBool true)) ;;;
     modify (set_createMapImage (VBool true)) ;;;
     modify (set_createMapImageOnly
               (if strict_neq (arg 2) VUndefined then arg 2 else VBool true)) ;;;
     if positive (VStr mapID) then send "GetMapImage" [VStr mapID; mapType] else ret tt
   else if case "GetMaps" then
     modify (set_createMapImageOnly (VBool false)) ;;;
     modify (set_createMapDataObject (VBool (truthy (arg 0)))) ;;;
     supported <- gets isMapImageSupported ;;
     modify (set_createMapImage (VBool (truthy (arg 0) && supported))) ;;;
     (if 2 <=? length args then modify (set_createMapImage (VBool (truthy (arg 1))))
      else ret tt) ;;;
     deviceClass <- gets deviceClass ;;
     if strict_eq deviceClass (VStr "p5nx9u") || strict_eq deviceClass (VStr "vthpeg")
     then send "GetMapInfo_V2" []
     else send "GetMaps" []
   else if case "GetSpotAreas" then
     if positive (arg 0) then send "GetMapSpotAreas" [arg 0] else ret tt
   else if case "GetSpotAreaInfo" then
     if positive (arg 0) && strict_neq (arg 1) (VStr "")
     then send "GetMapSpotAreaInfo" [arg 0; arg 1] else ret tt
   else if case "GetVirtualBoundaries" then
     if positive (arg 0) then
       responses <- gets mapVirtualBoundariesResponses ;;
       match responses !! to_string (arg 0) with
       | None =>
           modify (set_mapVirtualBoundariesResponses
                     (<[to_string (arg 0) := (false, false)]> responses))
       | Some (_, mw) =>
           modify (set_mapVirtualBoundariesResponses
                     (<[to_string (arg 0) := (false, mw)]> responses)) ;;;
           modify (fun s => set_mapVirtualBoundariesResponses
                     (<[to_string (arg 0) := (false, false)]>
                        (mapVirtualBoundariesResponses s)) s)
       end ;;;
       send "GetMapVirtualBoundaries" [arg 0; VStr "vw"] ;;;
       send "GetMapVirtualBoundaries" [arg 0; VStr "mw"]
     else ret tt
   else if case "GetVirtualBoundaryInfo" then
     let type := if isValidVirtualWallType (arg 2) then arg 2 else VStr "vw" in
     if positive (arg 0) && strict_neq (arg 1) (VStr "")
     then send "GetMapVirtualBoundaryInfo" [arg 0; arg 1; type] else ret tt
   else if case "AddVirtualBoundary" then
     let type := if isValidVirtualWallType (arg 2) then arg 2 else VStr "vw" in
     if positive (arg 0) && strict_neq (arg 1) (VStr "")
     then send "AddMapVirtualBoundary" [arg 0; arg 1; type] else ret tt
   else if case "DeleteVirtualBoundary" then
     if positive (arg 0) && num_ge (to_number (arg 1)) (of_Z 0)
        && isValidVirtualWallType (arg 2)
     then send "DeleteMapVirtualBoundary" [arg 0; arg 1; arg 2] else ret tt
   else if case "GetLifeSpan" then
     if length args =? 0 then
       modify (set_emitFullLifeSpanEvent (VBool true)) ;;;
       modify (set_components ∅) ;;;
       modify (set_lastComponentValues ∅) ;;;
       mainBrush <- gets hasMainBrush ;;
       unitCare <- gets hasUnitCareInfo ;;
       roundMop <- gets hasRoundMopInfo ;;
       let componentsArray :=
         ([COMPONENT_TO_ECOVACS "filter"; COMPONENT_TO_ECOVACS "side_brush"]
          ++ (if mainBrush then [COMPONENT_TO_ECOVACS "main_brush"] else [])
          ++ (if unitCare then [COMPONENT_TO_ECOVACS "unit_care"] else [])
          ++ (if roundMop then [COMPONENT_TO_ECOVACS "round_mop"] else []))%list in
       send "GetLifeSpan" [VArr componentsArray]
     else
       modify (set_emitFullLifeSpanEvent (VBool false)) ;;;
       send "GetLifeSpan" [VArr [COMPONENT_TO_ECOVACS (to_string (arg 0))]]
   else if case "EnableDoNotDisturb" then
     if strict_neq (arg 0) (VStr "") && strict_neq (arg 1) (VStr "")
     then send "EnableDoNotDisturb" [arg 0; arg 1]
     else send "EnableDoNotDisturb" []
   else if case "SetDoNotDisturb" then
     let enable := VInt (if truthy (arg 0) then 1 else 0) in
     if strict_neq (arg 1) (VStr "") && strict_neq (arg 2) (VStr "")
     then send "SetDoNotDisturb" [enable; arg 1; arg 2]
     else if 1 <=? length args then send "SetDoNotDisturb" [enable]
     else ret tt
   else if case "GetWaterLevel" || case "GetWaterBoxInfo" || case "GetWaterInfo" then
     send "GetWaterInfo" []
   else if case "GetCleanLogs" then
     (* On a T9 the logs are fetched from the REST API when the promise
        settles; nothing is sent to the device. *)
     modelType <- gets getModelType ;;
     if String.eqb modelType "T9" then ret tt else send "GetCleanLogs" []
   else if case "GetError" then send "GetError" []
   else if case "Relocate" then send "Relocate" []
   else if case "GetVolume" then send "GetVolume" []
   else if case "SetVolume" then
     if 1 <=? length args then send "SetVolume" [arg 0] else ret tt
   else if case "EnableAdvancedMode" then send "SetAdvancedMode" [VInt 1]
   else if case "DisableAdvancedMode" then send "SetAdvancedMode" [VInt 0]
   else if case "GetAdvancedMode" then send "GetAdvancedMode" []
   else if case "GetTrueDetect" then send "GetTrueDetect" []
   else if case "EnableTrueDetect" then send "SetTrueDetect" [VInt 1]
   else if case "DisableTrueDetect" then send "SetTrueDetect" [VInt 0]
   else if case "EmptyDustBin" || case "EmptySuctionStation" then send "EmptyDustBin" []
   else if case "GetAutoEmpty" then send "GetAutoEmpty" []
   else if case "SetAutoEmpty" then
     if 1 <=? length args then send "SetAutoEmpty" [arg 0] else ret tt
   else if case "EnableAutoEmpty" then send "SetAutoEmpty" [VInt 1]
   else if case "DisableAutoEmpty" then send "SetAutoEmpty" [VInt 0]
   else if case "GetDusterRemind" then send "GetDusterRemind" []
   else if case "SetDusterRemind" then
     if 1 <=? length args then send "SetDusterRemind" [arg 0; arg 1] else ret tt
   else if case "GetCarpetPressure" then send "GetCarpetPressure" []
   else if case "SetCarpetPressure" then
     if 1 <=? length args then send "SetCarpetPressure" [arg 0] else ret tt
   else if case "EnableCarpetPressure" then send "SetCarpetPressure" [VInt 1]
   else if case "DisableCarpetPressure" then send "SetCarpetPressure" [VInt 0]
   else if case "GetCleanState_V2" then send "GetCleanState_V2" []
   else if case "Clean_V2" then
     deviceClass <- gets deviceClass ;;
     if isAirPurifier deviceClass then send "Clean_V2" [VStr "move"]
     else send "Clean_V2" []
   else if case "SpotArea_V2" then
     area <- toString (arg 0) ;;
     let cleanings := or_else (arg 1) (VInt 0) in
     if negb (String.eqb area "") then send "SpotArea_V2" [VStr area; cleanings]
     else ret tt
   else if case "CustomArea_V2" then
     area <- toString (arg 0) ;;
     let cleanings := or_else (arg 1) (VInt 1) in
     let donotClean := or_else (arg 2) (VInt 0) in
     if negb (String.eqb area "")
     then send "CustomArea_V2" [VStr area; cleanings; donotClean]
     else ret tt
   else if case "MapPoint_V2" then
     area <- toString (arg 0) ;;
     if negb (String.eqb area "") then send "MapPoint_V2" [VStr area] else ret tt
   else if case "GetCleanCount" then send "GetCleanCount" []
   else if case "SetCleanCount" then
     if 1 <=? length args then send "SetCleanCount" [arg 0] else ret tt
   else if case "GetCleanPreference" then send "GetCleanPreference" []
   else if case "GetAirDrying" then send "GetAirDrying" []
   else if case "SetAirDrying" then
     if 1 <=? length args then send "SetAirDrying" [arg 0] else ret tt
   else if case "AirDryingStart" then send "SetAirDrying" [VStr "start"]
   else if case "AirDryingStop" then send "SetAirDrying" [VStr "stop"]
   else if case "SetCleanPreference" then
     if 1 <=? length args then send "SetCleanPreference" [arg 0] else ret tt
   else if case "EnableCleanPreference" then send "SetCleanPreference" [VInt 1]
   else if case "DisableCleanPreference" then send "SetCleanPreference" [VInt 0]
   else if case "GetRecognization" then send "GetRecognization" []
   else if case "GetMapState" then send "GetMapState" []
   else if case "GetAIMap" then send "GetAIMap" []
   else if case "GetSweepMode" then send "GetSweepMode" []
   else if case "EnableSweepMode" then send "SetSweepMode" [VInt 1]
   else if case "DisableSweepMode" then send "SetSweepMode" [VInt 0]
   else if case "SetSweepMode" then
     if 1 <=? length args then send "SetSweepMode" [arg 0] else ret tt
   else if case "GetBorderSpin" then send "GetBorderSpin" []
   else if case "EnableBorderSpin" then send "SetBorderSpin" [VInt 1]
   else if case "DisableBorderSpin" then send "SetBorderSpin" [VInt 0]
   else if case "SetBorderSpin" then
     if 1 <=? length args then send "SetBorderSpin" [arg 0] else ret tt
   else if case "GetAirQuality" then send "GetAirQuality" []
   else if case "SinglePoint_V2" then
     if 1 <=? length args then send "SinglePoint_V2" [arg 0] else ret tt
   else if case "Area_V2" then send "Area_V2" []
   else if case "GetMapSet_V2" then send "GetMapSet_V2" []
   else if case "SetMapSet_V2" then
     if 1 <=? length args then send "SetMapSet_V2" [arg 0] else ret tt
   else if case "SetThreeModule" then
     if 3 <=? length args then send "SetThreeModule" [arg 0; arg 1; arg 2] else ret tt
   else if case "SetFreshenerLevel" then
     if 2 <=? length args then send "SetFreshenerLevel" [arg 0; arg 1] else ret tt
   else if case "SetHumidifierLevel" then
     if 2 <=? length args then send "SetHumidifierLevel" [arg 0; arg 1] else ret tt
   else if case "SetUVCleaner" then
     if 1 <=? length args then send "SetUVCleaner" [arg 0] else ret tt
   else if case "SetAtmoLight" then
     if 1 <=? length args then send "SetAtmoLight" [arg 0] else ret tt
   else if case "SetBlueSpeaker" then
     if 1 <=? length args then send "SetBlueSpeaker" [arg 0] else ret tt
   else if case "SetVoiceSimple" then
     if 1 <=? length args then send "SetVoiceSimple" [arg 0] else ret tt
   else if case "SetBlock" then
     if 3 <=? length args then send "SetBlock" [arg 0; arg 1; arg 2] else ret tt
   else if case "SetMonitorAirState" then
     if 1 <=? length args then send "SetMonitorAirState" [arg 0] else ret tt
   else if case "SetAngleFollow" then
     if 1 <=? length args then send "SetAngleFollow" [arg 0] else ret tt
   else if case "SetMic" then
     if 1 <=? length args then send "SetMic" [arg 0] else ret tt
   else if case "GetLiveLaunchPwdState" then send "GetLiveLaunchPwdState" []
   else if case "GetHumanoidFollow" then send "GetHumanoidFollow" []
   else if case "GetMonitorAirState" then send "GetMonitorAirState" []
   else if case "GetVoiceSimple" then send "GetVoiceSimple" []
   else if case "GetDrivingWheel" then send "GetDrivingWheel" []
   else if case "GetChildLock" then send "GetChildLock" []
   else if case "GetBlock" then send "GetBlock" []
   else if case "GetTimeZone" then send "GetTimeZone" []
   else if case "GetTotalStats" then send "GetTotalStats" []
   else if case "GetWifiList" then send "GetWifiList" []
   else if case "GetOta" then send "GetOta" []
   else if case "GetThreeModuleStatus" then send "GetThreeModuleStatus" []
   else if case "GetScene" then send "GetScene" []
   else if case "GetListenMusic" then send "GetListenMusic" []
   else if case "VideoOpened" then send "VideoOpened" []
   else if case "GetAudioCallState" then send "GetAudioCallState" []
   else if case "SetVoice" then
     if 6 <=? length args
     then send "SetVoice" [arg 0; arg 1; arg 2; arg 3; arg 4; arg 5] else ret tt
   else if case "SetVoiceAssistantState" then
     if 1 <=? length args then send "SetVoiceAssistantState" [arg 0] else ret tt
   else if case "GetVoiceLifeRemindState" then send "GetVoiceLifeRemindState" []
   else if case "GetBreakPoint" then send "GetBreakPoint" []
   else if case "GetRelocationState" then send "GetRelocationState" []
   else if case "GetAntiDrop" then send "GetAntiDrop" []
   else if case "GetMapTrace_V2" then
     if 1 <=? length args then send "GetMapTrace_V2" [arg 0] else ret tt
   else ret tt)%js.

Definition run (command : string) (args : list value) : M session unit :=
  (super_run command args ;;;
   run_switch (toLowerCase command) args)%js.

(** The tables of dictionary.js and errorCodes.json (a property key to
    its value, [VUndefined] where the key is missing), the two
    functions of mapTools.js, [getSpotAreaName] of the base class,
    [tools.getTimeStringFormatted] and [JSON.stringify]. *)
Variable CLEAN_MODE_FROM_ECOVACS : string -> value.
Variable COMPONENT_FROM_ECOVACS : string -> value.
Variable errorCodes : string -> value.
Variable isPositionInSpotArea : num -> num -> option value -> value.
Variable getDistanceToChargingStation : string -> string -> value.
Variable getSpotAreaName : session -> value -> value.
Variable getTimeStringFormatted : num -> value.
Variable JSON_stringify : value -> string.

(** [v.split(',').length] *)
Definition split_length (v : value) : M session nat :=
  match v with
  | VStr s =>
      ret (S (length (filter (fun c => Ascii.eqb c ","%char) (list_ascii_of_string s))))
  | _ => throw "TypeError"
  end.

Definition handleCleanInfo (payload : obj) : M session unit :=
  (modify (set_currentSpotAreas (VStr "")) ;;;
   modify (set_currentCustomAreaValues (VStr "")) ;;;
   if strict_eq (field payload "state") (VStr "clean") then
     type0 <- get (field payload "cleanState") "type" ;;
     content <- get (field payload "cleanState") "content" ;;
     type <- (if typeof_object content then get content "type" else ret type0) ;;
     motionState <- get (field payload "cleanState") "motionState" ;;
     (if strict_eq motionState (VStr "working")
      then modify (set_cleanReport (CLEAN_MODE_FROM_ECOVACS (to_string type)))
      else modify (set_cleanReport (CLEAN_MODE_FROM_ECOVACS (to_string motionState)))) ;;;
     if strict_eq type (VStr "spotArea") || strict_eq type (VStr "customArea") then
       areaValues <- (if typeof_object content then get content "value" else ret content) ;;
       if strict_eq type (VStr "customArea") then
         (if typeof_object content then
            doNotClean <- get content "donotClean" ;;
            viaVideoManager <-
              (if strict_eq doNotClean (VInt 1) then ret true
               else n <- split_length areaValues ;; ret (n =? 2)) ;;
            if viaVideoManager : bool
            then modify (set_cleanReport (VStr "setLocation")) else ret tt
          else ret tt) ;;;
         modify (set_currentCustomAreaValues areaValues)
       else if strict_eq type (VStr "spotArea") then
         modify (set_currentSpotAreas areaValues)
       else ret tt
     else ret tt
   else if strict_eq (field payload "trigger") (VStr "alert") then
     modify (set_cleanReport (VStr "alert"))
   else
     let mode := CLEAN_MODE_FROM_ECOVACS (to_string (field payload "state")) in
     modify (set_cleanReport mode) ;;;
     if strict_eq mode (VStr "returning") then
       let chargeStatus := mode in
       if truthy chargeStatus then modify (set_chargeStatus chargeStatus) else ret tt
     else if strict_eq mode (VStr "idle") then
       run "GetChargeState" []
     else ret tt)%js.

Definition handleBattery (payload : obj) : M session unit :=
  (modify (set_batteryLevel (field payload "value")) ;;;
   if hasOwnProperty payload "isLow" then
     modify (set_batteryIsLow (VBool (num_truthy (to_number (field payload "isLow")))))
   else
     batteryLevel <- gets batteryLevel ;;
     modify (set_batteryIsLow (VBool (num_ge (to_number batteryLevel) (of_Z 15)))))%js.

(** The percentage [handleLifespan] stores for one element. *)
Definition lifespan_percent (left total : value) : num :=
  toFixed2 (num_mul (num_div (parseInt left) (parseInt total)) (of_Z 100)).

Definition handleLifespan (payload : value) : M session unit :=
  for_each
    (fun element =>
       if truthy element then
         type <- get element "type" ;;
         component <-
           (if truthy (COMPONENT_FROM_ECOVACS (to_string type))
            then ret (COMPONENT_FROM_ECOVACS (to_string type))
            else
              envLogWarn ("unknown life span component type: " ++ to_string type) ;;;
              emit "Debug" ("Unknown life span component type: " ++ to_string type) ;;;
              ret type) ;;
         left <- get element "left" ;;
         total <- get element "total" ;;
         modify (fun s =>
           set_components
             (<[to_string component := lifespan_percent left total]> (components s)) s)
       else ret tt)%js
    (own_values payload).

(** [v[0]] *)
Definition first_item (v : value) : value :=
  match v with
  | VArr (item :: _) => item
  | VObj fields => field fields "0"
  | VStr (String c _) => VStr (String c EmptyString)
  | _ => VUndefined
  end.

Definition handlePos (payload : obj) : M session unit :=
  (let chargePos := field payload "chargePos" in
   (if truthy chargePos then
      cx <- get (first_item chargePos) "x" ;;
      cy <- get (first_item chargePos) "y" ;;
      ca <- get (first_item chargePos) "a" ;;
      cached <- gets chargePosition ;;
      let changed :=
        strict_neq cx (cp_x cached) || strict_neq cy (cp_y cached)
        || strict_neq ca (cp_a cached) in
      if changed then
        modify (set_chargePosition (Build_ChargePosition cx cy ca (VBool true)))
      else ret tt
    else ret tt) ;;;
   let deebotPos := field payload "deebotPos" in
   if typeof_object deebotPos then
     px <- get deebotPos "x" ;;
     py <- get deebotPos "y" ;;
     pa <- get deebotPos "a" ;;
     pinvalid <- get deebotPos "invalid" ;;
     cached <- gets deebotPosition ;;
     let changed :=
       strict_neq px (dp_x cached) || strict_neq py (dp_y cached)
       || strict_neq pa (dp_a cached) || strict_neq pinvalid (isInvalid cached)
       || strict_eq (currentSpotAreaID cached) (VStr "unknown") in
     if changed then
       let posX := to_number px in
       let posY := to_number py in
       infos <- gets mapSpotAreaInfos ;;
       mid <- gets currentMapMID ;;
       let currentSpotAreaID := isPositionInSpotArea posX posY (infos !! to_string mid) in
       let isInvalid := num_eqb (to_number pinvalid) (of_Z 1) in
       charge <- gets chargePosition ;;
       let pos := to_string px ++ "," ++ to_string py in
       let chargePos := to_string (cp_x charge) ++ "," ++ to_string (cp_y charge) in
       let distanceToChargingStation := getDistanceToChargingStation pos chargePos in
       name <- gets (fun s => getSpotAreaName s currentSpotAreaID) ;;
       modify (set_deebotPosition
                 (Build_DeebotPosition px py pa (VBool isInvalid) currentSpotAreaID
                    name (VBool true) distanceToChargingStation))
     else ret tt
   else ret tt)%js.

(** The body of the loop of [handleCleanLogs] for one entry. *)
Definition ingest_log (logEntry : value) : M session unit :=
  (id <- get logEntry "id" ;;
   cleanLog <- gets cleanLog ;;
   match cleanLog !! to_string id with
   | Some _ => ret tt
   | None =>
       area <- get logEntry "area" ;;
       ts <- get logEntry "ts" ;;
       last <- get logEntry "last" ;;
       imageUrl <- get logEntry "imageUrl" ;;
       type <- get logEntry "type" ;;
       stopReason <- get logEntry "stopReason" ;;
       let squareMeters := parseInt area in
       let timestamp := to_number ts in
       let date := num_mul timestamp (of_Z 1000) in
       let len := parseInt last in
       let totalTimeString := getTimeStringFormatted len in
       lastTimestamp <- gets cleanLog_lastTimestamp ;;
       (if match lastTimestamp with
           | Some l => num_lt l timestamp || negb (num_truthy l)
           | None => true
           end
        then
          modify (set_cleanLog_lastImageUrl imageUrl) ;;;
          modify (set_cleanLog_lastTimestamp (Some timestamp)) ;;;
          modify (set_cleanLog_lastSquareMeters (Some squareMeters)) ;;;
          modify (set_cleanLog_lastTotalTime (Some len)) ;;;
          modify (set_cleanLog_lastTotalTimeString totalTimeString)
        else ret tt) ;;;
       modify (fun s =>
         set_cleanLog
           (<[to_string id :=
                Build_CleanLogEntry squareMeters timestamp date len len
                  totalTimeString imageUrl type stopReason]> (T950.cleanLog s)) s)
   end)%js.

Definition handleCleanLogs (payload : obj) : M session unit :=
  (modify (set_cleanLog ∅) ;;;
   let logs :=
     if hasOwnProperty payload "logs" then field payload "logs"
     else if hasOwnProperty payload "log" then field payload "log"
     else if hasOwnProperty payload "data" then field payload "data"
     else VArr [] in
   for_each ingest_log (own_values logs))%js.

(** What [handleMapSet] returns: [{mapsetEvent, mapsetData}]. *)
Inductive mapsetData : Type :=
| NoData
| SpotAreasData (d : EcovacsMapSpotAreas)
| VirtualBoundariesData (d : EcovacsMapVirtualBoundaries).

Record mapset : Type := { mapsetEvent : string; mapsetData_of : mapsetData }.

(** [xs.map(f)] for an [f] that may throw. *)
Fixpoint map_m {A B} (f : A -> M session B) (xs : list A) : M session (list B) :=
  match xs with
  | [] => ret []
  | x :: rest => (y <- f x ;; ys <- map_m f rest ;; ret (y :: ys))%js
  end.

(** [this.mapVirtualBoundaries[mapMID].push(boundary)] *)
Definition push_boundary (key : string) (boundary : EcovacsMapVirtualBoundary)
    : M session unit :=
  modify (fun s =>
    set_mapVirtualBoundaries
      (alter (fun d => Build_EcovacsMapVirtualBoundaries (mvb_mapID d)
                         (mvb_mapVirtualBoundaries d ++ [boundary]))
         key (mapVirtualBoundaries s)) s).

(** [this.mapVirtualBoundariesResponses[mapMID][slot] = true] *)
Definition mark_response (key : string) (slot : nat) : M session unit :=
  (responses <- gets mapVirtualBoundariesResponses ;;
   match responses !! key with
   | None => throw "TypeError"
   | Some (vw, mw) =>
       modify (set_mapVirtualBoundariesResponses
                 (<[key := match slot with O => (true, mw) | _ => (vw, true) end]>
                    responses))
   end)%js.

Definition handleMapSet (payload : obj) : M session mapset :=
  (currentMapMID <- gets currentMapMID ;;
   let mid := field payload "mid" in
   if isNaN mid && negb (truthy currentMapMID) then
     envLogWarn "mid is not a number. Skipping message for map" ;;;
     ret (Build_mapset "skip" NoData)
   else
     let mapMID := if isNaN mid then currentMapMID else mid in
     let key := to_string mapMID in
     let type := field payload "type" in
     if strict_eq type (VStr "ar") then
       ids <- map_m (fun subset => get subset "mssid")
                (own_values (field payload "subsets")) ;;
       ret (Build_mapset "MapSpotAreas"
              (SpotAreasData
                 (Build_EcovacsMapSpotAreas mapMID (field payload "msid") ids)))
     else if strict_eq type (VStr "vw") || strict_eq type (VStr "mw") then
       boundaries <- gets mapVirtualBoundaries ;;
       match boundaries !! key with
       | None =>
           modify (set_mapVirtualBoundaries
                     (<[key := Build_EcovacsMapVirtualBoundaries mapMID []]> boundaries)) ;;;
           modify (fun s =>
             set_mapVirtualBoundariesResponses
               (<[key := (false, false)]> (mapVirtualBoundariesResponses s)) s)
       | Some _ => ret tt
       end ;;;
       for_each
         (fun subset =>
            mssid <- get subset "mssid" ;;
            push_boundary key (Build_EcovacsMapVirtualBoundary mssid type))
         (own_values (field payload "subsets")) ;;;
       (if strict_eq type (VStr "vw") then mark_response key 0
        else if strict_eq type (VStr "mw") then mark_response key 1
        else ret tt) ;;;
       responses <- gets mapVirtualBoundariesResponses ;;
       match responses !! key with
       | None => throw "TypeError"
       | Some (vw, mw) =>
           if vw && mw then
             boundaries <- gets mapVirtualBoundaries ;;
             match boundaries !! key with
             | Some data =>
                 ret (Build_mapset "MapVirtualBoundaries" (VirtualBoundariesData data))
             | None => ret (Build_mapset "MapVirtualBoundaries" NoData)
             end
           else
             envLogWarn ("skip message for map  " ++ to_string mapMID) ;;;
             ret (Build_mapset "skip" NoData)
       end
     else
       envLogWarn ("unknown mapset type: " ++ JSON_stringify type) ;;;
       ret (Build_mapset "error" NoData))%js.

Definition handleResponseError (payload : obj) : M session unit :=
  (code <- toString (field payload "code") ;;
   modify (set_errorCode (VStr code)) ;;;
   (if truthy (errorCodes code) then
      modify (set_errorDescription (errorCodes code)) ;;;
      if String.eqb code "1" then
        modify (fun s =>
          set_errorDescription
            (VStr (to_string (errorDescription s) ++ ": "
                   ++ to_string (field payload "error"))) s)
      else ret tt
    else modify (set_errorDescription (VStr ("unknown errorCode: " ++ code)))) ;;;
   if negb (String.eqb code "0") then
     description <- gets errorDescription ;;
     envLogWarn ("errorCode: " ++ code) ;;;
     envLogWarn ("errorDescription: " ++ to_string description)
   else ret tt)%js.

End Methods.

(** Collaborators in the shape of the library's, to run the methods on
    examples. *)
Definition sample_clean_mode (key : string) : value :=
  if String.eqb key "auto" then VStr "auto"
  else if String.eqb key "spotArea" then VStr "spot_area"
  else if String.eqb key "customArea" then VStr "custom_area"
  else if String.eqb key "pause" then VStr "pause"
  else if String.eqb key "stop" then VStr "stop"
  else if String.eqb key "goCharging" then VStr "returning"
  else if String.eqb key "idle" then VStr "idle"
  else VUndefined.

Definition sample_components (key : string) : value :=
  if String.eqb key "brush" then VStr "main_brush"
  else if String.eqb key "sideBrush" then VStr "side_brush"
  else if String.eqb key "heap" then VStr "filter"
  else VUndefined.

Definition sample_errorCodes (key : string) : value :=
  if String.eqb key "0" then VStr "NoError: Robot is operational"
  else if String.eqb key "100" then VStr "NoError: Robot is operational"
  else if String.eqb key "101" then VStr "BatteryLow: Low battery"
  else if String.eqb key "102" then VStr "HostHang: Robot is off the floor"
  else VUndefined.

(** A base class whose [run] knows the three queries that the example
    client issues and sends one request for each; other names are left
    to the subclass. *)
Definition sample_super_run (command : string) (args : list value) : M session unit :=
  let c := toLowerCase command in
  if String.eqb c "getbatterystate" then sendCommand (Request "GetBatteryState" [])
  else if String.eqb c "getcleanstate" then sendCommand (Request "GetCleanState" [])
  else if String.eqb c "getchargestate" then sendCommand (Request "GetChargeState" [])
  else ret tt.

Definition sample_isPositionInSpotArea (posX posY : num) (infos : option value) : value :=
  match infos with
  | Some _ => VStr "1"
  | None => VStr "unknown"
  end.

Definition sample_distance (pos chargePos : string) : value := VNull.

Definition sample_getSpotAreaName (s : session) (id : value) : value := VStr "".

Definition sample_time_string (seconds : num) : value :=
  match seconds with
  | Num q => VStr (pretty (Qfloor q) ++ "s")
  | _ => VStr ""
  end.

Definition sample_components_to (key : string) : value :=
  if String.eqb key "main_brush" then VStr "brush"
  else if String.eqb key "side_brush" then VStr "sideBrush"
  else if String.eqb key "filter" then VStr "heap"
  else VUndefined.

Definition no_capability (s : session) : bool := false.

Definition sample_run : string -> list value -> M session unit :=
  run sample_super_run no_capability no_capability no_capability no_capability
    (fun _ => "950") (fun v => strict_eq v (VStr "vw") || strict_eq v (VStr "mw"))
    (fun _ => false) sample_components_to.

Definition sample_handlePos : obj -> M session unit :=
  handlePos sample_isPositionInSpotArea sample_distance sample_getSpotAreaName.

Definition sample_handleCleanInfo : obj -> M session unit :=
  handleCleanInfo sample_super_run no_capability no_capability no_capability
    no_capability (fun _ => "950")
    (fun v => strict_eq v (VStr "vw") || strict_eq v (VStr "mw"))
    (fun _ => false) sample_components_to sample_clean_mode.

End T950.

(** * Properties *)

(** ** Numbers *)

Lemma Qzero_true (q : Q) : Qzero q = true <-> (q == 0)%Q.
Proof.
  unfold Qzero, Qeq. simpl. rewrite Z.eqb_eq. lia.
Qed.

Lemma Qzero_false (q : Q) : Qzero q = false <-> ~ (q == 0)%Q.
Proof.
  rewrite <- Qzero_true. destruct (Qzero q); split; congruence.
Qed.

Lemma Qzero_inject_Z (z : Z) : Qzero (inject_Z z) = (z =? 0)%Z.
Proof. reflexivity. Qed.

Lemma Qneg_false (q : Q) : (0 <= q)%Q -> Qneg q = false.
Proof.
  unfold Qneg, Qle. simpl. intros H. apply Z.ltb_ge. lia.
Qed.

Lemma Qltb_lt (p q : Q) : Qltb p q = true <-> (p < q)%Q.
Proof. unfold Qltb, Qlt. apply Z.ltb_lt. Qed.

Lemma num_ge_of_Z (m n : Z) : num_ge (of_Z m) (of_Z n) = (n <=? m)%Z.
Proof.
  unfold num_ge, num_lt, of_Z, Qltb. simpl. rewrite !Z.mul_1_r.
  destruct (Z.ltb_spec m n), (Z.leb_spec n m); simpl; try reflexivity; lia.
Qed.

Lemma num_truthy_of_Z (n : Z) : num_truthy (of_Z n) = negb (n =? 0)%Z.
Proof. reflexivity. Qed.

Lemma ratio_nonneg (v t : Z) :
  (0 <= v)%Z -> (0 < t)%Z -> (0 <= inject_Z v / inject_Z t)%Q.
Proof.
  intros Hv Ht. apply Qle_shift_div_l.
  - change 0%Q with (inject_Z 0). rewrite <- Zlt_Qlt. exact Ht.
  - rewrite Qmult_0_l. change 0%Q with (inject_Z 0). rewrite <- Zle_Qle. exact Hv.
Qed.

Lemma ratio_le_1 (v t : Z) :
  (0 < t)%Z -> (v <= t)%Z -> (inject_Z v / inject_Z t <= 1)%Q.
Proof.
  intros Ht Hv. apply Qle_shift_div_r.
  - change 0%Q with (inject_Z 0). rewrite <- Zlt_Qlt. exact Ht.
  - rewrite Qmult_1_l. rewrite <- Zle_Qle. exact Hv.
Qed.

(** The nearest hundredth stays within the percent range and within half a
    hundredth of the exact value. *)
Lemma round_half_up_bounds (q : Q) :
  (inject_Z (round_half_up q) <= q + (1 # 2) /\ q + (1 # 2) < inject_Z (round_half_up q + 1))%Q.
Proof.
  unfold round_half_up. split; [apply Qfloor_le | apply Qlt_floor].
Qed.

Lemma round_half_up_range (q : Q) (lo hi : Z) :
  (inject_Z lo <= q)%Q -> (q <= inject_Z hi)%Q ->
  (lo <= round_half_up q <= hi)%Z.
Proof.
  intros Hlo Hhi. unfold round_half_up. split.
  - rewrite <- (Qfloor_Z lo). apply Qfloor_resp_le.
    apply Qle_trans with q; [exact Hlo |].
    rewrite <- (Qplus_0_r q) at 1. apply Qplus_le_r. discriminate.
  - assert (H : (Qfloor (q + (1 # 2)) < hi + 1)%Z); [| lia].
    rewrite Zlt_Qlt. apply Qle_lt_trans with (q + (1 # 2))%Q; [apply Qfloor_le |].
    rewrite inject_Z_plus, (Qplus_comm q), (Qplus_comm (inject_Z hi)).
    apply Qplus_lt_le_compat; [reflexivity | exact Hhi].
Qed.


(** ** Doubles *)

Section Doubles.

Local Open Scope Q_scope.

Lemma two_pos (k : Z) : 0 < 2 ^ k.
Proof. apply Qpower_0_lt. reflexivity. Qed.

Lemma two_add (a b : Z) : 2 ^ (a + b) == 2 ^ a * 2 ^ b.
Proof. apply Qpower_plus. discriminate. Qed.

Lemma two_sub (a b : Z) : 2 ^ (a - b) == 2 ^ a / 2 ^ b.
Proof. apply Qpower_minus. discriminate. Qed.

Lemma two_le (a b : Z) : (a <= b)%Z -> 2 ^ a <= 2 ^ b.
Proof. intros H. apply Qpower_le_compat_l; [exact H | discriminate]. Qed.

Lemma two_lt_inv (a b : Z) : 2 ^ a < 2 ^ b -> (a < b)%Z.
Proof. intros H. apply (Qpower_lt_compat_l_inv 2); [exact H | reflexivity]. Qed.

Lemma two_Z (k : Z) : (0 <= k)%Z -> inject_Z (2 ^ k) == 2 ^ k.
Proof. intros H. rewrite Zpower_Qpower by exact H. reflexivity. Qed.

(** [2^(ilog2 q) <= q] *)
Lemma ilog2_le (q : Q) : 0 < q -> 2 ^ ilog2 q <= q.
Proof.
  intros Hq. unfold ilog2. cbv zeta.
  destruct (Qle_bool (2 ^ (Z.log2 (Qnum q) - Z.log2 (QDen q))) q) eqn:Htest.
  - apply Qle_bool_iff, Htest.
  - clear Htest. destruct q as [n d]. cbn [Qnum Qden] in *.
    assert (Hn : (0 < n)%Z) by (unfold Qlt in Hq; cbn in Hq; lia).
    destruct (Z.log2_spec n Hn) as [Hn1 _].
    destruct (Z.log2_spec (Z.pos d) (Pos2Z.is_pos d)) as [_ Hd2].
    pose proof (Z.log2_nonneg n) as Ha. pose proof (Z.log2_nonneg (Z.pos d)) as Hb.
    set (a := Z.log2 n) in *. set (b := Z.log2 (Z.pos d)) in *.
    replace (a - b - 1)%Z with (a - (b + 1))%Z by lia.
    rewrite two_sub, (Qmake_Qdiv n d).
    assert (H1 : 2 ^ a <= inject_Z n) by (rewrite <- two_Z by lia; rewrite <- Zle_Qle; exact Hn1).
    assert (H2 : inject_Z (Z.pos d) <= 2 ^ (b + 1)).
    { rewrite <- two_Z by lia. rewrite <- Zle_Qle. change (Z.succ b) with (b + 1)%Z in Hd2. lia. }
    assert (Hd0 : 0 < inject_Z (Z.pos d)) by reflexivity.
    pose proof (two_pos a) as Hpa. pose proof (two_pos (b + 1)) as Hpb.
    assert (E : inject_Z n / inject_Z (Z.pos d) * inject_Z (Z.pos d) == inject_Z n).
    { field. intros H. rewrite H in Hd0. discriminate Hd0. }
    apply Qle_shift_div_r; [exact Hpb |].
    apply Qle_trans with (inject_Z n / inject_Z (Z.pos d) * inject_Z (Z.pos d)).
    + rewrite E. exact H1.
    + apply Qmult_le_l; [| exact H2].
      apply Qlt_shift_div_l; [exact Hd0 |]. rewrite Qmult_0_l.
      change 0 with (inject_Z 0). rewrite <- Zlt_Qlt. exact Hn.
Qed.

(** [q < 2^(ilog2 q + 1)] *)
Lemma ilog2_lt (q : Q) : 0 < q -> q < 2 ^ (ilog2 q + 1).
Proof.
  intros Hq. unfold ilog2. cbv zeta.
  destruct (Qle_bool (2 ^ (Z.log2 (Qnum q) - Z.log2 (QDen q))) q) eqn:Htest.
  - clear Htest. destruct q as [n d]. cbn [Qnum Qden] in *.
    assert (Hn : (0 < n)%Z) by (unfold Qlt in Hq; cbn in Hq; lia).
    destruct (Z.log2_spec n Hn) as [_ Hn2].
    destruct (Z.log2_spec (Z.pos d) (Pos2Z.is_pos d)) as [Hd1 _].
    pose proof (Z.log2_nonneg n) as Ha. pose proof (Z.log2_nonneg (Z.pos d)) as Hb.
    set (a := Z.log2 n) in *. set (b := Z.log2 (Z.pos d)) in *.
    replace (a - b + 1)%Z with (a + 1 - b)%Z by lia.
    rewrite two_sub, (Qmake_Qdiv n d).
    assert (H1 : inject_Z n < 2 ^ (a + 1)).
    { rewrite <- two_Z by lia. rewrite <- Zlt_Qlt. exact Hn2. }
    assert (H2 : 2 ^ b <= inject_Z (Z.pos d)).
    { rewrite <- two_Z by lia. rewrite <- Zle_Qle. exact Hd1. }
    assert (Hd0 : 0 < inject_Z (Z.pos d)) by reflexivity.
    pose proof (two_pos b) as Hpb. pose proof (two_pos (a + 1)) as Hpa.
    apply Qlt_shift_div_r; [exact Hd0 |].
    apply Qlt_le_trans with (2 ^ (a + 1)); [exact H1 |].
    assert (E : 2 ^ (a + 1) / 2 ^ b * 2 ^ b == 2 ^ (a + 1)).
    { field. intros H. rewrite H in Hpb. discriminate Hpb. }
    rewrite <- E at 1. apply Qmult_le_l; [| exact H2].
    apply Qlt_shift_div_l; [exact Hpb |]. rewrite Qmult_0_l. exact Hpa.
  - replace (Z.log2 (Qnum q) - Z.log2 (QDen q) - 1 + 1)%Z
      with (Z.log2 (Qnum q) - Z.log2 (QDen q))%Z by lia.
    apply Qnot_le_lt. intros H. apply Qle_bool_iff in H. congruence.
Qed.

Lemma ilog2_ge (q : Q) (k : Z) : 0 < q -> 2 ^ k <= q -> (k <= ilog2 q)%Z.
Proof.
  intros Hq H. pose proof (ilog2_lt q Hq) as Hlt.
  assert (Hk : (k < ilog2 q + 1)%Z); [| lia].
  apply two_lt_inv. apply Qle_lt_trans with q; assumption.
Qed.

Lemma ilog2_lt_inv (q : Q) (k : Z) : 0 < q -> q < 2 ^ k -> (ilog2 q < k)%Z.
Proof.
  intros Hq H. pose proof (ilog2_le q Hq) as Hle.
  apply two_lt_inv. apply Qle_lt_trans with q; assumption.
Qed.

(** *** The nearest integer *)

Lemma round_half_even_near (r : Q) :
  r - (1 # 2) <= inject_Z (round_half_even r) /\ inject_Z (round_half_even r) <= r + (1 # 2).
Proof.
  unfold round_half_even. cbv zeta.
  pose proof (Qfloor_le r) as Hlo. pose proof (Qlt_floor r) as Hhi.
  rewrite inject_Z_plus in Hhi. change (inject_Z 1) with 1 in Hhi.
  destruct (Qcompare_spec (r - inject_Z (Qfloor r)) (1 # 2)) as [E | E | E].
  - destruct (Z.even (Qfloor r)); rewrite ?inject_Z_plus; change (inject_Z 1) with 1; lra.
  - lra.
  - rewrite inject_Z_plus. change (inject_Z 1) with 1. lra.
Qed.

Lemma round_half_even_le (r : Q) (n : Z) :
  r <= inject_Z n -> (round_half_even r <= n)%Z.
Proof.
  intros H. unfold round_half_even. cbv zeta.
  pose proof (Qfloor_le r) as Hlo.
  assert (Hf : (Qfloor r <= n)%Z) by (rewrite Zle_Qle; lra).
  assert (Hstep : inject_Z (Qfloor r) < r -> (Qfloor r + 1 <= n)%Z).
  { intros Hlt. assert (Hn : (Qfloor r < n)%Z); [| lia]. rewrite Zlt_Qlt. lra. }
  destruct (Qcompare_spec (r - inject_Z (Qfloor r)) (1 # 2)) as [E | E | E].
  - destruct (Z.even (Qfloor r)); [exact Hf | apply Hstep; lra].
  - exact Hf.
  - apply Hstep. lra.
Qed.

Lemma round_half_even_ge (r : Q) (n : Z) :
  inject_Z n <= r -> (n <= round_half_even r)%Z.
Proof.
  intros H. unfold round_half_even. cbv zeta.
  assert (Hf : (n <= Qfloor r)%Z).
  { rewrite <- (Qfloor_Z n). apply Qfloor_resp_le. exact H. }
  destruct (r - inject_Z (Qfloor r) ?= 1 # 2); [destruct (Z.even (Qfloor r)) | |]; lia.
Qed.

Lemma round_half_even_pos (r : Q) : 1 # 2 < r -> (1 <= round_half_even r)%Z.
Proof.
  intros H. unfold round_half_even. cbv zeta.
  assert (Hf : (0 <= Qfloor r)%Z).
  { rewrite <- (Qfloor_Z 0). apply Qfloor_resp_le. change (inject_Z 0) with 0. lra. }
  destruct (Z.eq_dec (Qfloor r) 0%Z) as [E0 | Hne].
  - rewrite E0. change (inject_Z 0) with 0.
    destruct (Qcompare_spec (r - 0) (1 # 2)) as [E | E | E]; try lra. lia.
  - destruct (r - inject_Z (Qfloor r) ?= 1 # 2); [destruct (Z.even (Qfloor r)) | |]; lia.
Qed.

(** *** The nearest double *)

Lemma Qnum_pos (x : Q) : 0 < x -> exists p, Qnum x = Z.pos p.
Proof.
  destruct x as [[| p | p] d]; unfold Qlt; cbn; intros H; try lia. exists p. reflexivity.
Qed.

Lemma scaled_back (x : Q) (e : Z) :
  x / 2 ^ e * 2 ^ e == x.
Proof.
  field. pose proof (two_pos e) as H. intros E. rewrite E in H. discriminate H.
Qed.

(** A bound [M * 2^E] that is a double bounds the rounded number too. *)
Lemma binary64_pos_le (x : Q) (M E : Z) :
  0 < x -> x <= inject_Z M * 2 ^ E -> (M < 2 ^ 53)%Z -> (-1074 <= E <= 971)%Z ->
  exists r, binary64_pos x = Some r /\ 0 <= r /\ r <= inject_Z M * 2 ^ E.
Proof.
  intros Hx Hle HM HE. unfold binary64_pos. cbv zeta.
  set (e := Z.max (ilog2 x - 52) (-1074)).
  set (m := round_half_even (x / 2 ^ e)).
  pose proof (two_pos e) as Hpe. pose proof (two_pos E) as HpE.
  assert (Hk : (ilog2 x < 53 + E)%Z).
  { apply ilog2_lt_inv; [exact Hx |].
    apply Qle_lt_trans with (inject_Z M * 2 ^ E); [exact Hle |].
    rewrite two_add. apply Qmult_lt_compat_r; [exact HpE |].
    rewrite <- two_Z by lia. rewrite <- Zlt_Qlt. exact HM. }
  assert (He : (e <= E)%Z) by (unfold e; lia).
  assert (Hscale : 2 ^ E == 2 ^ (E - e) * 2 ^ e).
  { rewrite <- two_add. replace (E - e + e)%Z with E by lia. reflexivity. }
  assert (Hm1 : (m <= M * 2 ^ (E - e))%Z).
  { apply round_half_even_le. rewrite inject_Z_mult, two_Z by lia.
    apply Qle_shift_div_r; [exact Hpe |].
    rewrite <- Qmult_assoc, <- Hscale. exact Hle. }
  assert (Hm0 : (0 <= m)%Z).
  { apply round_half_even_ge. change (inject_Z 0) with 0.
    apply Qle_shift_div_l; [exact Hpe |]. rewrite Qmult_0_l. apply Qlt_le_weak, Hx. }
  assert (Hval : inject_Z m * 2 ^ e <= inject_Z M * 2 ^ E).
  { rewrite Hscale, Qmult_assoc. apply Qmult_le_compat_r; [| apply Qlt_le_weak, Hpe].
    rewrite <- two_Z by lia. rewrite <- inject_Z_mult, <- Zle_Qle. exact Hm1. }
  assert (Hno : (1024 <=? Z.log2 m + e)%Z = false).
  { apply Z.leb_gt. destruct (Z.eq_dec m 0%Z) as [-> | Hne]; [cbn; lia |].
    assert (Hmpos : (0 < m)%Z) by lia.
    destruct (Z.log2_spec m Hmpos) as [Hl _]. pose proof (Z.log2_nonneg m) as Hl0.
    apply two_lt_inv. rewrite two_add.
    apply Qle_lt_trans with (inject_Z m * 2 ^ e).
    - apply Qmult_le_compat_r; [| apply Qlt_le_weak, Hpe].
      rewrite <- two_Z by lia. rewrite <- Zle_Qle. exact Hl.
    - apply Qle_lt_trans with (inject_Z M * 2 ^ E); [exact Hval |].
      apply Qlt_le_trans with (2 ^ 53 * 2 ^ E).
      + apply Qmult_lt_compat_r; [exact HpE |].
        rewrite <- two_Z by lia. rewrite <- Zlt_Qlt. exact HM.
      + rewrite <- two_add. apply two_le. lia. }
  rewrite Hno. exists (Qred (inject_Z m * 2 ^ e)). split; [reflexivity |].
  pose proof (Qred_correct (inject_Z m * 2 ^ e)) as Er.
  split; rewrite Er; [| exact Hval].
  apply Qmult_le_0_compat; [| apply Qlt_le_weak, Hpe].
  change 0 with (inject_Z 0). rewrite <- Zle_Qle. exact Hm0.
Qed.

(** Half the distance from 1 to the next double. *)
Definition unit_roundoff : Q := 2 ^ (-53).

(** In the normal range the rounded number is within a relative error
    of [2^-53]. *)
Lemma binary64_pos_near (x r : Q) :
  2 ^ (-1022) <= x -> binary64_pos x = Some r ->
  x * (1 - unit_roundoff) <= r /\ r <= x * (1 + unit_roundoff).
Proof.
  intros Hlo. assert (Hx : 0 < x) by (apply Qlt_le_trans with (2 ^ (-1022)); [reflexivity | exact Hlo]).
  unfold binary64_pos. cbv zeta.
  pose proof (ilog2_ge x (-1022) Hx Hlo) as Hk.
  replace (Z.max (ilog2 x - 52) (-1074)) with (ilog2 x - 52)%Z by lia.
  set (e := (ilog2 x - 52)%Z).
  set (m := round_half_even (x / 2 ^ e)).
  destruct (1024 <=? Z.log2 m + e)%Z; [discriminate |].
  intros H. injection H as <-. pose proof (Qred_correct (inject_Z m * 2 ^ e)) as Er.
  pose proof (two_pos e) as Hpe.
  destruct (round_half_even_near (x / 2 ^ e)) as [Hn1 Hn2]. fold m in Hn1, Hn2.
  assert (Hhalf : 2 ^ e * (1 # 2) <= x * unit_roundoff).
  { unfold unit_roundoff.
    apply Qle_trans with (2 ^ ilog2 x * 2 ^ (-53)).
    - rewrite <- two_add. replace (ilog2 x + -53)%Z with (e + -1)%Z by (unfold e; lia).
      rewrite two_add. apply Qle_refl.
    - apply Qmult_le_compat_r; [apply ilog2_le, Hx | discriminate]. }
  assert (E1 : (x / 2 ^ e - (1 # 2)) * 2 ^ e == x - 2 ^ e * (1 # 2))
    by (rewrite <- (scaled_back x e) at 2; ring).
  assert (E2 : (x / 2 ^ e + (1 # 2)) * 2 ^ e == x + 2 ^ e * (1 # 2))
    by (rewrite <- (scaled_back x e) at 2; ring).
  split; rewrite Er.
  - apply Qle_trans with ((x / 2 ^ e - (1 # 2)) * 2 ^ e).
    + rewrite E1. lra.
    + apply Qmult_le_compat_r; [exact Hn1 | apply Qlt_le_weak, Hpe].
  - apply Qle_trans with ((x / 2 ^ e + (1 # 2)) * 2 ^ e).
    + apply Qmult_le_compat_r; [exact Hn2 | apply Qlt_le_weak, Hpe].
    + rewrite E2. lra.
Qed.

(** A number above half the smallest double is not rounded to zero. *)
Lemma binary64_pos_positive (x r : Q) :
  0 < x -> 1 # 2 < x * 2 ^ 1074 -> binary64_pos x = Some r -> 2 ^ (-1074) <= r.
Proof.
  intros Hx Hbig. unfold binary64_pos. cbv zeta.
  set (e := Z.max (ilog2 x - 52) (-1074)).
  set (m := round_half_even (x / 2 ^ e)).
  destruct (1024 <=? Z.log2 m + e)%Z; [discriminate |].
  intros H. injection H as <-. rewrite (Qred_correct (inject_Z m * 2 ^ e)).
  pose proof (two_pos e) as Hpe.
  assert (Hm : (1 <= m)%Z).
  { destruct (Z.max_spec (ilog2 x - 52) (-1074)) as [[Hc He] | [Hc He]]; fold e in He.
    - apply round_half_even_pos. rewrite He.
      apply Qlt_le_trans with (x * 2 ^ 1074); [exact Hbig |].
      unfold Qdiv. rewrite <- Qpower_opp. apply Qle_refl.
    - apply round_half_even_ge. apply Qle_shift_div_l; [exact Hpe |].
      apply Qle_trans with (2 ^ 52 * 2 ^ e).
      + apply Qmult_le_compat_r; [discriminate | apply Qlt_le_weak, Hpe].
      + rewrite <- two_add, He. replace (52 + (ilog2 x - 52))%Z with (ilog2 x) by lia.
        apply ilog2_le, Hx. }
  apply Qle_trans with (1 * 2 ^ e).
  - rewrite Qmult_1_l. apply two_le. unfold e. lia.
  - apply Qmult_le_compat_r; [| apply Qlt_le_weak, Hpe].
    change 1 with (inject_Z 1). rewrite <- Zle_Qle. exact Hm.
Qed.

(** *** The operations on doubles *)

Lemma binary64_zero (x : Q) : x == 0 -> binary64 x = Num 0.
Proof.
  destruct x as [[| p | p] d]; unfold Qeq; cbn; intros H; try lia. reflexivity.
Qed.

Lemma binary64_of_pos (x : Q) :
  0 < x ->
  binary64 x = match binary64_pos x with Some r => Num r | None => Inf false end.
Proof.
  intros Hx. destruct (Qnum_pos x Hx) as [p Hp]. unfold binary64. rewrite Hp. reflexivity.
Qed.

Lemma binary64_le (x : Q) (M E : Z) :
  0 <= x -> x <= inject_Z M * 2 ^ E -> (M < 2 ^ 53)%Z -> (-1074 <= E <= 971)%Z ->
  exists r, binary64 x = Num r /\ 0 <= r /\ r <= inject_Z M * 2 ^ E.
Proof.
  intros Hx Hle HM HE. destruct (Qle_lt_or_eq _ _ Hx) as [Hpos | Hz].
  - rewrite (binary64_of_pos x Hpos).
    destruct (binary64_pos_le x M E Hpos Hle HM HE) as (r & -> & Hr). exists r. auto.
  - rewrite (binary64_zero x) by (symmetry; exact Hz).
    exists 0. split; [reflexivity |]. split; [apply Qle_refl |].
    apply Qle_trans with x; assumption.
Qed.

(** [q] is [x] up to the relative error [rel]. *)
Definition within (rel x q : Q) : Prop := x * (1 - rel) <= q /\ q <= x * (1 + rel).

Lemma binary64_within (x r : Q) :
  2 ^ (-1022) <= x -> binary64 x = Num r -> within unit_roundoff x r.
Proof.
  intros Hlo. assert (Hx : 0 < x) by (apply Qlt_le_trans with (2 ^ (-1022)); [reflexivity | exact Hlo]).
  rewrite (binary64_of_pos x Hx). destruct (binary64_pos x) as [r' |] eqn:Hr; [| discriminate].
  intros H. injection H as <-. apply binary64_pos_near; assumption.
Qed.

Lemma binary64_positive (x r : Q) :
  0 < x -> 1 # 2 < x * 2 ^ 1074 -> binary64 x = Num r -> 2 ^ (-1074) <= r.
Proof.
  intros Hx Hbig. rewrite (binary64_of_pos x Hx).
  destruct (binary64_pos x) as [r' |] eqn:Hr; [| discriminate].
  intros H. injection H as <-. apply (binary64_pos_positive x); assumption.
Qed.

End Doubles.

Lemma num_div_of_Z (v t : Z) :
  t <> 0%Z -> num_div (of_Z v) (of_Z t) = binary64 (inject_Z v / inject_Z t).
Proof.
  intros Ht. unfold num_div, of_Z. rewrite Qzero_inject_Z.
  destruct (Z.eqb_spec t 0); [contradiction | reflexivity].
Qed.

(** The relative error of a quotient times 100: two roundings. *)
Definition double_error : Q := 2 ^ (-51).

Lemma within_weaken (x q : Q) :
  (0 <= x)%Q -> within unit_roundoff x q -> within double_error x q.
Proof.
  unfold within, unit_roundoff, double_error.
  change (2 ^ (-53))%Q with (1 # 9007199254740992)%Q.
  change (2 ^ (-51))%Q with (1 # 2251799813685248)%Q.
  intros Hx [H1 H2]. split; lra.
Qed.

Lemma within_zero (rel x : Q) : (x == 0)%Q -> within rel x 0.
Proof. intros H. unfold within. rewrite H. split; lra. Qed.

Lemma safe_ratio (v c : Z) :
  (0 < v)%Z -> (0 < c < 2 ^ 53)%Z -> (2 ^ (-53) <= inject_Z v / inject_Z c)%Q.
Proof.
  intros Hv [Hc0 Hc]. apply Qle_shift_div_l.
  - change 0%Q with (inject_Z 0). rewrite <- Zlt_Qlt. exact Hc0.
  - apply Qle_trans with 1%Q.
    + apply Qle_trans with (2 ^ (-53) * 2 ^ 53)%Q; [| vm_compute; discriminate].
      apply Qmult_le_l; [reflexivity |].
      change (2 ^ 53)%Q with (inject_Z (2 ^ 53)). rewrite <- Zle_Qle. lia.
    + change 1%Q with (inject_Z 1). rewrite <- Zle_Qle. lia.
Qed.

(** [v / c] on doubles, for integers that doubles hold exactly: a
    number, not negative, at most [B] when the exact quotient is, within
    one rounding of the exact quotient, and not zero unless [v] is. *)
Lemma ratio_double (v c B : Z) :
  (0 <= v < 2 ^ 53)%Z -> (0 < c < 2 ^ 53)%Z -> (0 <= B < 2 ^ 53)%Z ->
  exists q,
    num_div (of_Z v) (of_Z c) = Num q
    /\ (0 <= q)%Q
    /\ (q <= inject_Z (2 ^ 53 - 1))%Q
    /\ ((v <= B * c)%Z -> (q <= inject_Z B)%Q)
    /\ within unit_roundoff (inject_Z v / inject_Z c) q
    /\ ((0 < v)%Z -> (2 ^ (-1074) <= q)%Q).
Proof.
  intros [Hv0 Hv] [Hc0 Hc] [HB0 HB]. rewrite num_div_of_Z by lia.
  set (x := (inject_Z v / inject_Z c)%Q).
  assert (Hcq : (0 < inject_Z c)%Q) by (change 0%Q with (inject_Z 0); rewrite <- Zlt_Qlt; exact Hc0).
  assert (Hx0 : (0 <= x)%Q) by (apply ratio_nonneg; assumption).
  assert (Hxv : (x <= inject_Z (2 ^ 53 - 1) * 2 ^ 0)%Q).
  { change (2 ^ 0)%Q with 1%Q. rewrite Qmult_1_r. unfold x.
    apply Qle_shift_div_r; [exact Hcq |].
    rewrite <- inject_Z_mult, <- Zle_Qle. nia. }
  destruct (binary64_le x (2 ^ 53 - 1) 0 Hx0 Hxv) as (q & Hq & Hq0 & Hq1); [lia | lia |].
  exists q. split; [exact Hq |]. split; [exact Hq0 |]. split.
  { change (2 ^ 0)%Q with 1%Q in Hq1. rewrite Qmult_1_r in Hq1. exact Hq1. }
  split; [| split].
  - intros Hle.
    assert (HxB : (x <= inject_Z B * 2 ^ 0)%Q).
    { change (2 ^ 0)%Q with 1%Q. rewrite Qmult_1_r. unfold x.
      apply Qle_shift_div_r; [exact Hcq |].
      rewrite <- inject_Z_mult, <- Zle_Qle. exact Hle. }
    destruct (binary64_le x B 0 Hx0 HxB) as (q' & Hq' & _ & Hb); [lia | lia |].
    rewrite Hq in Hq'. injection Hq' as <-.
    change (2 ^ 0)%Q with 1%Q in Hb. rewrite Qmult_1_r in Hb. exact Hb.
  - destruct (Z.eq_dec v 0) as [-> | Hne].
    + assert (Hz : (x == 0)%Q) by (unfold x, Qdiv; apply Qmult_0_l).
      rewrite (binary64_zero x Hz) in Hq. injection Hq as <-. apply within_zero, Hz.
    + apply binary64_within; [| exact Hq].
      apply Qle_trans with (2 ^ (-53))%Q; [apply two_le; lia |].
      apply safe_ratio; lia.
  - intros Hpos. apply (binary64_positive x); [| | exact Hq].
    + apply Qlt_le_trans with (2 ^ (-53))%Q; [reflexivity | apply safe_ratio; lia].
    + apply Qlt_le_trans with (2 ^ (-53) * 2 ^ 1074)%Q; [reflexivity |].
      apply Qmult_le_compat_r; [apply safe_ratio; lia | discriminate].
Qed.

(** [l / t * 100] on doubles. *)
Lemma percent_double (l t : Z) :
  (0 <= l < 2 ^ 53)%Z -> (0 < t < 2 ^ 53)%Z ->
  exists q,
    num_mul (num_div (of_Z l) (of_Z t)) (of_Z 100) = Num q
    /\ (0 <= q)%Q
    /\ (q <= 2 ^ 60)%Q
    /\ ((l <= t)%Z -> (q <= 100)%Q)
    /\ within double_error (inject_Z l / inject_Z t * 100) q
    /\ ((0 < l)%Z -> (0 < q)%Q).
Proof.
  intros Hl Ht.
  destruct (ratio_double l t 1 Hl Ht) as (q1 & -> & H0 & Hmax & Hone & Hnear & Hpos); [lia |].
  change (num_mul (Num q1) (of_Z 100)) with (binary64 (q1 * inject_Z 100)).
  set (x := (inject_Z l / inject_Z t)%Q) in *.
  assert (Hx0 : (0 <= x)%Q) by (apply ratio_nonneg; lia).
  change (inject_Z (2 ^ 53 - 1)) with 9007199254740991%Q in Hmax.
  change (inject_Z 100) with 100%Q.
  assert (Hp0 : (0 <= q1 * 100)%Q) by lra.
  assert (Hpmax : (q1 * 100 <= inject_Z (2 ^ 52) * 2 ^ 8)%Q).
  { change (inject_Z (2 ^ 52) * 2 ^ 8)%Q with (4503599627370496 * 256)%Q. lra. }
  destruct (binary64_le (q1 * 100) (2 ^ 52) 8 Hp0 Hpmax) as (q & Hq & Hq0 & Hq1); [lia | lia |].
  exists q. split; [exact Hq |]. split; [exact Hq0 |]. split.
  { change (inject_Z (2 ^ 52) * 2 ^ 8)%Q with (2 ^ 60)%Q in Hq1. exact Hq1. }
  split; [| split].
  - intros Hle. assert (H1 : (q1 <= inject_Z 1)%Q) by (apply Hone; lia).
    change (inject_Z 1) with 1%Q in H1.
    assert (HxB : (q1 * 100 <= inject_Z 100 * 2 ^ 0)%Q).
    { change (inject_Z 100 * 2 ^ 0)%Q with (100 * 1)%Q. lra. }
    destruct (binary64_le (q1 * 100) 100 0 Hp0 HxB) as (q' & Hq' & _ & Hb); [lia | lia |].
    rewrite Hq in Hq'. injection Hq' as <-.
    change (inject_Z 100 * 2 ^ 0)%Q with (100 * 1)%Q in Hb. lra.
  - destruct (Z.eq_dec l 0) as [-> | Hne].
    + assert (Hz : (x == 0)%Q) by (unfold x, Qdiv; apply Qmult_0_l).
      assert (Hq1z : (q1 == 0)%Q).
      { destruct Hnear as [Ha Hb]. rewrite Hz in Ha, Hb. lra. }
      rewrite (binary64_zero (q1 * 100)) in Hq by (rewrite Hq1z; ring).
      injection Hq as <-. apply within_zero. rewrite Hz. ring.
    + assert (Hxlo : (2 ^ (-53) <= x)%Q) by (apply safe_ratio; lia).
      assert (Hn2 : within unit_roundoff (q1 * 100) q).
      { apply binary64_within; [| exact Hq].
        destruct Hnear as [Ha _]. revert Ha Hxlo. unfold unit_roundoff.
        change (2 ^ (-53))%Q with (1 # 9007199254740992)%Q.
        intros Ha Hxlo.
        apply Qle_trans with (1 # 9007199254740992)%Q; [apply (two_le (-1022) (-53)); lia |].
        lra. }
      revert Hnear Hn2. unfold within, unit_roundoff, double_error.
      change (2 ^ (-53))%Q with (1 # 9007199254740992)%Q.
      change (2 ^ (-51))%Q with (1 # 2251799813685248)%Q.
      intros [Ha Hb] [Hc Hd]. split; lra.
  - intros Hlpos. specialize (Hpos Hlpos).
    apply Qlt_le_trans with (2 ^ (-1074))%Q; [reflexivity |].
    apply (binary64_positive (q1 * 100)); [| | exact Hq].
    + apply Qlt_le_trans with (2 ^ (-1074) * 100)%Q; [reflexivity |].
      apply Qmult_le_compat_r; [exact Hpos | discriminate].
    + apply Qlt_le_trans with (2 ^ (-1074) * 100 * 2 ^ 1074)%Q; [reflexivity |].
      apply Qmult_le_compat_r; [| discriminate].
      apply Qmult_le_compat_r; [exact Hpos | discriminate].
Qed.
(** ** Life span *)

(** The shapes of a life-span event with their numeric fields, in the
    order in which [_handle_life_span] tries them. *)
Inductive shape : Type :=
| ValTotal (val total : Z)
| ValOnly (val : Z)
| LeftTotal (left total : Z)
| LeftOnly (left : Z).

Definition has_shape (event : obj) (sh : shape) : Prop :=
  match sh with
  | ValTotal v t =>
      hasOwnProperty event "val" = true /\ hasOwnProperty event "total" = true
      /\ parseInt (field event "val") = of_Z v /\ parseInt (field event "total") = of_Z t
  | ValOnly v =>
      hasOwnProperty event "val" = true /\ hasOwnProperty event "total" = false
      /\ parseInt (field event "val") = of_Z v
  | LeftTotal l t =>
      hasOwnProperty event "val" = false /\ hasOwnProperty event "left" = true
      /\ hasOwnProperty event "total" = true
      /\ parseInt (field event "left") = of_Z l /\ parseInt (field event "total") = of_Z t
  | LeftOnly l =>
      hasOwnProperty event "val" = false /\ hasOwnProperty event "left" = true
      /\ hasOwnProperty event "total" = false
      /\ parseInt (field event "left") = of_Z l
  end.

(** The reading of a shape and the reading that stands for 100 %. *)
Definition reading (sh : shape) : Z :=
  match sh with
  | ValTotal v _ | ValOnly v => v
  | LeftTotal l _ | LeftOnly l => l
  end.

Definition full_scale (sh : shape) : Z :=
  match sh with
  | ValTotal _ t | LeftTotal _ t => t
  | ValOnly _ => 10000
  | LeftOnly _ => 6000
  end.

(** The formula of each shape. *)
Definition shape_percent (sh : shape) : Q :=
  match sh with
  | ValTotal v t => inject_Z v / inject_Z t * 100
  | ValOnly v => inject_Z v / 100
  | LeftTotal l t => inject_Z l / inject_Z t * 100
  | LeftOnly l => inject_Z l / 60
  end.

Lemma shape_percent_scale (sh : shape) :
  (shape_percent sh == inject_Z (reading sh) / inject_Z (full_scale sh) * 100)%Q.
Proof.
  destruct sh; simpl; try reflexivity.
  - unfold Qdiv. rewrite <- Qmult_assoc. apply Qmult_comp; reflexivity.
  - unfold Qdiv. rewrite <- Qmult_assoc. apply Qmult_comp; reflexivity.
Qed.

Lemma percent_range (v t : Z) :
  (0 <= v)%Z -> (0 < t)%Z ->
  (0 <= inject_Z v / inject_Z t * 100)%Q
  /\ ((v <= t)%Z -> (inject_Z v / inject_Z t * 100 <= 100)%Q).
Proof.
  intros Hv Ht. split.
  - apply Qmult_le_0_compat; [apply ratio_nonneg; assumption | discriminate].
  - intros Hle. apply Qle_trans with (1 * 100)%Q; [| discriminate].
    apply Qmult_le_compat_r; [apply ratio_le_1; assumption | discriminate].
Qed.


(** The value that [_handle_life_span] computes for a shape: the formula
    of the shape up to the rounding of doubles. *)
Lemma life_span_value_shape (event : obj) (sh : shape) :
  has_shape event sh -> (0 <= reading sh < 2 ^ 53)%Z -> (0 < full_scale sh < 2 ^ 53)%Z ->
  exists q,
    Non950.life_span_value event = Some (Num q)
    /\ within double_error (shape_percent sh) q
    /\ (0 <= q)%Q
    /\ ((reading sh <= full_scale sh)%Z -> (q <= 100)%Q)
    /\ ((0 < reading sh)%Z -> (0 < q)%Q).
Proof.
  intros Hs Hr Hf. unfold Non950.life_span_value.
  destruct sh as [v t | v | l t | l]; cbn [has_shape full_scale reading shape_percent] in *.
  - destruct Hs as (-> & -> & -> & ->). cbn [andb].
    destruct (percent_double v t Hr Hf) as (q & -> & H0 & _ & H100 & Hnear & Hpos).
    exists q. auto.
  - destruct Hs as (-> & -> & ->). cbn [andb].
    destruct (ratio_double v 100 100 Hr) as (q & -> & H0 & _ & H100 & Hnear & Hpos);
      [lia | lia |].
    exists q. split; [reflexivity |]. split; [| split; [exact H0 | split]].
    + apply within_weaken; [apply ratio_nonneg; lia | exact Hnear].
    + intros Hle. apply H100. lia.
    + intros Hv. apply Qlt_le_trans with (2 ^ (-1074))%Q; [reflexivity | exact (Hpos Hv)].
  - destruct Hs as (-> & -> & -> & -> & ->). cbn [andb].
    destruct (percent_double l t Hr Hf) as (q & -> & H0 & _ & H100 & Hnear & Hpos).
    exists q. auto.
  - destruct Hs as (-> & -> & -> & ->). cbn [andb].
    destruct (ratio_double l 60 100 Hr) as (q & -> & H0 & _ & H100 & Hnear & Hpos);
      [lia | lia |].
    exists q. split; [reflexivity |]. split; [| split; [exact H0 | split]].
    + apply within_weaken; [apply ratio_nonneg; lia | exact Hnear].
    + intros Hle. apply H100. lia.
    + intros Hv. apply Qlt_le_trans with (2 ^ (-1074))%Q; [reflexivity | exact (Hpos Hv)].
Qed.
Lemma _handle_life_span_stores (C : string -> value) (event : obj) (n : num)
    (s : Non950.session) :
  hasOwnProperty event "type" = true ->
  truthy (C (to_string (field event "type"))) = true ->
  Non950.life_span_value event = Some n ->
  Non950._handle_life_span C event s =
    (if num_truthy n
     then Non950.set_components
            (insert (to_string (C (to_string (field event "type")))) n) s
     else s, Ok tt).
Proof.
  intros Hty Hc Hv. unfold Non950._handle_life_span.
  rewrite Hty, Hc, Hv. simpl. destruct (num_truthy n); reflexivity.
Qed.


(** [q] is [x] rounded to two decimal places, as [toFixed(2)] does it on
    the double that stands for [x]: [q] is the double nearest to
    [n / 100], and the integer [n] is within a half of [x * 100], up to
    the rounding of the operations that computed [x]. *)
Definition rounded_2dp (x q : Q) : Prop :=
  exists n : Z,
    binary64 (n # 100) = Num q
    /\ (x * 100 * (1 - double_error) - (1 # 2) <= inject_Z n)%Q
    /\ (inject_Z n <= x * 100 * (1 + double_error) + (1 # 2))%Q.

Lemma hundredths (n : Z) : (n # 100 == inject_Z n * (1 # 100))%Q.
Proof. unfold Qeq. cbn. lia. Qed.

Lemma lifespan_percent_range (left total : value) (l t : Z) :
  parseInt left = of_Z l -> parseInt total = of_Z t ->
  (0 <= l < 2 ^ 53)%Z -> (0 < t < 2 ^ 53)%Z ->
  exists q,
    T950.lifespan_percent left total = Num q
    /\ rounded_2dp (inject_Z l / inject_Z t * 100) q
    /\ (0 <= q)%Q
    /\ ((l <= t)%Z -> (q <= 100)%Q).
Proof.
  intros Hl Ht Hl0 Ht0. unfold T950.lifespan_percent. rewrite Hl, Ht.
  destruct (percent_double l t Hl0 Ht0) as (p & -> & Hp0 & Hpmax & Hp100 & Hnear & _).
  set (x := (inject_Z l / inject_Z t * 100)%Q) in *.
  change (2 ^ 60)%Q with 1152921504606846976%Q in Hpmax.
  unfold toFixed2. rewrite (Qneg_false p Hp0).
  assert (Hbig : Qle_bool (inject_Z (10 ^ 21)) p = false).
  { destruct (Qle_bool (inject_Z (10 ^ 21)) p) eqn:E; [| reflexivity].
    apply Qle_bool_iff in E. change (inject_Z (10 ^ 21)) with 1000000000000000000000%Q in E.
    lra. }
  rewrite Hbig.
  set (n := round_half_up (p * 100)).
  destruct (round_half_up_bounds (p * 100)) as [Hn1 Hn2]. fold n in Hn1, Hn2.
  rewrite inject_Z_plus in Hn2. change (inject_Z 1) with 1%Q in Hn2.
  pose proof (hundredths n) as En.
  assert (Hn0 : (0 <= inject_Z n)%Q).
  { assert (H : (0 <= n)%Z); [| rewrite Zle_Qle in H; exact H].
    assert (H : (-1 < n)%Z); [| lia]. rewrite Zlt_Qlt. change (inject_Z (-1)) with (-1)%Q. lra. }
  assert (Hh0 : (0 <= n # 100)%Q) by (rewrite En; lra).
  assert (Hhmax : (n # 100 <= inject_Z (2 ^ 52) * 2 ^ 9)%Q).
  { rewrite En. change (inject_Z (2 ^ 52) * 2 ^ 9)%Q with (4503599627370496 * 512)%Q. lra. }
  destruct (binary64_le (n # 100) (2 ^ 52) 9 Hh0 Hhmax) as (q & Hq & Hq0 & _); [lia | lia |].
  exists q. split; [exact Hq |]. split; [| split; [exact Hq0 |]].
  - exists n. split; [exact Hq |].
    revert Hnear. unfold within, double_error.
    change (2 ^ (-51))%Q with (1 # 2251799813685248)%Q.
    intros [Ha Hb]. split; lra.
  - intros Hle. specialize (Hp100 Hle).
    assert (Hh100 : (n # 100 <= inject_Z 100 * 2 ^ 0)%Q).
    { rewrite En. change (inject_Z 100 * 2 ^ 0)%Q with (100 * 1)%Q.
      assert (H : (n <= 10000)%Z); [| rewrite Zle_Qle in H; change (inject_Z 10000) with 10000%Q in H; lra].
      assert (H : (n < 10001)%Z); [| lia]. rewrite Zlt_Qlt.
      change (inject_Z 10001) with 10001%Q. lra. }
    destruct (binary64_le (n # 100) 100 0 Hh0 Hh100) as (q' & Hq' & _ & Hb); [lia | lia |].
    rewrite Hq in Hq'. injection Hq' as <-.
    change (inject_Z 100 * 2 ^ 0)%Q with (100 * 1)%Q in Hb. lra.
Qed.
(** The component under which [handleLifespan] files an element. *)
Definition component_key (C : string -> value) (element : obj) : string :=
  to_string
    (if truthy (C (to_string (field element "type")))
     then C (to_string (field element "type"))
     else field element "type").

Lemma handleLifespan_single (C : string -> value) (element : obj) (s : T950.session) :
  let s' := fst (T950.handleLifespan C (VArr [VObj element]) s) in
  snd (T950.handleLifespan C (VArr [VObj element]) s) = Ok tt
  /\ T950.components s' !! component_key C element =
       Some (T950.lifespan_percent (field element "left") (field element "total")).
Proof.
  unfold T950.handleLifespan, component_key. cbn [own_values for_each truthy].
  unfold bind, get, ret, modify, T950.envLogWarn, T950.emit. cbn.
  destruct (truthy (C (to_string (field element "type")))); cbn;
    (split; [reflexivity | apply lookup_insert_eq]).
Qed.

Definition in_percent_range (n : num) : bool :=
  num_ge n (of_Z 0) && num_ge (of_Z 100) n.

(** C1, as the claim states it, fails: a reading above its full scale
    gives a percentage above 100 on both handlers, which store it as it
    is. The 950-type handler gets [{type: 'brush', left: 150, total: 100}],
    the non-950 handler [{type: 'Brush', left: 9000}]. *)
Lemma life_span_above_100 :
  T950.components
    (fst (T950.handleLifespan T950.sample_components
            (VArr [VObj [("type", VStr "brush"); ("left", VInt 150); ("total", VInt 100)]])
            T950.new_session)) !! "main_brush" = Some (of_Z 150)
  /\ Non950.components
       (fst (Non950._handle_life_span Non950.sample_components
               [("type", VStr "Brush"); ("left", VInt 9000)]
               (Non950.new_session false))) !! "main_brush" = Some (of_Z 150)
  /\ in_percent_range (of_Z 150) = false.
Proof. vm_compute. repeat split. Qed.


(** C1 (amended): for a life-span payload whose numeric fields parse to a
    non-negative reading and a positive total, both integers that a
    double holds exactly, the non-950 handler computes [val/total*100],
    [val/100], [left/total*100] or [left/60] according to the shape of
    the payload, in double arithmetic (within a relative error of
    [2^-51] of the formula), and stores it under the component unless it
    is zero; the 950-type handler stores [left/total*100], computed in
    double arithmetic and rounded to two decimal places by [toFixed(2)].
    The percentage is never negative, and it is at most 100 when the
    reading does not exceed the full scale of its shape ([total], 10000
    for [val] alone, 6000 for [left] alone); the handlers do not clamp
    it. *)
Theorem life_span_percentage
    (C0 C : string -> value) (event element : obj) (sh : shape) (l t : Z)
    (s0 : Non950.session) (s : T950.session) :
  has_shape event sh -> (0 <= reading sh < 2 ^ 53)%Z -> (0 < full_scale sh < 2 ^ 53)%Z ->
  hasOwnProperty event "type" = true ->
  truthy (C0 (to_string (field event "type"))) = true ->
  parseInt (field element "left") = of_Z l ->
  parseInt (field element "total") = of_Z t ->
  (0 <= l < 2 ^ 53)%Z -> (0 < t < 2 ^ 53)%Z ->
  (exists q,
     Non950.life_span_value event = Some (Num q)
     /\ within double_error (shape_percent sh) q
     /\ (0 <= q)%Q
     /\ ((reading sh <= full_scale sh)%Z -> (q <= 100)%Q)
     /\ ((0 < reading sh)%Z ->
         Non950.components (fst (Non950._handle_life_span C0 event s0))
           !! to_string (C0 (to_string (field event "type"))) = Some (Num q)))
  /\ (exists q,
        T950.components (fst (T950.handleLifespan C (VArr [VObj element]) s))
          !! component_key C element = Some (Num q)
        /\ rounded_2dp (inject_Z l / inject_Z t * 100) q
        /\ (0 <= q)%Q
        /\ ((l <= t)%Z -> (q <= 100)%Q)).
Proof.
  intros Hs Hr Hf Hty Hc Hl Ht Hl0 Ht0. split.
  - destruct (life_span_value_shape event sh Hs Hr Hf) as (q & Hv & Hnear & Hlo & Hhi & Hpos).
    exists q. split; [exact Hv |]. split; [exact Hnear |].
    split; [exact Hlo |]. split; [exact Hhi |].
    intros Hreading.
    rewrite (_handle_life_span_stores C0 event (Num q) s0 Hty Hc Hv).
    assert (Hnz : num_truthy (Num q) = true).
    { cbn [num_truthy]. apply Bool.negb_true_iff, Qzero_false. intros Hz.
      specialize (Hpos Hreading). rewrite Hz in Hpos. discriminate Hpos. }
    rewrite Hnz. cbn [fst]. apply lookup_insert_eq.
  - destruct (lifespan_percent_range _ _ l t Hl Ht Hl0 Ht0) as (q & Hv & Hrd & Hlo & Hhi).
    exists q. destruct (handleLifespan_single C element s) as [_ Hst].
    cbv zeta in Hst. rewrite Hst, Hv. auto.
Qed.

Lemma life_span_percentage_witness :
  (exists q,
     Non950.life_span_value [("type", VStr "Brush"); ("left", VInt 50); ("total", VInt 200)]
       = Some (Num q)
     /\ (0 <= q)%Q /\ (q <= 100)%Q)
  /\ (exists q,
        T950.components
          (fst (T950.handleLifespan T950.sample_components
                  (VArr [VObj [("type", VStr "heap"); ("left", VInt 23); ("total", VInt 160)]])
                  T950.new_session)) !! "filter" = Some (Num q)
        /\ (0 <= q)%Q /\ (q <= 100)%Q).
Proof.
  destruct (life_span_percentage Non950.sample_components T950.sample_components
              [("type", VStr "Brush"); ("left", VInt 50); ("total", VInt 200)]
              [("type", VStr "heap"); ("left", VInt 23); ("total", VInt 160)]
              (LeftTotal 50 200) 23 160 (Non950.new_session false) T950.new_session)
    as [(q & Hv & _ & Hlo & Hhi & _) (q' & Hst & _ & Hlo' & Hhi')];
    try reflexivity; try (cbn; lia).
  - repeat split; reflexivity.
  - split.
    + exists q. split; [exact Hv |]. split; [exact Hlo |]. apply Hhi. cbn. lia.
    + exists q'. split; [exact Hst |]. split; [exact Hlo' |]. apply Hhi'. lia.
Defined.

(** The readings 23 of 160 and 261 of 7200: the exact percentages 14.375
    and 3.625 are ties, the doubles that the handler computes lie just
    below them, and [toFixed(2)] gives 14.37 and 3.62. *)
Lemma handleLifespan_rounds_the_double :
  T950.lifespan_percent (VInt 23) (VInt 160) = binary64 (1437 # 100)
  /\ T950.lifespan_percent (VInt 261) (VInt 7200) = binary64 (362 # 100)
  /\ T950.lifespan_percent (VInt 1) (VInt 3) = binary64 (3333 # 100)
  /\ Non950.life_span_value [("left", VInt 23); ("total", VInt 160)]
     = Some (Num (8092405580431359 # 562949953421312)).
Proof. vm_compute. repeat split. Qed.
Lemma zero_reading_falsy (x : num) :
  num_truthy (num_mul (num_div (of_Z 0) x) (of_Z 100)) = false.
Proof.
  destruct x as [q | | b]; try reflexivity.
  unfold num_div, of_Z. rewrite Qzero_inject_Z. cbn [Z.eqb].
  destruct (Qzero q); [reflexivity |].
  rewrite (binary64_zero (inject_Z 0 / q)) by (unfold Qdiv; apply Qmult_0_l).
  reflexivity.
Qed.

(** C9: when the value that the non-950 handler computes is zero, the
    components store and the rest of the session stay as they were: so
    for [val] 0 with any [total], and for [left] 0 when there is no
    [val]. *)
Theorem zero_life_span_not_stored (C : string -> value) (event : obj) (s : Non950.session) :
  (exists q, Non950.life_span_value event = Some (Num q) /\ (q == 0)%Q)
  \/ (hasOwnProperty event "val" = true /\ parseInt (field event "val") = of_Z 0)
  \/ (hasOwnProperty event "val" = false /\ hasOwnProperty event "left" = true
      /\ parseInt (field event "left") = of_Z 0) ->
  Non950._handle_life_span C event s = (s, Ok tt).
Proof.
  intros H.
  assert (Hv : exists n, Non950.life_span_value event = Some n /\ num_truthy n = false).
  { destruct H as [(q & Hq & Hz) | [(Hval & Hp) | (Hval & Hleft & Hp)]].
    - exists (Num q). split; [exact Hq |].
      simpl. apply Bool.negb_false_iff, Qzero_true, Hz.
    - unfold Non950.life_span_value. rewrite Hval, Hp. cbn [andb].
      destruct (hasOwnProperty event "total"); eexists; (split; [reflexivity |]).
      + apply zero_reading_falsy.
      + reflexivity.
    - unfold Non950.life_span_value. rewrite Hval, Hleft, Hp. cbn [andb].
      destruct (hasOwnProperty event "total"); eexists; (split; [reflexivity |]).
      + apply zero_reading_falsy.
      + reflexivity. }
  destruct Hv as (n & Hn & Hf). unfold Non950._handle_life_span.
  rewrite Hn, Hf.
  destruct (negb (truthy _)); reflexivity.
Qed.

Lemma zero_life_span_not_stored_witness :
  Non950._handle_life_span Non950.sample_components
    [("type", VStr "Brush"); ("val", VInt 0); ("total", VInt 100)]
    (Non950.set_components (insert "main_brush" (of_Z 50)) (Non950.new_session false))
  = (Non950.set_components (insert "main_brush" (of_Z 50)) (Non950.new_session false), Ok tt).
Proof.
  apply (zero_life_span_not_stored Non950.sample_components).
  right. left. split; reflexivity.
Defined.

(** ** Battery *)

Lemma handleBattery_eq (payload : obj) (s : T950.session) :
  T950.handleBattery payload s =
    (T950.set_batteryIsLow
       (VBool (if hasOwnProperty payload "isLow"
               then num_truthy (to_number (field payload "isLow"))
               else num_ge (to_number (field payload "value")) (of_Z 15)))
       (T950.set_batteryLevel (field payload "value") s), Ok tt).
Proof.
  unfold T950.handleBattery, bind, modify, gets.
  destruct (hasOwnProperty payload "isLow"); reflexivity.
Qed.

(** C10: for a payload with the numeric level [level], [handleBattery]
    stores the level and sets [batteryIsLow] to [level >= 15] when the
    payload has no [isLow], and to the truthiness of [Number(isLow)] when
    it has one. *)
Theorem handleBattery_isLow (payload : obj) (level : Z) (s : T950.session) :
  to_number (field payload "value") = of_Z level ->
  T950.handleBattery payload s =
    (T950.set_batteryIsLow
       (VBool (if hasOwnProperty payload "isLow"
               then num_truthy (to_number (field payload "isLow"))
               else (15 <=? level)%Z))
       (T950.set_batteryLevel (field payload "value") s), Ok tt).
Proof.
  intros Hlevel. rewrite handleBattery_eq, Hlevel, num_ge_of_Z. reflexivity.
Qed.

Lemma handleBattery_isLow_witness :
  T950.batteryIsLow (fst (T950.handleBattery [("value", VInt 80)] T950.new_session))
    = VBool true
  /\ T950.batteryIsLow (fst (T950.handleBattery [("value", VInt 10)] T950.new_session))
     = VBool false
  /\ T950.batteryIsLow
       (fst (T950.handleBattery [("value", VInt 10); ("isLow", VInt 1)] T950.new_session))
     = VBool true.
Proof.
  rewrite (handleBattery_isLow [("value", VInt 80)] 80) by reflexivity.
  rewrite (handleBattery_isLow [("value", VInt 10)] 10) by reflexivity.
  rewrite (handleBattery_isLow [("value", VInt 10); ("isLow", VInt 1)] 10) by reflexivity.
  repeat split.
Defined.

(** ** Clean state *)

Lemma strict_eq_VStr (v : value) (s : string) :
  strict_eq v (VStr s) = true -> v = VStr s.
Proof.
  destruct v; simpl; try discriminate.
  intros H. apply String.eqb_eq in H. congruence.
Qed.

Section CleanInfo.

Variable super_run : string -> list value -> M T950.session unit.
Variable hasMainBrush hasUnitCareInfo hasRoundMopInfo : T950.session -> bool.
Variable isMapImageSupported : T950.session -> bool.
Variable getModelType : T950.session -> string.
Variable isValidVirtualWallType : value -> bool.
Variable isAirPurifier : value -> bool.
Variable COMPONENT_TO_ECOVACS : string -> value.
Variable CLEAN_MODE_FROM_ECOVACS : string -> value.

Let run :=
  T950.run super_run hasMainBrush hasUnitCareInfo hasRoundMopInfo isMapImageSupported
    getModelType isValidVirtualWallType isAirPurifier COMPONENT_TO_ECOVACS.

Let handleCleanInfo :=
  T950.handleCleanInfo super_run hasMainBrush hasUnitCareInfo hasRoundMopInfo
    isMapImageSupported getModelType isValidVirtualWallType isAirPurifier
    COMPONENT_TO_ECOVACS CLEAN_MODE_FROM_ECOVACS.

(** The base class answers [run('GetChargeState')] by sending that one
    request. *)
Definition base_sends_GetChargeState : Prop :=
  forall s, super_run "GetChargeState" [] s
            = T950.sendCommand (Request "GetChargeState" []) s.

(** The [switch] of the subclass has no case for the command. *)
Lemma run_GetChargeState (s : T950.session) :
  base_sends_GetChargeState ->
  run "GetChargeState" [] s
  = (T950.set_sent (T950.sent s ++ [Request "GetChargeState" []]) s, Ok tt).
Proof.
  intros Hbase. unfold run, T950.run, bind. rewrite Hbase. reflexivity.
Qed.

Definition reset_areas (s : T950.session) : T950.session :=
  T950.set_currentCustomAreaValues (VStr "") (T950.set_currentSpotAreas (VStr "") s).

(** The clean type that the handler works with: [content.type] when
    [cleanState.content] is an object, else [cleanState.type]. *)
Definition clean_type (payload : obj) : result value :=
  match property (field payload "cleanState") "content" with
  | Ok content =>
      if typeof_object content then property content "type"
      else property (field payload "cleanState") "type"
  | Throw e => Throw e
  end.

Definition active_area_clean (payload : obj) (area : string) : Prop :=
  strict_eq (field payload "state") (VStr "clean") = true
  /\ clean_type payload = Ok (VStr area).

(** Case analysis on the tests of a method body, the conditions first. *)
Ltac break_match :=
  repeat first
    [ match goal with
      | |- context [if ?b then _ else _] =>
          match type of b with bool => destruct b eqn:?; cbn [fst snd] in * end
      end
    | match goal with
      | |- context [match property ?v ?k with _ => _ end] =>
          destruct (property v k) eqn:?; cbn [fst snd] in *
      end
    | match goal with
      | |- context [match ?x with _ => _ end] =>
          match type of x with value => destruct x eqn:?; cbn [fst snd] in * end
      end
    | match goal with
      | |- context [match ?x with _ => _ end] => destruct x eqn:?; cbn [fst snd] in *
      end ].

Lemma handleCleanInfo_resets (payload : obj) (s : T950.session) :
  handleCleanInfo payload s = handleCleanInfo payload (reset_areas s).
Proof.
  unfold handleCleanInfo, T950.handleCleanInfo, bind, modify, reset_areas.
  destruct s; reflexivity.
Qed.

Lemma areas_after_handleCleanInfo (payload : obj) (s : T950.session) :
  base_sends_GetChargeState ->
  (~ active_area_clean payload "spotArea" ->
   T950.currentSpotAreas (fst (handleCleanInfo payload s)) = VStr "")
  /\ (~ active_area_clean payload "customArea" ->
      T950.currentCustomAreaValues (fst (handleCleanInfo payload s)) = VStr "").
Proof.
  intros Hbase. unfold active_area_clean, clean_type.
  unfold handleCleanInfo, T950.handleCleanInfo.
  fold run.
  unfold T950.split_length, bind, modify, get, ret, throw.
  cbn [fst snd].
  destruct (strict_eq (field payload "state") (VStr "clean")) eqn:Hstate.
  - destruct (property (field payload "cleanState") "type") as [type0 |] eqn:Htype0;
      cbn [fst snd]; [| split; reflexivity].
    destruct (property (field payload "cleanState") "content") as [content |] eqn:Hcontent;
      cbn [fst snd]; [| split; reflexivity].
    split; intros Hn; break_match; try reflexivity;
      exfalso; apply Hn; (split; [reflexivity |]);
      try match goal with
          | H : ?l = Ok _ |- ?l = Ok _ => rewrite H
          end;
      f_equal; apply strict_eq_VStr; assumption.
  - destruct (strict_eq (field payload "trigger") (VStr "alert")); cbn [fst snd];
      [split; reflexivity |].
    destruct (strict_eq (CLEAN_MODE_FROM_ECOVACS (to_string (field payload "state")))
                (VStr "returning")).
    + destruct (truthy _); split; reflexivity.
    + destruct (strict_eq _ (VStr "idle")); [| split; reflexivity].
      rewrite (run_GetChargeState _ Hbase). split; reflexivity.
Qed.

(** C8: [handleCleanInfo] begins by resetting [currentSpotAreas] and
    [currentCustomAreaValues], so its outcome does not depend on what they
    held, and after it each of them is the empty string unless the payload
    is a clean of that area type. *)
Theorem handleCleanInfo_clears_areas (payload : obj) (s : T950.session) :
  base_sends_GetChargeState ->
  handleCleanInfo payload s = handleCleanInfo payload (reset_areas s)
  /\ (~ active_area_clean payload "spotArea" ->
      T950.currentSpotAreas (fst (handleCleanInfo payload s)) = VStr "")
  /\ (~ active_area_clean payload "customArea" ->
      T950.currentCustomAreaValues (fst (handleCleanInfo payload s)) = VStr "").
Proof.
  intros Hbase. split; [apply handleCleanInfo_resets |].
  apply areas_after_handleCleanInfo, Hbase.
Qed.

Lemma sent_after_clean_or_alert (payload : obj) (s : T950.session) :
  strict_eq (field payload "state") (VStr "clean") = true
  \/ strict_eq (field payload "trigger") (VStr "alert") = true ->
  T950.sent (fst (handleCleanInfo payload s)) = T950.sent s.
Proof.
  intros H. unfold handleCleanInfo, T950.handleCleanInfo.
  unfold T950.split_length, bind, modify, get, ret, throw. cbn [fst snd].
  destruct (strict_eq (field payload "state") (VStr "clean")).
  - break_match; reflexivity.
  - destruct H as [H | H]; [discriminate H |]. rewrite H. reflexivity.
Qed.

(** C6 (amended): for a payload whose [state] is not ['clean'] and whose
    [trigger] is not ['alert'], a state that the dictionary maps to
    ['returning'] sets the charge status to ['returning'] and sends
    nothing, and a state that it maps to ['idle'] sends exactly one
    [GetChargeState] request; every other payload, the clean and the
    alert ones included, sends nothing. *)
Theorem handleCleanInfo_charge_status (payload : obj) (s : T950.session) :
  base_sends_GetChargeState ->
  let mode := CLEAN_MODE_FROM_ECOVACS (to_string (field payload "state")) in
  let s' := fst (handleCleanInfo payload s) in
  let other :=
    strict_eq (field payload "state") (VStr "clean")
    || strict_eq (field payload "trigger") (VStr "alert") in
  (other = false -> strict_eq mode (VStr "returning") = true ->
   T950.chargeStatus s' = VStr "returning" /\ T950.sent s' = T950.sent s)
  /\ (other = false -> strict_eq mode (VStr "idle") = true ->
      T950.sent s' = (T950.sent s ++ [Request "GetChargeState" []])%list
      /\ T950.chargeStatus s' = T950.chargeStatus s)
  /\ (other = true \/ strict_eq mode (VStr "idle") = false ->
      T950.sent s' = T950.sent s).
Proof.
  intros Hbase mode s' other.
  assert (Hrun : other = false ->
                 handleCleanInfo payload s
                 = (if strict_eq mode (VStr "returning") then
                      if truthy mode
                      then (T950.set_chargeStatus mode
                              (T950.set_cleanReport mode (reset_areas s)), Ok tt)
                      else (T950.set_cleanReport mode (reset_areas s), Ok tt)
                    else if strict_eq mode (VStr "idle") then
                      run "GetChargeState" [] (T950.set_cleanReport mode (reset_areas s))
                    else (T950.set_cleanReport mode (reset_areas s), Ok tt))).
  { intros Ho. apply Bool.orb_false_iff in Ho as [Hc Ha].
    unfold handleCleanInfo, T950.handleCleanInfo, bind, modify, ret. cbn [fst snd].
    rewrite Hc, Ha. fold mode. fold run.
    destruct (strict_eq mode (VStr "returning")); [destruct (truthy mode); reflexivity |].
    destruct (strict_eq mode (VStr "idle")); reflexivity. }
  split; [| split].
  - intros Ho Hm. subst s'. rewrite (Hrun Ho), Hm.
    apply strict_eq_VStr in Hm. rewrite Hm. cbn. split; reflexivity.
  - intros Ho Hm. subst s'. rewrite (Hrun Ho), Hm.
    apply strict_eq_VStr in Hm. rewrite Hm. cbn [strict_eq String.eqb Ascii.eqb Bool.eqb].
    rewrite (run_GetChargeState _ Hbase). split; reflexivity.
  - intros [Ho | Hm]; subst s'.
    + apply sent_after_clean_or_alert. apply Bool.orb_true_iff, Ho.
    + destruct other eqn:Ho.
      * apply sent_after_clean_or_alert. apply Bool.orb_true_iff, Ho.
      * rewrite (Hrun eq_refl), Hm.
        destruct (strict_eq mode (VStr "returning")); [destruct (truthy mode) |];
          reflexivity.
Qed.

End CleanInfo.

Lemma sample_base_sends_GetChargeState :
  base_sends_GetChargeState T950.sample_super_run.
Proof. intros s. reflexivity. Defined.

Lemma handleCleanInfo_clears_areas_witness :
  T950.currentSpotAreas
    (fst (T950.sample_handleCleanInfo [("state", VStr "idle")]
            (T950.set_currentSpotAreas (VStr "1,2") T950.new_session))) = VStr "".
Proof.
  apply (handleCleanInfo_clears_areas T950.sample_super_run T950.no_capability
           T950.no_capability T950.no_capability T950.no_capability (fun _ => "950")
           (fun v => strict_eq v (VStr "vw") || strict_eq v (VStr "mw"))
           (fun _ => false) T950.sample_components_to T950.sample_clean_mode
           [("state", VStr "idle")]
           (T950.set_currentSpotAreas (VStr "1,2") T950.new_session)
           sample_base_sends_GetChargeState).
  intros [H _]. discriminate H.
Defined.

(** C6, as the claim states it, fails on an alert: the dictionary maps
    [goCharging] to ['returning'] and [idle] to ['idle'], yet
    [{state: 'goCharging', trigger: 'alert'}] leaves the charge status as
    it was and [{state: 'idle', trigger: 'alert'}] sends no request. *)
Lemma alert_skips_charge_status :
  T950.sample_clean_mode "goCharging" = VStr "returning"
  /\ T950.chargeStatus
       (fst (T950.sample_handleCleanInfo
               [("state", VStr "goCharging"); ("trigger", VStr "alert")]
               T950.new_session)) = VNull
  /\ T950.sample_clean_mode "idle" = VStr "idle"
  /\ T950.sent
       (fst (T950.sample_handleCleanInfo
               [("state", VStr "idle"); ("trigger", VStr "alert")]
               T950.new_session)) = [].
Proof. vm_compute. repeat split. Qed.

Lemma handleCleanInfo_charge_status_witness :
  T950.sent (fst (T950.sample_handleCleanInfo [("state", VStr "idle")] T950.new_session))
  = [Request "GetChargeState" []]
  /\ T950.chargeStatus
       (fst (T950.sample_handleCleanInfo [("state", VStr "goCharging")] T950.new_session))
     = VStr "returning".
Proof.
  pose proof (handleCleanInfo_charge_status T950.sample_super_run T950.no_capability
                T950.no_capability T950.no_capability T950.no_capability (fun _ => "950")
                (fun v => strict_eq v (VStr "vw") || strict_eq v (VStr "mw"))
                (fun _ => false) T950.sample_components_to T950.sample_clean_mode
                [("state", VStr "idle")] T950.new_session
                sample_base_sends_GetChargeState) as (_ & Hidle & _).
  pose proof (handleCleanInfo_charge_status T950.sample_super_run T950.no_capability
                T950.no_capability T950.no_capability T950.no_capability (fun _ => "950")
                (fun v => strict_eq v (VStr "vw") || strict_eq v (VStr "mw"))
                (fun _ => false) T950.sample_components_to T950.sample_clean_mode
                [("state", VStr "goCharging")] T950.new_session
                sample_base_sends_GetChargeState) as (Hret & _ & _).
  split.
  - apply Hidle; reflexivity.
  - apply Hret; reflexivity.
Defined.

(** ** Errors *)

(** The text that [_handle_error] falls back on when the table gives no
    description: [event.error], else [event.errs]. *)
Definition reported_error (event : obj) : value :=
  let errorCode := if hasOwnProperty event "error" then field event "error" else VNull in
  if negb (truthy errorCode) && hasOwnProperty event "errs"
  then field event "errs" else errorCode.

Lemma _handle_error_NoError (E : string -> value) (event : obj) (s : Non950.session) :
  hasOwnProperty event "errno" = true ->
  truthy (E (to_string (field event "errno"))) = true ->
  loose_eq_string (field event "errno") "100" = true ->
  Non950._handle_error E event s = (s, Ok tt).
Proof.
  intros Hno Hknown H100. unfold Non950._handle_error.
  rewrite Hno, Hknown, H100. reflexivity.
Qed.

Lemma _handle_error_known (E : string -> value) (event : obj) (s : Non950.session) :
  hasOwnProperty event "errno" = true ->
  truthy (E (to_string (field event "errno"))) = true ->
  loose_eq_string (field event "errno") "100" = false ->
  Non950._handle_error E event s
  = (Non950.set_error_event (E (to_string (field event "errno"))) s, Ok tt).
Proof.
  intros Hno Hknown H100. unfold Non950._handle_error.
  rewrite Hno, Hknown, H100. cbn [andb]. rewrite Hknown. cbn [negb andb].
  rewrite Hknown. cbn [negb andb]. rewrite Hknown. reflexivity.
Qed.

Lemma _handle_error_unknown (E : string -> value) (event : obj) (s : Non950.session) :
  truthy (E (to_string (field event "errno"))) = false ->
  Non950._handle_error E event s
  = (if truthy (reported_error event)
     then Non950.set_error_event (reported_error event) s else s, Ok tt).
Proof.
  intros Hunknown. unfold Non950._handle_error, reported_error.
  rewrite Hunknown, Bool.andb_false_r. cbn [andb truthy negb].
  destruct (hasOwnProperty event "error"), (hasOwnProperty event "errs");
    cbn [andb truthy negb];
    destruct (truthy (field event "error")) eqn:Herror; cbn [andb negb];
    rewrite ?Herror; try reflexivity;
    destruct (truthy (field event "errs")); reflexivity.
Qed.

(** [payload['code'].toString()] *)
Definition code_string (payload : obj) : option string :=
  match field payload "code" with
  | VUndefined | VNull => None
  | v => Some (to_string v)
  end.

Lemma toString_code (payload : obj) (c : string) (s : T950.session) :
  code_string payload = Some c ->
  T950.toString (field payload "code") s = (s, Ok c).
Proof.
  unfold code_string, T950.toString.
  destruct (field payload "code"); intros Hc; try discriminate Hc;
    injection Hc as <-; reflexivity.
Qed.

Lemma handleResponseError_eq (E : string -> value) (payload : obj) (c : string)
    (s : T950.session) :
  code_string payload = Some c ->
  let description :=
    if truthy (E c) then
      if String.eqb c "1"
      then VStr (to_string (E c) ++ ": " ++ to_string (field payload "error"))
      else E c
    else VStr ("unknown errorCode: " ++ c) in
  T950.handleResponseError E payload s
  = (T950.set_warnings
       (T950.warnings s
        ++ (if String.eqb c "0" then []
            else [("errorCode: " ++ c)%string;
                  ("errorDescription: " ++ to_string description)%string]))%list
       (T950.set_errorDescription description (T950.set_errorCode (VStr c) s)),
     Ok tt).
Proof.
  intros Hc. cbv zeta. unfold T950.handleResponseError, bind.
  rewrite (toString_code payload c s Hc).
  unfold T950.envLogWarn, modify, gets, ret. cbn [fst snd].
  destruct (truthy (E c)); cbn [fst snd];
    destruct (String.eqb c "1"); cbn [fst snd];
    destruct (String.eqb c "0"); cbn [negb];
    destruct s; cbn; rewrite ?app_nil_r, <- ?app_assoc; reflexivity.
Qed.

(** C4, as the claim states it, fails: the non-950 handler has no
    placeholder, so [{errno: '999'}], a code that the table does not have,
    changes nothing; and the 950-type handler treats code 100 as any other
    code, recording it and logging two warnings. *)
Lemma unknown_errno_without_placeholder :
  Non950.sample_errorCodes "999" = VUndefined
  /\ Non950._handle_error Non950.sample_errorCodes [("errno", VStr "999")]
       (Non950.new_session false) = (Non950.new_session false, Ok tt)
  /\ T950.errorCode
       (fst (T950.handleResponseError T950.sample_errorCodes [("code", VInt 100)]
               T950.new_session)) = VStr "100"
  /\ T950.warnings
       (fst (T950.handleResponseError T950.sample_errorCodes [("code", VInt 100)]
               T950.new_session))
     = ["errorCode: 100"; "errorDescription: NoError: Robot is operational"].
Proof. vm_compute. repeat split. Qed.

(** C4 (amended). Non-950 handler: an [errno] that the table knows and
    that equals ['100'] changes nothing; any other known [errno] sets
    [error_event] to the description of the table; an [errno] that the
    table does not know falls back on the [error] or [errs] text of the
    payload and changes nothing when there is none. 950-type handler: for
    a payload with a code it does not fail, records the code as a string,
    describes a code that the table does not know as
    ['unknown errorCode: <code>'], and logs two warnings for every code
    but ['0']. *)
Theorem error_codes (E0 E : string -> value) (event payload : obj) (c : string)
    (s0 : Non950.session) (s : T950.session) :
  hasOwnProperty event "errno" = true ->
  code_string payload = Some c ->
  let known := truthy (E0 (to_string (field event "errno"))) in
  let no_error := loose_eq_string (field event "errno") "100" in
  let s' := fst (T950.handleResponseError E payload s) in
  (known = true -> no_error = true -> Non950._handle_error E0 event s0 = (s0, Ok tt))
  /\ (known = true -> no_error = false ->
      Non950._handle_error E0 event s0
      = (Non950.set_error_event (E0 (to_string (field event "errno"))) s0, Ok tt))
  /\ (known = false ->
      Non950._handle_error E0 event s0
      = (if truthy (reported_error event)
         then Non950.set_error_event (reported_error event) s0 else s0, Ok tt))
  /\ snd (T950.handleResponseError E payload s) = Ok tt
  /\ T950.errorCode s' = VStr c
  /\ (truthy (E c) = false ->
      T950.errorDescription s' = VStr ("unknown errorCode: " ++ c))
  /\ (T950.warnings s' = T950.warnings s <-> c = "0").
Proof.
  intros Hno Hc known no_error s'.
  split; [intros; apply _handle_error_NoError; assumption |].
  split; [intros; apply _handle_error_known; assumption |].
  split; [intros; apply _handle_error_unknown; assumption |].
  subst s'. rewrite (handleResponseError_eq E payload c s Hc). cbn [fst snd].
  split; [reflexivity |]. split; [reflexivity |].
  split.
  - intros Hu. rewrite Hu. reflexivity.
  - cbn. destruct (String.eqb_spec c "0") as [-> | Hne].
    + rewrite app_nil_r. split; reflexivity.
    + split; [| contradiction].
      intros Heq. apply (f_equal (@length string)) in Heq.
      rewrite length_app in Heq. cbn in Heq. lia.
Qed.

Lemma error_codes_witness :
  Non950._handle_error Non950.sample_errorCodes [("errno", VStr "100")]
    (Non950.new_session false) = (Non950.new_session false, Ok tt)
  /\ T950.errorDescription
       (fst (T950.handleResponseError T950.sample_errorCodes [("code", VInt 999)]
               T950.new_session)) = VStr "unknown errorCode: 999".
Proof.
  pose proof (error_codes Non950.sample_errorCodes T950.sample_errorCodes
                [("errno", VStr "100")] [("code", VInt 999)] "999"
                (Non950.new_session false) T950.new_session eq_refl eq_refl)
    as (H100 & _ & _ & _ & _ & Hunknown & _).
  split.
  - apply H100; reflexivity.
  - apply Hunknown. reflexivity.
Defined.

(** ** Commands *)

(** The number of arguments that the [run] of the non-950 session asks
    for before it sends the command. *)
Definition non950_required_arguments (action : string) : nat :=
  let a := toLowerCase action in
  if String.eqb a "spotarea" then 2
  else if String.eqb a "customarea" then 3
  else if String.eqb a "getlifespan" || String.eqb a "lifespan" then 1
  else if String.eqb a "setwaterlevel" then 1
  else 0.

Lemma non950_run_drops_missing_arguments (action : string) (args : list value)
    (s : Non950.session) :
  (length args < non950_required_arguments action)%nat ->
  Non950.run action args s = (s, Ok tt).
Proof.
  unfold non950_required_arguments, Non950.run. cbv zeta.
  generalize (toLowerCase action). intros c H.
  destruct (String.eqb_spec c "spotarea") as [E | _].
  { subst c. destruct args as [| ? [| ? ?]]; try reflexivity. simpl in H. lia. }
  destruct (String.eqb_spec c "customarea") as [E | _].
  { subst c. destruct args as [| ? [| ? [| ? ?]]]; try reflexivity. simpl in H. lia. }
  destruct (String.eqb_spec c "getlifespan") as [E | _].
  { subst c. destruct args; [reflexivity | simpl in H; lia]. }
  destruct (String.eqb_spec c "lifespan") as [E | _].
  { subst c. destruct args; [reflexivity | simpl in H; lia]. }
  destruct (String.eqb_spec c "setwaterlevel") as [E | _].
  { subst c. destruct args; [reflexivity | simpl in H; lia]. }
  simpl in H. lia.
Qed.

Section Run950.

Variable super_run : string -> list value -> M T950.session unit.
Variable hasMainBrush hasUnitCareInfo hasRoundMopInfo : T950.session -> bool.
Variable isMapImageSupported : T950.session -> bool.
Variable getModelType : T950.session -> string.
Variable isValidVirtualWallType : value -> bool.
Variable isAirPurifier : value -> bool.
Variable COMPONENT_TO_ECOVACS : string -> value.

Let run_switch :=
  T950.run_switch hasMainBrush hasUnitCareInfo hasRoundMopInfo isMapImageSupported
    getModelType isValidVirtualWallType isAirPurifier COMPONENT_TO_ECOVACS.

Let run :=
  T950.run super_run hasMainBrush hasUnitCareInfo hasRoundMopInfo isMapImageSupported
    getModelType isValidVirtualWallType isAirPurifier COMPONENT_TO_ECOVACS.

(** The commands of the 950-type [run] that test [args.length], with the
    number of arguments they ask for. *)
Definition guarded_commands : list (string * nat) :=
  [("SetVolume", 1); ("SetAutoEmpty", 1); ("SetDusterRemind", 1);
   ("SetCarpetPressure", 1); ("SetCleanCount", 1); ("SetAirDrying", 1);
   ("SetCleanPreference", 1); ("SetSweepMode", 1); ("SetBorderSpin", 1);
   ("SinglePoint_V2", 1); ("SetMapSet_V2", 1); ("SetThreeModule", 3);
   ("SetFreshenerLevel", 2); ("SetHumidifierLevel", 2); ("SetUVCleaner", 1);
   ("SetAtmoLight", 1); ("SetBlueSpeaker", 1); ("SetVoiceSimple", 1);
   ("SetBlock", 3); ("SetMonitorAirState", 1); ("SetAngleFollow", 1);
   ("SetMic", 1); ("SetVoice", 6); ("SetVoiceAssistantState", 1);
   ("GetMapTrace_V2", 1)]%nat.

Lemma run_switch_drops_missing_arguments :
  Forall
    (fun '(name, n) =>
       forall (args : list value) (s : T950.session),
         (length args < n)%nat -> run_switch (toLowerCase name) args s = (s, Ok tt))
    guarded_commands.
Proof.
  unfold guarded_commands.
  repeat (apply Forall_cons; split;
          [intros args s H;
           repeat (destruct args as [| ? args]; [reflexivity |]);
           simpl in H; lia |]).
  constructor.
Qed.

(** [run] with a missing argument where the base class does nothing for
    the command: nothing is sent, nothing is thrown, the session is as it
    was. *)
Lemma run_drops_missing_arguments (name : string) (n : nat) (args : list value)
    (s : T950.session) :
  In (name, n) guarded_commands -> (length args < n)%nat ->
  super_run name args s = (s, Ok tt) ->
  run name args s = (s, Ok tt).
Proof.
  intros Hin Hlen Hsuper. unfold run, T950.run, bind. rewrite Hsuper.
  pose proof run_switch_drops_missing_arguments as Hall.
  rewrite Forall_forall in Hall. apply (Hall (name, n)); [| exact Hlen].
  apply list_elem_of_In, Hin.
Qed.

Definition throws {A} (r : result A) : Prop := exists e, r = Throw e.

(** C7 fails on the 950-type session: [SpotArea_V2], [CustomArea_V2],
    [MapPoint_V2] and [GetMapImage] read [args[0].toString()] before any
    test, so without arguments [run] ends in a [TypeError], whatever the
    base class does. *)
Theorem run_without_area_throws (s : T950.session) :
  throws (snd (run "SpotArea_V2" [] s))
  /\ throws (snd (run "CustomArea_V2" [] s))
  /\ throws (snd (run "MapPoint_V2" [] s))
  /\ throws (snd (run "GetMapImage" [] s)).
Proof.
  unfold run, T950.run, bind, throws.
  destruct (super_run "SpotArea_V2" [] s) as [s1 [[] | e1]];
    destruct (super_run "CustomArea_V2" [] s) as [s2 [[] | e2]];
    destruct (super_run "MapPoint_V2" [] s) as [s3 [[] | e3]];
    destruct (super_run "GetMapImage" [] s) as [s4 [[] | e4]];
    repeat split; eexists; reflexivity.
Qed.

End Run950.

Lemma run_SetVolume_without_argument (s : T950.session) :
  T950.sample_run "SetVolume" [] s = (s, Ok tt).
Proof.
  apply (run_drops_missing_arguments T950.sample_super_run T950.no_capability
           T950.no_capability T950.no_capability T950.no_capability (fun _ => "950")
           (fun v => strict_eq v (VStr "vw") || strict_eq v (VStr "mw"))
           (fun _ => false) T950.sample_components_to "SetVolume" 1%nat [] s).
  - left. reflexivity.
  - simpl. lia.
  - reflexivity.
Qed.

Lemma run_SpotArea_V2_without_arguments :
  T950.sample_run "SpotArea_V2" [] T950.new_session = (T950.new_session, Throw "TypeError").
Proof. reflexivity. Qed.

(** ** Position *)

Section Pos.

Variable isPositionInSpotArea : num -> num -> option value -> value.
Variable getDistanceToChargingStation : string -> string -> value.
Variable getSpotAreaName : T950.session -> value -> value.

Let handlePos :=
  T950.handlePos isPositionInSpotArea getDistanceToChargingStation getSpotAreaName.

(** The position that [handlePos] writes for the device fields [pos]. *)
Definition new_position (pos : obj) (s : T950.session) : T950.DeebotPosition :=
  let id :=
    isPositionInSpotArea (to_number (field pos "x")) (to_number (field pos "y"))
      (T950.mapSpotAreaInfos s !! to_string (T950.currentMapMID s)) in
  T950.Build_DeebotPosition (field pos "x") (field pos "y") (field pos "a")
    (VBool (num_eqb (to_number (field pos "invalid")) (of_Z 1))) id
    (getSpotAreaName s id) (VBool true)
    (getDistanceToChargingStation
       (to_string (field pos "x") ++ "," ++ to_string (field pos "y"))
       (to_string (T950.cp_x (T950.chargePosition s)) ++ ","
        ++ to_string (T950.cp_y (T950.chargePosition s)))).

(** The test [changed] of [handlePos] on the device position. *)
Definition position_changed (pos : obj) (cached : T950.DeebotPosition) : bool :=
  strict_neq (field pos "x") (T950.dp_x cached)
  || strict_neq (field pos "y") (T950.dp_y cached)
  || strict_neq (field pos "a") (T950.dp_a cached)
  || strict_neq (field pos "invalid") (T950.isInvalid cached)
  || strict_eq (T950.currentSpotAreaID cached) (VStr "unknown").

Lemma handlePos_deebotPos (payload pos : obj) (s : T950.session) :
  truthy (field payload "chargePos") = false ->
  field payload "deebotPos" = VObj pos ->
  handlePos payload s
  = (if position_changed pos (T950.deebotPosition s)
     then T950.set_deebotPosition (new_position pos s) s else s, Ok tt).
Proof.
  intros Hcharge Hpos.
  unfold handlePos, T950.handlePos, bind, get, gets, modify, ret.
  rewrite Hcharge, Hpos. cbn [typeof_object property fst snd].
  fold (position_changed pos (T950.deebotPosition s)).
  destruct (position_changed pos (T950.deebotPosition s)); reflexivity.
Qed.

(** A number is never strictly equal to a boolean: once [handlePos] has
    stored [isInvalid], a payload whose [invalid] is a number counts as
    changed, whatever its coordinates. *)
Lemma number_invalid_always_changed (pos : obj) (cached : T950.DeebotPosition)
    (z : Z) (b : bool) :
  field pos "invalid" = VInt z -> T950.isInvalid cached = VBool b ->
  position_changed pos cached = true.
Proof.
  intros Hp Hc. unfold position_changed. rewrite Hp, Hc. cbn.
  rewrite Bool.orb_true_r. reflexivity.
Qed.

Lemma isInvalid_after_handlePos (payload pos : obj) (s : T950.session) (b : bool) :
  truthy (field payload "chargePos") = false ->
  field payload "deebotPos" = VObj pos ->
  T950.isInvalid (T950.deebotPosition s) = VBool b ->
  exists b', T950.isInvalid (T950.deebotPosition (fst (handlePos payload s))) = VBool b'.
Proof.
  intros Hcharge Hpos Hb. rewrite (handlePos_deebotPos payload pos s Hcharge Hpos).
  destruct (position_changed pos (T950.deebotPosition s)); cbn; eauto.
Qed.

(** A repeated position is rewritten: with a numeric [invalid] in the
    payload and the boolean [isInvalid] that an earlier [handlePos] left,
    the position is written again with [changeFlag] set, also when no
    field differs. *)
Lemma repeated_position_rewritten (payload pos : obj) (s : T950.session)
    (z : Z) (b : bool) :
  truthy (field payload "chargePos") = false ->
  field payload "deebotPos" = VObj pos ->
  field pos "invalid" = VInt z ->
  T950.isInvalid (T950.deebotPosition s) = VBool b ->
  handlePos payload s = (T950.set_deebotPosition (new_position pos s) s, Ok tt).
Proof.
  intros Hcharge Hpos Hz Hb. rewrite (handlePos_deebotPos payload pos s Hcharge Hpos).
  rewrite (number_invalid_always_changed pos _ z b Hz Hb). reflexivity.
Qed.

(** A payload that differs from the stored position in a field is
    written with [changeFlag] set and the spot area computed anew. *)
Lemma differing_position_rewritten (payload pos : obj) (s : T950.session) :
  truthy (field payload "chargePos") = false ->
  field payload "deebotPos" = VObj pos ->
  strict_neq (field pos "x") (T950.dp_x (T950.deebotPosition s))
  || strict_neq (field pos "y") (T950.dp_y (T950.deebotPosition s))
  || strict_neq (field pos "a") (T950.dp_a (T950.deebotPosition s))
  || strict_neq (field pos "invalid") (T950.isInvalid (T950.deebotPosition s)) = true ->
  handlePos payload s = (T950.set_deebotPosition (new_position pos s) s, Ok tt)
  /\ T950.changeFlag (new_position pos s) = VBool true
  /\ T950.currentSpotAreaID (new_position pos s)
     = isPositionInSpotArea (to_number (field pos "x")) (to_number (field pos "y"))
         (T950.mapSpotAreaInfos s !! to_string (T950.currentMapMID s)).
Proof.
  intros Hcharge Hpos Hdiff. rewrite (handlePos_deebotPos payload pos s Hcharge Hpos).
  unfold position_changed. rewrite Hdiff. repeat split.
Qed.

End Pos.

(** The position [{x: 10, y: 20, a: 30, invalid: 0}] on a session that
    knows its map. *)
Definition position_payload : obj :=
  [("deebotPos",
    VObj [("x", VInt 10); ("y", VInt 20); ("a", VInt 30); ("invalid", VInt 0)])].

Definition session_with_map : T950.session :=
  T950.set_mapSpotAreaInfos {["1" := VArr []]}
    (T950.set_currentMapMID (VStr "1") T950.new_session).

(** What a listener leaves after it has consumed the flag. *)
Definition clear_changeFlag (s : T950.session) : T950.session :=
  let p := T950.deebotPosition s in
  T950.set_deebotPosition
    (T950.Build_DeebotPosition (T950.dp_x p) (T950.dp_y p) (T950.dp_a p)
       (T950.isInvalid p) (T950.currentSpotAreaID p) (T950.currentSpotAreaName p)
       (VBool false) (T950.distanceToChargingStation p)) s.

(** C2 fails on the code: after [handlePos] has stored the position, the
    same payload again finds every field equal to the stored one, [x],
    [y], [a], and [invalid] 0 against [isInvalid] false, with a known spot
    area; yet [handlePos] writes the position again and sets [changeFlag],
    because it compares the number [invalid] with the boolean
    [isInvalid]. *)
Theorem repeated_position_sets_changeFlag :
  let seen := clear_changeFlag (fst (T950.sample_handlePos position_payload session_with_map)) in
  T950.deebotPosition seen
  = T950.Build_DeebotPosition (VInt 10) (VInt 20) (VInt 30) (VBool false) (VStr "1")
      (VStr "") (VBool false) VNull
  /\ T950.changeFlag (T950.deebotPosition (fst (T950.sample_handlePos position_payload seen)))
     = VBool true
  /\ T950.sample_handlePos position_payload seen <> (seen, Ok tt).
Proof.
  vm_compute. repeat split. discriminate.
Qed.

(** ** Clean logs *)

Section CleanLogs.

Variable getTimeStringFormatted : num -> value.

Let ingest_log := T950.ingest_log getTimeStringFormatted.
Let handleCleanLogs := T950.handleCleanLogs getTimeStringFormatted.

(** The entry that [handleCleanLogs] builds from the fields of a log. *)
Definition entry_of (log : obj) : T950.CleanLogEntry :=
  T950.Build_CleanLogEntry
    (parseInt (field log "area")) (to_number (field log "ts"))
    (num_mul (to_number (field log "ts")) (of_Z 1000))
    (parseInt (field log "last")) (parseInt (field log "last"))
    (getTimeStringFormatted (parseInt (field log "last")))
    (field log "imageUrl") (field log "type") (field log "stopReason").

Definition log_key (log : obj) : string := to_string (field log "id").

(** [(this.cleanLog_lastTimestamp < timestamp) || (!this.cleanLog_lastTimestamp)] *)
Definition newer (lastTimestamp : option num) (timestamp : num) : bool :=
  match lastTimestamp with
  | Some l => num_lt l timestamp || negb (num_truthy l)
  | None => true
  end.

(** The "last clean" fields set from an entry. *)
Definition summarise (log : obj) (s : T950.session) : T950.session :=
  T950.set_cleanLog_lastTotalTimeString (T950.totalTimeFormatted (entry_of log))
    (T950.set_cleanLog_lastTotalTime (Some (T950.totalTime (entry_of log)))
       (T950.set_cleanLog_lastSquareMeters (Some (T950.squareMeters (entry_of log)))
          (T950.set_cleanLog_lastTimestamp (Some (T950.timestamp (entry_of log)))
             (T950.set_cleanLog_lastImageUrl (T950.imageUrl (entry_of log)) s)))).

Lemma ingest_log_eq (log : obj) (s : T950.session) :
  ingest_log (VObj log) s
  = match T950.cleanLog s !! log_key log with
    | Some _ => (s, Ok tt)
    | None =>
        let s1 :=
          if newer (T950.cleanLog_lastTimestamp s) (to_number (field log "ts"))
          then summarise log s else s in
        (T950.set_cleanLog (<[log_key log := entry_of log]> (T950.cleanLog s1)) s1, Ok tt)
    end.
Proof.
  unfold ingest_log, T950.ingest_log, bind, get, gets, modify, ret, log_key.
  cbn [property fst snd].
  destruct (T950.cleanLog s !! to_string (field log "id")); [reflexivity |].
  unfold newer, summarise, entry_of.
  destruct (T950.cleanLog_lastTimestamp s) as [l |]; cbn [fst snd];
    [destruct (num_lt l (to_number (field log "ts")) || negb (num_truthy l)) |];
    reflexivity.
Qed.

Lemma cleanLog_after_ingest (log : obj) (s : T950.session) :
  T950.cleanLog (fst (ingest_log (VObj log) s))
  = match T950.cleanLog s !! log_key log with
    | Some _ => T950.cleanLog s
    | None => <[log_key log := entry_of log]> (T950.cleanLog s)
    end.
Proof.
  rewrite ingest_log_eq. destruct (T950.cleanLog s !! log_key log); [reflexivity |].
  cbv zeta. destruct (newer _ _); reflexivity.
Qed.

(** Within one payload the first entry of an ID is the one stored. *)
Lemma first_write_wins (logs : list obj) (s : T950.session) :
  snd (for_each ingest_log (map VObj logs) s) = Ok tt
  /\ forall key,
       T950.cleanLog (fst (for_each ingest_log (map VObj logs) s)) !! key
       = match T950.cleanLog s !! key with
         | Some e => Some e
         | None => entry_of <$> find (fun log => String.eqb (log_key log) key) logs
         end.
Proof.
  revert s. induction logs as [| log logs IH]; intros s.
  - split; [reflexivity |]. intros key. cbn.
    destruct (T950.cleanLog s !! key); reflexivity.
  - cbn [map for_each]. unfold bind.
    pose proof (cleanLog_after_ingest log s) as Hstore.
    assert (Hok : snd (ingest_log (VObj log) s) = Ok tt).
    { rewrite ingest_log_eq. destruct (T950.cleanLog s !! log_key log); reflexivity. }
    destruct (ingest_log (VObj log) s) as [s1 r1]. cbn [fst snd] in *. subst r1.
    destruct (IH s1) as [IHok IHkey]. split; [exact IHok |].
    intros key. rewrite IHkey, Hstore. cbn [find].
    destruct (String.eqb_spec (log_key log) key) as [<- | Hne].
    + destruct (T950.cleanLog s !! log_key log) as [e |] eqn:Hs.
      * rewrite Hs. reflexivity.
      * rewrite lookup_insert_eq. reflexivity.
    + destruct (T950.cleanLog s !! log_key log) as [e |] eqn:Hs; [reflexivity |].
      rewrite lookup_insert_ne by exact Hne. reflexivity.
Qed.

Lemma handleCleanLogs_empties_store (payload : obj) (s : T950.session) :
  handleCleanLogs payload s = handleCleanLogs payload (T950.set_cleanLog ∅ s).
Proof.
  unfold handleCleanLogs, T950.handleCleanLogs, bind, modify.
  destruct s; reflexivity.
Qed.

(** C5 (amended): [handleCleanLogs] empties the log store before it reads
    the payload, so first-write-wins holds within one payload: an entry
    whose ID an earlier entry of the payload has stored changes nothing,
    and of the entries [logs] of a payload the first one of each ID is
    stored. An entry with a new ID whose timestamp is newer than the
    recorded last timestamp, or when none is recorded, sets the five
    "last clean" fields from that entry. *)
Theorem clean_log_ingestion (logs : list obj) (log : obj) (s : T950.session) :
  handleCleanLogs [("logs", VArr (map VObj logs))] s
  = handleCleanLogs [("logs", VArr (map VObj logs))] (T950.set_cleanLog ∅ s)
  /\ (forall key,
        T950.cleanLog (fst (handleCleanLogs [("logs", VArr (map VObj logs))] s)) !! key
        = entry_of <$> find (fun log => String.eqb (log_key log) key) logs)
  /\ (is_Some (T950.cleanLog s !! log_key log) -> ingest_log (VObj log) s = (s, Ok tt))
  /\ (T950.cleanLog s !! log_key log = None ->
      newer (T950.cleanLog_lastTimestamp s) (to_number (field log "ts")) = true ->
      let s' := fst (ingest_log (VObj log) s) in
      T950.cleanLog s' !! log_key log = Some (entry_of log)
      /\ T950.cleanLog_lastImageUrl s' = field log "imageUrl"
      /\ T950.cleanLog_lastTimestamp s' = Some (to_number (field log "ts"))
      /\ T950.cleanLog_lastSquareMeters s' = Some (parseInt (field log "area"))
      /\ T950.cleanLog_lastTotalTime s' = Some (parseInt (field log "last"))
      /\ T950.cleanLog_lastTotalTimeString s'
         = getTimeStringFormatted (parseInt (field log "last"))).
Proof.
  split; [apply handleCleanLogs_empties_store |]. split; [| split].
  - intros key. unfold handleCleanLogs, T950.handleCleanLogs, bind, modify.
    cbn [hasOwnProperty assoc String.eqb Ascii.eqb Bool.eqb field own_values fst snd].
    fold ingest_log.
    destruct (first_write_wins logs (T950.set_cleanLog ∅ s)) as [_ Hkey].
    rewrite Hkey. destruct s; cbn. rewrite lookup_empty. reflexivity.
  - intros [e He]. rewrite ingest_log_eq, He. reflexivity.
  - intros Hnew Hnewer. cbv zeta. rewrite ingest_log_eq, Hnew. cbv zeta.
    rewrite Hnewer. cbn [fst].
    split; [destruct s; cbn; apply lookup_insert_eq |].
    repeat split.
Qed.

End CleanLogs.

(** C5, as the claim states it, fails: the store holds the entry of log
    [a] with 10 square metres when a second payload brings a log [a] with
    20; after the second payload the stored entry of [a] has 20. *)
Lemma stored_log_replaced_by_later_payload :
  let first :=
    [("logs", VArr [VObj [("id", VStr "a"); ("area", VInt 10); ("ts", VInt 100);
                          ("last", VInt 60)]])] in
  let second :=
    [("logs", VArr [VObj [("id", VStr "a"); ("area", VInt 20); ("ts", VInt 100);
                          ("last", VInt 60)]])] in
  let s1 := fst (T950.handleCleanLogs T950.sample_time_string first T950.new_session) in
  let s2 := fst (T950.handleCleanLogs T950.sample_time_string second s1) in
  T950.squareMeters <$> T950.cleanLog s1 !! "a" = Some (of_Z 10)
  /\ T950.squareMeters <$> T950.cleanLog s2 !! "a" = Some (of_Z 20).
Proof. vm_compute. split; reflexivity. Qed.

(** ** Virtual boundaries *)

Section MapSet.

Variable JSON_stringify : value -> string.

Let handleMapSet := T950.handleMapSet JSON_stringify.

Definition nullish (v : value) : bool :=
  match v with
  | VUndefined | VNull => true
  | _ => false
  end.

(** The subsets of a payload can all be read. *)
Definition readable_subsets (payload : obj) : Prop :=
  Forall (fun v => nullish v = false) (own_values (field payload "subsets")).

Definition mssid_of (v : value) : value :=
  match property v "mssid" with
  | Ok id => id
  | Throw _ => VUndefined
  end.

(** The boundaries that a payload carries. *)
Definition boundaries_of (payload : obj) : list T950.EcovacsMapVirtualBoundary :=
  map (fun v => T950.Build_EcovacsMapVirtualBoundary (mssid_of v) (field payload "type"))
    (own_values (field payload "subsets")).

(** The map ID that [handleMapSet] works with, if any. *)
Definition resolve_mid (currentMapMID : value) (payload : obj) : option value :=
  if isNaN (field payload "mid") then
    if truthy currentMapMID then Some currentMapMID else None
  else Some (field payload "mid").

Definition extend (bs : list T950.EcovacsMapVirtualBoundary)
    (d : T950.EcovacsMapVirtualBoundaries) : T950.EcovacsMapVirtualBoundaries :=
  T950.Build_EcovacsMapVirtualBoundaries (T950.mvb_mapID d)
    (T950.mvb_mapVirtualBoundaries d ++ bs).

Definition mark (t : string) (received : bool * bool) : bool * bool :=
  if String.eqb t "vw" then (true, snd received) else (fst received, true).

Definition skip : T950.mapset := T950.Build_mapset "skip" T950.NoData.

Definition consolidated (d : T950.EcovacsMapVirtualBoundaries) : T950.mapset :=
  T950.Build_mapset "MapVirtualBoundaries" (T950.VirtualBoundariesData d).

Lemma push_loop (key : string) (ty : value) (vs : list value) (s : T950.session) :
  Forall (fun v => nullish v = false) vs ->
  exists s',
    for_each
      (fun subset =>
         bind (get subset "mssid")
           (fun mssid =>
              T950.push_boundary key (T950.Build_EcovacsMapVirtualBoundary mssid ty)))
      vs s = (s', Ok tt)
    /\ T950.mapVirtualBoundaries s' !! key
       = extend (map (fun v => T950.Build_EcovacsMapVirtualBoundary (mssid_of v) ty) vs)
           <$> T950.mapVirtualBoundaries s !! key
    /\ T950.mapVirtualBoundariesResponses s' = T950.mapVirtualBoundariesResponses s
    /\ T950.currentMapMID s' = T950.currentMapMID s.
Proof.
  intros Hvs. revert s. induction Hvs as [| v vs Hv _ IH]; intros s.
  - exists s. split; [reflexivity |]. split; [| split; reflexivity].
    cbn [map]. destruct (T950.mapVirtualBoundaries s !! key) as [[m l] |]; cbn; [| reflexivity].
    unfold extend. cbn. rewrite app_nil_r. reflexivity.
  - cbn [for_each]. unfold bind at 1 2. unfold get at 1.
    assert (Hid : property v "mssid" = Ok (mssid_of v)).
    { unfold mssid_of. destruct v; try discriminate Hv; reflexivity. }
    rewrite Hid. unfold T950.push_boundary at 1, modify at 1.
    match goal with |- context [for_each _ vs ?st] => destruct (IH st) as (s' & Heq & Hb & Hr & Hm) end.
    exists s'. split; [exact Heq |]. split; [| split].
    + rewrite Hb. destruct s; cbn. rewrite lookup_alter_eq.
      destruct (mapVirtualBoundaries !! key) as [[m l] |]; cbn; [| reflexivity].
      unfold extend. cbn. rewrite <- app_assoc. reflexivity.
    + rewrite Hr. destruct s; reflexivity.
    + rewrite Hm. destruct s; reflexivity.
Qed.

Lemma bind_ok {S A B} (m : M S A) (k : A -> M S B) (s s1 : S) (a : A) :
  m s = (s1, Ok a) -> bind m k s = k a s1.
Proof. intros H. unfold bind. rewrite H. reflexivity. Qed.

(** The view of the join state of a map: the stored boundaries and the
    received flags, as [handleMapSet] initialises them when absent. *)
Definition join_state (s : T950.session) (mapMID : value)
    : T950.EcovacsMapVirtualBoundaries * (bool * bool) :=
  match T950.mapVirtualBoundaries s !! to_string mapMID with
  | None => (T950.Build_EcovacsMapVirtualBoundaries mapMID [], (false, false))
  | Some d =>
      (d, default (false, false) (T950.mapVirtualBoundariesResponses s !! to_string mapMID))
  end.

(** Where the boundaries of a map are stored, its flags are stored too. *)
Definition joinable (s : T950.session) (key : string) : Prop :=
  is_Some (T950.mapVirtualBoundaries s !! key) ->
  is_Some (T950.mapVirtualBoundariesResponses s !! key).

Lemma mark_response_eq (t : string) (key : string) (received : bool * bool)
    (s : T950.session) :
  t = "vw" \/ t = "mw" ->
  T950.mapVirtualBoundariesResponses s !! key = Some received ->
  (if strict_eq (VStr t) (VStr "vw") then T950.mark_response key 0
   else if strict_eq (VStr t) (VStr "mw") then T950.mark_response key 1
   else ret tt) s
  = (T950.set_mapVirtualBoundariesResponses
       (<[key := mark t received]> (T950.mapVirtualBoundariesResponses s)) s, Ok tt).
Proof.
  intros Ht Hr. destruct received as [vw mw].
  destruct Ht; subst t; cbn [strict_eq String.eqb Ascii.eqb Bool.eqb];
    unfold T950.mark_response, bind, gets, modify, mark; rewrite Hr; reflexivity.
Qed.

Lemma handleMapSet_boundaries (payload : obj) (t : string) (mapMID : value)
    (s : T950.session) :
  resolve_mid (T950.currentMapMID s) payload = Some mapMID ->
  field payload "type" = VStr t -> t = "vw" \/ t = "mw" ->
  readable_subsets payload ->
  joinable s (to_string mapMID) ->
  let d := extend (boundaries_of payload) (fst (join_state s mapMID)) in
  let received := mark t (snd (join_state s mapMID)) in
  exists s',
    handleMapSet payload s
    = (s', Ok (if fst received && snd received then consolidated d else skip))
    /\ T950.mapVirtualBoundaries s' !! to_string mapMID = Some d
    /\ T950.mapVirtualBoundariesResponses s' !! to_string mapMID = Some received
    /\ T950.currentMapMID s' = T950.currentMapMID s.
Proof.
  intros Hmid Hty Ht Hsub Hjoin. cbv zeta.
  unfold handleMapSet, T950.handleMapSet.
  unfold resolve_mid in Hmid.
  unfold bind at 1. unfold gets at 1.
  assert (Hres : (isNaN (field payload "mid") && negb (truthy (T950.currentMapMID s))) = false
                 /\ (if isNaN (field payload "mid") then T950.currentMapMID s
                     else field payload "mid") = mapMID).
  { destruct (isNaN (field payload "mid")); [| injection Hmid as <-; split; reflexivity].
    destruct (truthy (T950.currentMapMID s)); [| discriminate Hmid].
    injection Hmid as <-. split; reflexivity. }
  destruct Hres as [Hskip ->]. rewrite Hskip, Hty. clear Hmid Hskip.
  assert (Har : strict_eq (VStr t) (VStr "ar") = false) by (destruct Ht; subst t; reflexivity).
  assert (Hvm : strict_eq (VStr t) (VStr "vw") || strict_eq (VStr t) (VStr "mw") = true)
    by (destruct Ht; subst t; reflexivity).
  rewrite Har, Hvm. clear Har Hvm.
  set (key := to_string mapMID) in *.
  (* the initialisation *)
  rewrite (bind_ok (gets T950.mapVirtualBoundaries) _ s s _ eq_refl).
  assert (Hinit : exists sa,
    match T950.mapVirtualBoundaries s !! key with
    | Some _ => ret tt
    | None =>
        bind
          (modify (T950.set_mapVirtualBoundaries
                     (<[key := T950.Build_EcovacsMapVirtualBoundaries mapMID []]>
                        (T950.mapVirtualBoundaries s))))
          (fun _ =>
             modify (fun s0 =>
               T950.set_mapVirtualBoundariesResponses
                 (<[key := (false, false)]> (T950.mapVirtualBoundariesResponses s0)) s0))
    end s = (sa, Ok tt)
    /\ T950.mapVirtualBoundaries sa !! key = Some (fst (join_state s mapMID))
    /\ T950.mapVirtualBoundariesResponses sa !! key = Some (snd (join_state s mapMID))
    /\ T950.currentMapMID sa = T950.currentMapMID s).
  { unfold join_state, joinable in *. fold key.
    destruct (T950.mapVirtualBoundaries s !! key) as [d0 |] eqn:Hd.
    - exists s. split; [reflexivity |]. split; [exact Hd |]. split; [| reflexivity].
      destruct Hjoin as [fl Hfl]; [eauto |]. rewrite Hfl. reflexivity.
    - eexists. split; [reflexivity |]. destruct s; cbn.
      rewrite !lookup_insert_eq. repeat split. }
  destruct Hinit as (sa & Hinit & Hda & Hra & Hma).
  rewrite (bind_ok _ _ s sa tt Hinit).
  (* the boundaries of the payload *)
  destruct (push_loop key (VStr t) _ sa Hsub) as (sb & Hloop & Hdb & Hrb & Hmb).
  rewrite (bind_ok _ _ sa sb tt Hloop).
  rewrite Hda in Hdb. cbn [fmap option_fmap option_map] in Hdb.
  (* the flag of the payload *)
  rewrite <- Hrb in Hra.
  rewrite (bind_ok _ _ sb _ tt (mark_response_eq t key _ sb Ht Hra)).
  rewrite (bind_ok (gets T950.mapVirtualBoundariesResponses) _ _ _ _ eq_refl).
  set (sc := T950.set_mapVirtualBoundariesResponses _ sb).
  assert (Hrc : T950.mapVirtualBoundariesResponses sc !! key
                = Some (mark t (snd (join_state s mapMID)))).
  { subst sc. destruct sb; cbn. apply lookup_insert_eq. }
  assert (Hdc : T950.mapVirtualBoundaries sc = T950.mapVirtualBoundaries sb)
    by (subst sc; destruct sb; reflexivity).
  assert (Hmc : T950.currentMapMID sc = T950.currentMapMID s).
  { rewrite <- Hma, <- Hmb. subst sc. destruct sb; reflexivity. }
  rewrite Hrc.
  assert (Hbs : boundaries_of payload
                = map (fun v => T950.Build_EcovacsMapVirtualBoundary (mssid_of v) (VStr t))
                    (own_values (field payload "subsets")))
    by (unfold boundaries_of; rewrite Hty; reflexivity).
  rewrite Hbs.
  destruct (mark t (snd (join_state s mapMID))) as [vw mw]. cbn [fst snd].
  destruct (vw && mw).
  - rewrite (bind_ok (gets T950.mapVirtualBoundaries) _ _ _ _ eq_refl).
    rewrite Hdc, Hdb. exists sc. split; [reflexivity |].
    rewrite Hdc. auto.
  - eexists. split; [reflexivity |].
    unfold T950.envLogWarn, modify. cbn [fst].
    destruct sc; cbn in *. rewrite Hdc. auto.
Qed.

(** A boundary payload of type [t] for the map [mapMID]. *)
Definition boundary_payload (currentMapMID mapMID : value) (t : string) (p : obj) : Prop :=
  resolve_mid currentMapMID p = Some mapMID
  /\ field p "type" = VStr t
  /\ readable_subsets p.

Lemma extend_nil (d : T950.EcovacsMapVirtualBoundaries) : extend [] d = d.
Proof. destruct d. unfold extend. cbn. rewrite app_nil_r. reflexivity. Qed.

Lemma extend_extend (bs bs' : list T950.EcovacsMapVirtualBoundary)
    (d : T950.EcovacsMapVirtualBoundaries) :
  extend bs' (extend bs d) = extend (bs ++ bs') d.
Proof. unfold extend. cbn. rewrite app_assoc. reflexivity. Qed.

Lemma join_state_stored (s : T950.session) (mapMID : value)
    (d : T950.EcovacsMapVirtualBoundaries) (received : bool * bool) :
  T950.mapVirtualBoundaries s !! to_string mapMID = Some d ->
  T950.mapVirtualBoundariesResponses s !! to_string mapMID = Some received ->
  join_state s mapMID = (d, received) /\ joinable s (to_string mapMID).
Proof.
  intros Hd Hr. unfold join_state, joinable. rewrite Hd, Hr. split; [reflexivity | eauto].
Qed.

(** While the payloads are all of one type, every one of them is
    buffered. *)
Lemma one_type_is_buffered (t : string) (mapMID : value) (ps : list obj) :
  t = "vw" \/ t = "mw" ->
  forall s : T950.session,
    Forall (boundary_payload (T950.currentMapMID s) mapMID t) ps ->
    joinable s (to_string mapMID) ->
    snd (join_state s mapMID) = (false, false)
    \/ snd (join_state s mapMID) = mark t (false, false) ->
    exists s1,
      T950.map_m handleMapSet ps s = (s1, Ok (map (fun _ => skip) ps))
      /\ fst (join_state s1 mapMID)
         = extend (concat (map boundaries_of ps)) (fst (join_state s mapMID))
      /\ (ps <> [] -> snd (join_state s1 mapMID) = mark t (false, false))
      /\ (ps = [] -> s1 = s)
      /\ joinable s1 (to_string mapMID)
      /\ T950.currentMapMID s1 = T950.currentMapMID s.
Proof.
  intros Ht. induction ps as [| p ps IH]; intros s Hps Hjoin Hrec.
  - exists s. split; [reflexivity |]. cbn. rewrite extend_nil. tauto.
  - apply Forall_cons in Hps as [(Hmid & Hty & Hsub) Hps].
    destruct (handleMapSet_boundaries p t mapMID s Hmid Hty Ht Hsub Hjoin)
      as (s1 & Heq & Hd & Hr & Hm).
    assert (Hmark : mark t (snd (join_state s mapMID)) = mark t (false, false)).
    { destruct Hrec as [-> | ->]; [reflexivity |].
      destruct Ht; subst t; reflexivity. }
    rewrite Hmark in Heq, Hr.
    assert (Hnot : fst (mark t (false, false)) && snd (mark t (false, false)) = false)
      by (destruct Ht; subst t; reflexivity).
    rewrite Hnot in Heq.
    destruct (join_state_stored s1 mapMID _ _ Hd Hr) as [Hjs1 Hjoin1].
    rewrite <- Hm in Hps.
    destruct (IH s1 Hps Hjoin1) as (s2 & Heq2 & Hd2 & _ & _ & Hjoin2 & Hm2).
    { right. rewrite Hjs1. reflexivity. }
    exists s2. cbn [T950.map_m map]. unfold bind.
    fold handleMapSet. rewrite Heq, Heq2. cbn [ret].
    split; [reflexivity |]. split; [| split; [| split; [| split]]].
    + rewrite Hd2, Hjs1. cbn [fst concat map]. apply extend_extend.
    + intros _. destruct ps as [| p' ps'].
      * cbn in Heq2. injection Heq2 as <-. rewrite Hjs1. reflexivity.
      * destruct (IH s1 Hps Hjoin1) as (s2' & Heq2' & _ & Hrec2 & _).
        { right. rewrite Hjs1. reflexivity. }
        rewrite Heq2 in Heq2'. injection Heq2' as <-. apply Hrec2. discriminate.
    + discriminate.
    + exact Hjoin2.
    + rewrite Hm2. exact Hm.
Qed.

(** C3: from a state in which no boundary type of the map has been
    received (never, or since [run('GetVirtualBoundaries')] cleared the
    flags), the payloads [ps] of one type are each buffered with a [skip]
    result, however many they are; the first payload [p] of the other type
    then yields the [MapVirtualBoundaries] result, which holds the
    boundaries stored for the map followed by those of all these
    payloads. *)
Theorem virtual_boundary_join (t t' : string) (mapMID : value) (ps : list obj) (p : obj)
    (s : T950.session) :
  (t = "vw" /\ t' = "mw") \/ (t = "mw" /\ t' = "vw") ->
  ps <> [] ->
  Forall (boundary_payload (T950.currentMapMID s) mapMID t) ps ->
  boundary_payload (T950.currentMapMID s) mapMID t' p ->
  joinable s (to_string mapMID) ->
  snd (join_state s mapMID) = (false, false) ->
  exists s1 s2,
    T950.map_m handleMapSet ps s = (s1, Ok (map (fun _ => skip) ps))
    /\ handleMapSet p s1
       = (s2, Ok (consolidated
                    (extend (concat (map boundaries_of ps) ++ boundaries_of p)
                       (fst (join_state s mapMID))))).
Proof.
  intros Htt Hne Hps (Hmid & Hty & Hsub) Hjoin Hrec.
  assert (Ht : t = "vw" \/ t = "mw") by tauto.
  assert (Ht' : t' = "vw" \/ t' = "mw") by tauto.
  destruct (one_type_is_buffered t mapMID ps Ht s Hps Hjoin (or_introl Hrec))
    as (s1 & Heq & Hd & Hr & _ & Hjoin1 & Hm).
  specialize (Hr Hne). rewrite <- Hm in Hmid.
  destruct (handleMapSet_boundaries p t' mapMID s1 Hmid Hty Ht' Hsub Hjoin1)
    as (s2 & Heq2 & _).
  exists s1, s2. split; [exact Heq |].
  rewrite Heq2, Hr, Hd, extend_extend.
  destruct Htt as [[-> ->] | [-> ->]]; reflexivity.
Qed.

End MapSet.

Lemma virtual_boundary_join_witness :
  let wall :=
    [("mid", VStr "1"); ("type", VStr "vw");
     ("subsets", VArr [VObj [("mssid", VStr "0")]; VObj [("mssid", VStr "1")]])] in
  let mop :=
    [("mid", VStr "1"); ("type", VStr "mw"); ("subsets", VArr [VObj [("mssid", VStr "2")]])] in
  exists s1 s2,
    T950.map_m (T950.handleMapSet to_string) [wall] T950.new_session = (s1, Ok [skip])
    /\ T950.handleMapSet to_string mop s1
       = (s2, Ok (consolidated
                    (T950.Build_EcovacsMapVirtualBoundaries (VStr "1")
                       [T950.Build_EcovacsMapVirtualBoundary (VStr "0") (VStr "vw");
                        T950.Build_EcovacsMapVirtualBoundary (VStr "1") (VStr "vw");
                        T950.Build_EcovacsMapVirtualBoundary (VStr "2") (VStr "mw")]))).
Proof.
  intros wall mop.
  apply (virtual_boundary_join to_string "vw" "mw" (VStr "1") [wall] mop T950.new_session).
  - left. split; reflexivity.
  - discriminate.
  - apply Forall_cons. split; [| constructor].
    repeat split. repeat constructor.
  - repeat split. repeat constructor.
  - intros [d Hd]. discriminate Hd.
  - reflexivity.
Defined.

(** [run('GetVirtualBoundaries', mapID)] clears both flags of the map,
    keeps the stored boundaries and asks for the two boundary types: it
    leaves a state in which no boundary type has been received. *)
Lemma GetVirtualBoundaries_clears_flags
    (hasMainBrush hasUnitCareInfo hasRoundMopInfo isMapImageSupported : T950.session -> bool)
    (getModelType : T950.session -> string)
    (isValidVirtualWallType isAirPurifier : value -> bool)
    (COMPONENT_TO_ECOVACS : string -> value) (mapID : value) (s : T950.session) :
  num_gt (to_number mapID) (of_Z 0) = true ->
  let s' :=
    fst (T950.run_switch hasMainBrush hasUnitCareInfo hasRoundMopInfo isMapImageSupported
           getModelType isValidVirtualWallType isAirPurifier COMPONENT_TO_ECOVACS
           (toLowerCase "GetVirtualBoundaries") [mapID] s) in
  T950.mapVirtualBoundariesResponses s' !! to_string mapID = Some (false, false)
  /\ T950.mapVirtualBoundaries s' = T950.mapVirtualBoundaries s
  /\ T950.sent s'
     = (T950.sent s ++ [Request "GetMapVirtualBoundaries" [mapID; VStr "vw"];
                        Request "GetMapVirtualBoundaries" [mapID; VStr "mw"]])%list
  /\ snd (join_state s' mapID) = (false, false).
Proof.
  intros Hpos. cbv zeta.
  assert (E :
    T950.run_switch hasMainBrush hasUnitCareInfo hasRoundMopInfo isMapImageSupported
      getModelType isValidVirtualWallType isAirPurifier COMPONENT_TO_ECOVACS
      (toLowerCase "GetVirtualBoundaries") [mapID] s
    = (if num_gt (to_number mapID) (of_Z 0) then
         bind
           (bind (gets T950.mapVirtualBoundariesResponses)
              (fun responses =>
                 match responses !! to_string mapID with
                 | None =>
                     modify (T950.set_mapVirtualBoundariesResponses
                               (<[to_string mapID := (false, false)]> responses))
                 | Some (_, mw) =>
                     bind
                       (modify (T950.set_mapVirtualBoundariesResponses
                                  (<[to_string mapID := (false, mw)]> responses)))
                       (fun _ =>
                          modify (fun s0 =>
                            T950.set_mapVirtualBoundariesResponses
                              (<[to_string mapID := (false, false)]>
                                 (T950.mapVirtualBoundariesResponses s0)) s0))
                 end))
           (fun _ =>
              bind (T950.sendCommand (Request "GetMapVirtualBoundaries" [mapID; VStr "vw"]))
                (fun _ =>
                   T950.sendCommand (Request "GetMapVirtualBoundaries" [mapID; VStr "mw"])))
       else ret tt) s) by reflexivity.
  rewrite E, Hpos. clear E.
  unfold bind, gets, modify, T950.sendCommand. cbn [fst snd].
  assert (Hjoin : forall s1,
            T950.mapVirtualBoundariesResponses s1 !! to_string mapID = Some (false, false) ->
            snd (join_state s1 mapID) = (false, false)).
  { intros s1 Hr. unfold join_state. rewrite Hr.
    destruct (T950.mapVirtualBoundaries s1 !! to_string mapID); reflexivity. }
  assert (Hins : forall (m : gmap string (bool * bool)),
            <[to_string mapID := (false, false)]> m !! to_string mapID = Some (false, false))
    by (intros; apply lookup_insert_eq).
  destruct (T950.mapVirtualBoundariesResponses s !! to_string mapID) as [[vw mw] |];
    cbn [fst snd];
    (split; [destruct s; cbn; apply Hins |]);
    (split; [destruct s; reflexivity |]);
    (split; [destruct s; cbn; rewrite <- app_assoc; reflexivity |]);
    apply Hjoin; destruct s; cbn; apply Hins.
Qed.

(** * Further methods of the non-950 session *)

Module Non950x.

Import Non950.

Definition set_vacuum_status (v : value) (s : session) : session :=
  Session v (clean_status s) (fan_speed s) (charge_status s) (battery_status s)
    (water_level s) (waterbox_info s) (components s) (error_event s) (useMqtt s)
    (outbox s).

Definition set_clean_status (v : value) (s : session) : session :=
  Session (vacuum_status s) v (fan_speed s) (charge_status s) (battery_status s)
    (water_level s) (waterbox_info s) (components s) (error_event s) (useMqtt s)
    (outbox s).

Definition set_fan_speed (v : value) (s : session) : session :=
  Session (vacuum_status s) (clean_status s) v (charge_status s) (battery_status s)
    (water_level s) (waterbox_info s) (components s) (error_event s) (useMqtt s)
    (outbox s).

Definition set_charge_status (v : value) (s : session) : session :=
  Session (vacuum_status s) (clean_status s) (fan_speed s) v (battery_status s)
    (water_level s) (waterbox_info s) (components s) (error_event s) (useMqtt s)
    (outbox s).

(** [v.hasOwnProperty(k)] for a named property [k] of a value that is not
    [undefined] or [null]. *)
Definition own_property (v : value) (k : string) : bool :=
  match v with
  | VObj fields => hasOwnProperty fields k
  | VArr _ | VStr _ => String.eqb k "length"
  | _ => false
  end.

(** [v.toLowerCase()]: only a string has the method. *)
Definition toLowerCase_of (v : value) : M session string :=
  match v with
  | VStr s => ret (toLowerCase s)
  | _ => throw "TypeError"
  end.

Section Handlers.

(** The tables of ecovacsConstants_non950type.js. *)
Variable CLEAN_MODE_FROM_ECOVACS : string -> value.
Variable CLEAN_ACTION_FROM_ECOVACS : string -> value.
Variable FAN_SPEED_FROM_ECOVACS : string -> value.

Definition _handle_clean_report (event : obj) : M session unit :=
  (modify (set_vacuum_status (VStr "unknown")) ;;;
   (let attrs := field event "attrs" in
    if truthy attrs then
      type <- get attrs "type" ;;
      let type :=
        if truthy (CLEAN_MODE_FROM_ECOVACS (to_string type))
        then CLEAN_MODE_FROM_ECOVACS (to_string type) else type in
      st <- get attrs "st" ;;
      act <- get attrs "act" ;;
      let statustype :=
        if truthy st then CLEAN_ACTION_FROM_ECOVACS (to_string st)
        else if truthy act then CLEAN_ACTION_FROM_ECOVACS (to_string act)
        else VNull in
      let type :=
        if strict_eq statustype (VStr "stop") || strict_eq statustype (VStr "pause")
        then statustype else type in
      modify (set_clean_status type) ;;;
      modify (set_vacuum_status type) ;;;
      if own_property attrs "speed" then
        fan <- get attrs "speed" ;;
        if truthy (FAN_SPEED_FROM_ECOVACS (to_string fan))
        then modify (set_fan_speed (FAN_SPEED_FROM_ECOVACS (to_string fan)))
        else ret tt
      else ret tt
    else ret tt) ;;;
   vacuum_status <- gets vacuum_status ;;
   modify (set_clean_status vacuum_status))%js.

End Handlers.

Definition _handle_charge_state (event : obj) : M session unit :=
  (let attrs := field event "attrs" in
   if truthy attrs then
     report <- get attrs "type" ;;
     r <- toLowerCase_of report ;;
     if String.eqb r "going" then modify (set_charge_status (VStr "returning"))
     else if String.eqb r "slotcharging" then modify (set_charge_status (VStr "charging"))
     else if String.eqb r "idle" then modify (set_charge_status (VStr "idle"))
     else modify (set_charge_status (VStr "unknown"))
   else ret tt)%js.

Section Device.

(** [tools.getAllKnownDevices()]: the properties of a device class, and
    [this.deviceClass]. *)
Variable devices : string -> option obj.
Variable deviceClass : value.

Definition getDeviceProperty (property : string) : value :=
  match devices (to_string deviceClass) with
  | Some device =>
      if hasOwnProperty device property then field device property else VBool false
  | None => VBool false
  end.

Definition hasMainBrush : value := getDeviceProperty "main_brush".
Definition hasMoppingSystem : value := getDeviceProperty "mopping_system".

(** The listener that the constructor registers for the [ready] event. *)
Definition on_ready : M session unit :=
  (run "GetBatteryState" [] ;;;
   run "GetCleanState" [] ;;;
   run "GetChargeState" [] ;;;
   (if truthy hasMainBrush then run "GetLifeSpan" [VStr "main_brush"] else ret tt) ;;;
   run "GetLifeSpan" [VStr "side_brush"] ;;;
   run "GetLifeSpan" [VStr "filter"] ;;;
   if truthy hasMoppingSystem then run "GetWaterLevel" [] else ret tt)%js.

End Device.

(** Tables in the shape of the library's, to run the handlers on
    examples. *)
Definition sample_clean_mode (key : string) : value :=
  if String.eqb key "auto" then VStr "auto"
  else if String.eqb key "border" then VStr "edge"
  else if String.eqb key "spot" then VStr "spot"
  else VUndefined.

Definition sample_clean_action (key : string) : value :=
  if String.eqb key "s" then VStr "start"
  else if String.eqb key "p" then VStr "pause"
  else if String.eqb key "h" then VStr "stop"
  else VUndefined.

Definition sample_fan_speed (key : string) : value :=
  if String.eqb key "standard" then VStr "normal"
  else if String.eqb key "strong" then VStr "high"
  else VUndefined.

Definition sample_devices (key : string) : option obj :=
  if String.eqb key "ls1ok3" then
    Some [("main_brush", VBool true); ("mopping_system", VBool true)]
  else if String.eqb key "dl8fht" then Some [("main_brush", VBool false)]
  else None.

End Non950x.

(** ** The non-950 session: what its methods keep *)

(** The form in which [send_command] hands a command to the transport:
    its XML on XMPP, the action itself on MQTT. *)
Definition wrapped (s : Non950.session) (action : request) : Non950.wire :=
  if Non950.useMqtt s then Non950.WireAction action else Non950.WireXml action.

(** The actions of [run], in lower case, that need no argument. *)
Definition unguarded_actions : list string :=
  ["clean"; "edge"; "spot"; "stop"; "pause"; "resume"; "charge"; "playsound";
   "getdeviceinfo"; "deviceinfo"; "getcleanstate"; "cleanstate"; "getcleanspeed";
   "cleanspeed"; "getchargestate"; "chargestate"; "getbatterystate"; "batterystate";
   "getwaterlevel"; "getwaterboxinfo"].

(** X1: [run] of the non-950 session, called with a string, never throws
    and hands at most one command to the transport, in the form of the
    transport; the command is the one that the action names (the action
    itself or, for the short names of the queries, the action after
    [get]), its arguments are the leading arguments of the call, and
    nothing else of the session changes. An action that needs no
    argument always has its command sent. *)
Theorem non950_run_sends_at_most_one (action : string) (args : list value)
    (s : Non950.session) :
  let sends :=
    exists command,
      Non950.run action args s = (Non950.push_outbox (wrapped s command) s, Ok tt)
      /\ (toLowerCase (rq_name command) = toLowerCase action
          \/ toLowerCase (rq_name command) = ("get" ++ toLowerCase action)%string)
      /\ rq_args command = firstn (length (rq_args command)) args in
  (Non950.run action args s = (s, Ok tt) \/ sends)
  /\ (In (toLowerCase action) unguarded_actions -> sends).
Proof.
  unfold Non950.run, wrapped. cbv zeta. generalize (toLowerCase action). intros c.
  unfold Non950.send_command, bind, gets, modify. split.
  - repeat (match goal with
            | |- context [String.eqb c ?n] => destruct (String.eqb c n) eqn:?
            end; cbn [orb]; cbv beta iota);
      try match goal with
          | H : String.eqb ?x _ = true |- _ => apply String.eqb_eq in H; subst x
          end;
      destruct args as [| a0 [| a1 [| a2 args]]]; cbn [length Nat.leb Nat.eqb Nat.ltb];
      destruct (Non950.useMqtt s); cbn [negb fst snd];
      first [ left; reflexivity
            | right; eexists; split; [reflexivity |];
              split; [first [left; reflexivity | right; reflexivity] | reflexivity] ].
  - intros Hin. unfold unguarded_actions in Hin. cbn [In] in Hin.
    repeat (destruct Hin as [E | Hin];
            [rewrite <- E; clear E;
             destruct args as [| a0 [| a1 args]];
             cbn [String.eqb Ascii.eqb Bool.eqb orb andb length Nat.leb Nat.eqb Nat.ltb];
             cbv beta iota;
             destruct (Non950.useMqtt s); cbn [negb fst snd];
             (eexists; split; [reflexivity |];
              split; [first [left; reflexivity | right; reflexivity] | reflexivity]) |]).
    destruct Hin.
Qed.

(** X2: [_handle_error] never throws and never clears the error: it
    leaves the session as it is or records a truthy error, so an error
    once recorded stays until another error replaces it, also after the
    no-error code 100. *)
Theorem _handle_error_never_clears (E : string -> value) (event : obj)
    (s : Non950.session) :
  (Non950._handle_error E event s = (s, Ok tt)
   \/ exists v, truthy v = true
                /\ Non950._handle_error E event s = (Non950.set_error_event v s, Ok tt))
  /\ (truthy (Non950.error_event s) = true ->
      truthy (Non950.error_event (fst (Non950._handle_error E event s))) = true).
Proof.
  assert (H : Non950._handle_error E event s = (s, Ok tt)
              \/ exists v, truthy v = true
                 /\ Non950._handle_error E event s
                    = (Non950.set_error_event v s, Ok tt)).
  { unfold Non950._handle_error.
    destruct (hasOwnProperty event "errno"
              && truthy (E (to_string (field event "errno")))
              && loose_eq_string (field event "errno") "100"); [left; reflexivity |].
    match goal with
    | |- context [if truthy ?v then _ else _] =>
        destruct (truthy v) eqn:Hv; [right; exists v; split; [exact Hv | reflexivity] |
                                     left; reflexivity]
    end. }
  split; [exact H |].
  intros Hs. destruct H as [-> | (v & Hv & ->)]; [exact Hs | exact Hv].
Qed.

(** X3: [_handle_life_span] never throws and changes at most one entry of
    the components store, to a value that is neither 0 nor [NaN]; an
    event without a known component type changes nothing. *)
Theorem _handle_life_span_one_component (C : string -> value) (event : obj)
    (s : Non950.session) :
  (Non950._handle_life_span C event s = (s, Ok tt)
   \/ exists key n,
        num_truthy n = true
        /\ Non950._handle_life_span C event s
           = (Non950.set_components (insert key n) s, Ok tt))
  /\ (hasOwnProperty event "type" = false
      \/ truthy (C (to_string (field event "type"))) = false ->
      Non950._handle_life_span C event s = (s, Ok tt)).
Proof.
  unfold Non950._handle_life_span. split.
  - destruct (negb (truthy _)); [left; reflexivity |].
    destruct (Non950.life_span_value event) as [n |]; [| left; reflexivity].
    destruct (num_truthy n) eqn:Hn; [| left; reflexivity].
    right. eexists _, n. split; [exact Hn | reflexivity].
  - intros [-> | H]; [reflexivity |].
    destruct (hasOwnProperty event "type"); [rewrite H |]; reflexivity.
Qed.

Lemma _handle_life_span_one_component_witness :
  Non950._handle_life_span Non950.sample_components
    [("type", VStr "Wheel"); ("val", VInt 50); ("total", VInt 100)]
    (Non950.new_session false) = (Non950.new_session false, Ok tt).
Proof.
  apply (_handle_life_span_one_component Non950.sample_components).
  right. reflexivity.
Defined.

(** X4: [_handle_charge_state] leaves the session as it is when the event
    has no [attrs]. With [attrs] and a string [type] it sets the charge
    status, and nothing else, to ['returning'] for ['going'],
    ['charging'] for ['slotcharging'], ['idle'] for ['idle'] (the case
    of the letters aside) and ['unknown'] for every other string; a
    [type] that is not a string makes it throw, the session left as it
    was. *)
Theorem _handle_charge_state_statuses (event : obj) (s : Non950.session) :
  let attrs := field event "attrs" in
  let outcome := Non950x._handle_charge_state event s in
  (truthy attrs = false -> outcome = (s, Ok tt))
  /\ (truthy attrs = true ->
      (forall type,
         property attrs "type" = Ok (VStr type) ->
         exists status,
           outcome = (Non950x.set_charge_status (VStr status) s, Ok tt)
           /\ (status = "returning" <-> toLowerCase type = "going")
           /\ (status = "charging" <-> toLowerCase type = "slotcharging")
           /\ (status = "idle" <-> toLowerCase type = "idle")
           /\ (status = "unknown" <->
               toLowerCase type <> "going" /\ toLowerCase type <> "slotcharging"
               /\ toLowerCase type <> "idle"))
      /\ ((forall type, property attrs "type" <> Ok (VStr type)) ->
          outcome = (s, Throw "TypeError"))).
Proof.
  cbv zeta. unfold Non950x._handle_charge_state, bind, get, modify.
  split; [intros ->; reflexivity |]. intros Hattrs. rewrite Hattrs. split.
  - intros type Htype. rewrite Htype. cbn [Non950x.toLowerCase_of ret fst snd].
    destruct (String.eqb_spec (toLowerCase type) "going") as [E1 | N1];
      [| destruct (String.eqb_spec (toLowerCase type) "slotcharging") as [E2 | N2];
         [| destruct (String.eqb_spec (toLowerCase type) "idle") as [E3 | N3]]];
      eexists; (split; [reflexivity |]);
      rewrite ?E1, ?E2, ?E3;
      repeat split; intros; try discriminate; try tauto; try congruence.
  - intros Hnot.
    destruct (property (field event "attrs") "type") as [report | e] eqn:Hp.
    + destruct report; try reflexivity. exfalso. exact (Hnot _ eq_refl).
    + destruct (field event "attrs"); discriminate.
Qed.

Lemma _handle_charge_state_statuses_witness :
  Non950x._handle_charge_state [("attrs", VObj [("type", VStr "SlotCharging")])]
    (Non950.new_session false)
  = (Non950x.set_charge_status (VStr "charging") (Non950.new_session false), Ok tt).
Proof.
  destruct (_handle_charge_state_statuses
              [("attrs", VObj [("type", VStr "SlotCharging")])] (Non950.new_session false))
    as [_ H].
  destruct (H eq_refl) as [H1 _].
  destruct (H1 "SlotCharging" eq_refl) as (status & -> & _ & [_ Hc] & _).
  rewrite (Hc eq_refl). reflexivity.
Defined.

(** X5: [_handle_clean_report] never throws, leaves [clean_status] equal
    to [vacuum_status], which is ['unknown'] when the event has no
    [attrs], and touches neither the components, the error, the charge
    status nor the outbox. *)
Theorem _handle_clean_report_statuses_agree (M0 A0 F0 : string -> value) (event : obj)
    (s : Non950.session) :
  let s' := fst (Non950x._handle_clean_report M0 A0 F0 event s) in
  snd (Non950x._handle_clean_report M0 A0 F0 event s) = Ok tt
  /\ Non950.clean_status s' = Non950.vacuum_status s'
  /\ (truthy (field event "attrs") = false -> Non950.vacuum_status s' = VStr "unknown")
  /\ Non950.components s' = Non950.components s
  /\ Non950.error_event s' = Non950.error_event s
  /\ Non950.charge_status s' = Non950.charge_status s
  /\ Non950.outbox s' = Non950.outbox s.
Proof.
  cbv zeta. unfold Non950x._handle_clean_report, bind, get, gets, modify.
  cbn [fst snd].
  destruct (truthy (field event "attrs")) eqn:Hattrs; cbn [fst snd].
  - assert (Hp : forall k, exists v, property (field event "attrs") k = Ok v)
      by (intros k; destruct (field event "attrs"); try discriminate; cbn; eauto).
    destruct (Hp "type") as (ty & ->). destruct (Hp "st") as (st & ->).
    destruct (Hp "act") as (act & ->). destruct (Hp "speed") as (fan & ->).
    cbn [fst snd].
    destruct (Non950x.own_property (field event "attrs") "speed"); cbn [fst snd];
      [destruct (truthy (F0 (to_string fan))) |]; cbn [fst snd];
      repeat split; discriminate.
  - repeat split.
Qed.

(** Stopping or pausing overrides the clean mode. *)
Lemma _handle_clean_report_stop (M0 A0 F0 : string -> value) (attrs : obj)
    (s : Non950.session) :
  truthy (field attrs "st") = false ->
  truthy (field attrs "act") = true ->
  A0 (to_string (field attrs "act")) = VStr "stop" ->
  Non950.clean_status
    (fst (Non950x._handle_clean_report M0 A0 F0 [("attrs", VObj attrs)] s)) = VStr "stop".
Proof.
  intros Hst Hact Hstop.
  unfold Non950x._handle_clean_report, bind, get, gets, modify.
  cbn [field assoc String.eqb Ascii.eqb Bool.eqb truthy property fst snd].
  rewrite Hst, Hact, Hstop. cbn [strict_eq String.eqb Ascii.eqb Bool.eqb orb fst snd].
  destruct (Non950x.own_property (VObj attrs) "speed"); cbn [fst snd];
    [destruct (truthy (F0 _)) |]; reflexivity.
Qed.

(** X6: the [ready] listener never throws and sends, in this order, the
    battery, clean-state and charge-state queries, the life-span query of
    the main brush when the device has one, those of the side brush and
    of the filter, and the water-level query when the device has a
    mopping system; no query is dropped for a missing argument. *)
Theorem on_ready_requests (devices : string -> option obj) (deviceClass : value)
    (s : Non950.session) :
  let wrap := if Non950.useMqtt s then Non950.WireAction else Non950.WireXml in
  Non950x.on_ready devices deviceClass s
  = (fold_left (fun s r => Non950.push_outbox (wrap r) s)
       ([Request "GetBatteryState" []; Request "GetCleanState" [];
         Request "GetChargeState" []]
        ++ (if truthy (Non950x.hasMainBrush devices deviceClass)
            then [Request "GetLifeSpan" [VStr "main_brush"]] else [])
        ++ [Request "GetLifeSpan" [VStr "side_brush"];
            Request "GetLifeSpan" [VStr "filter"]]
        ++ (if truthy (Non950x.hasMoppingSystem devices deviceClass)
            then [Request "GetWaterLevel" []] else []))%list
       s, Ok tt).
Proof.
  cbv zeta. unfold Non950x.on_ready.
  destruct (truthy (Non950x.hasMainBrush devices deviceClass));
    destruct (truthy (Non950x.hasMoppingSystem devices deviceClass));
    destruct s as [? ? ? ? ? ? ? ? ? [|] ?]; vm_compute; reflexivity.
Qed.

(** A device class that the table does not know has no capability. *)
Lemma getDeviceProperty_unknown_class (devices : string -> option obj)
    (deviceClass : value) (property : string) :
  devices (to_string deviceClass) = None ->
  Non950x.getDeviceProperty devices deviceClass property = VBool false.
Proof. intros H. unfold Non950x.getDeviceProperty. rewrite H. reflexivity. Qed.

(** ** The 950-type session: positions *)

Section PosMore.

Variable isPositionInSpotArea : num -> num -> option value -> value.
Variable getDistanceToChargingStation : string -> string -> value.
Variable getSpotAreaName : T950.session -> value -> value.

Let handlePos :=
  T950.handlePos isPositionInSpotArea getDistanceToChargingStation getSpotAreaName.

(** The test [changed] of [handlePos] on the charger position. *)
Definition charger_changed (c : obj) (cached : T950.ChargePosition) : bool :=
  strict_neq (field c "x") (T950.cp_x cached)
  || strict_neq (field c "y") (T950.cp_y cached)
  || strict_neq (field c "a") (T950.cp_a cached).

Lemma handlePos_chargePos (payload c : obj) (s : T950.session) :
  truthy (field payload "chargePos") = true ->
  T950.first_item (field payload "chargePos") = VObj c ->
  typeof_object (field payload "deebotPos") = false ->
  handlePos payload s
  = (if charger_changed c (T950.chargePosition s)
     then T950.set_chargePosition
            (T950.Build_ChargePosition (field c "x") (field c "y") (field c "a")
               (VBool true)) s
     else s, Ok tt).
Proof.
  intros Htruthy Hfirst Hdeebot.
  unfold handlePos, T950.handlePos, bind, get, gets, modify, ret.
  rewrite Htruthy, Hfirst, Hdeebot. cbn [property fst snd].
  fold (charger_changed c (T950.chargePosition s)).
  destruct (charger_changed c (T950.chargePosition s)); reflexivity.
Qed.

Lemma strict_neq_refl (v : value) : strict_eq v v = true -> strict_neq v v = false.
Proof. intros H. unfold strict_neq. rewrite H. reflexivity. Qed.

(** What a listener leaves when it writes the flag of the charger
    position: [this.chargePosition.changeFlag = flag]. *)
Definition set_charger_changeFlag (flag : value) (s : T950.session) : T950.session :=
  let p := T950.chargePosition s in
  T950.set_chargePosition
    (T950.Build_ChargePosition (T950.cp_x p) (T950.cp_y p) (T950.cp_a p) flag) s.

Lemma strict_neq_eq (u v : value) :
  strict_neq u v = false -> strict_eq u u = true -> u = v.
Proof.
  intros Hn _. unfold strict_neq in Hn. apply Bool.negb_false_iff in Hn.
  destruct u, v; try discriminate Hn; cbn in Hn; try reflexivity.
  - apply Bool.eqb_prop in Hn. congruence.
  - apply Z.eqb_eq in Hn. congruence.
  - apply String.eqb_eq in Hn. congruence.
Qed.

(** X7: the suppression of a repeated charger position works: when the
    coordinates of [chargePos[0]] are numbers, strings or booleans, then
    after the payload has been handled once, and whatever a listener has
    made of [changeFlag] since, handling the same payload again changes
    nothing; in particular a flag that was cleared stays cleared. *)
Theorem charger_position_suppressed (payload c : obj) (flag : value) (s : T950.session) :
  truthy (field payload "chargePos") = true ->
  T950.first_item (field payload "chargePos") = VObj c ->
  typeof_object (field payload "deebotPos") = false ->
  strict_eq (field c "x") (field c "x") = true ->
  strict_eq (field c "y") (field c "y") = true ->
  strict_eq (field c "a") (field c "a") = true ->
  let s1 := set_charger_changeFlag flag (fst (handlePos payload s)) in
  handlePos payload s1 = (s1, Ok tt)
  /\ T950.cp_changeFlag (T950.chargePosition (fst (handlePos payload s1))) = flag.
Proof.
  intros Htruthy Hfirst Hdeebot Hx Hy Ha.
  assert (Hsame : forall s1,
            T950.chargePosition s1
            = T950.Build_ChargePosition (field c "x") (field c "y") (field c "a")
                (T950.cp_changeFlag (T950.chargePosition s1)) ->
            handlePos payload s1 = (s1, Ok tt)).
  { intros s1 Hc. rewrite (handlePos_chargePos payload c s1 Htruthy Hfirst Hdeebot).
    unfold charger_changed. rewrite Hc. cbn [T950.cp_x T950.cp_y T950.cp_a].
    rewrite !strict_neq_refl by assumption. reflexivity. }
  assert (Hfirst_call :
            T950.chargePosition (fst (handlePos payload s))
            = T950.Build_ChargePosition (field c "x") (field c "y") (field c "a")
                (T950.cp_changeFlag (T950.chargePosition (fst (handlePos payload s))))).
  { rewrite (handlePos_chargePos payload c s Htruthy Hfirst Hdeebot).
    destruct (charger_changed c (T950.chargePosition s)) eqn:Hchanged; cbn [fst].
    - destruct s; reflexivity.
    - unfold charger_changed in Hchanged.
      apply Bool.orb_false_iff in Hchanged as [Hxy Hca].
      apply Bool.orb_false_iff in Hxy as [Hcx Hcy].
      rewrite (strict_neq_eq _ _ Hcx Hx), (strict_neq_eq _ _ Hcy Hy),
        (strict_neq_eq _ _ Hca Ha).
      destruct (T950.chargePosition s); reflexivity. }
  cbv zeta.
  set (s0 := fst (handlePos payload s)) in *.
  assert (H1 : handlePos payload (set_charger_changeFlag flag s0)
               = (set_charger_changeFlag flag s0, Ok tt)).
  { apply Hsame. unfold set_charger_changeFlag. rewrite Hfirst_call.
    destruct s0; reflexivity. }
  split; [exact H1 |]. rewrite H1. destruct s0; reflexivity.
Qed.

(** X8: a payload with neither position changes nothing, and a
    [deebotPos] that is [null] passes the test [typeof deebotPos ===
    'object'] and makes [handlePos] throw, the session left as it was. *)
Theorem handlePos_without_position (payload : obj) (s : T950.session) :
  truthy (field payload "chargePos") = false ->
  (typeof_object (field payload "deebotPos") = false ->
   handlePos payload s = (s, Ok tt))
  /\ (field payload "deebotPos" = VNull ->
      handlePos payload s = (s, Throw "TypeError")).
Proof.
  intros Hcharge. unfold handlePos, T950.handlePos, bind, get, gets, modify, ret.
  rewrite Hcharge. split; intros H; rewrite H; reflexivity.
Qed.

End PosMore.

Lemma charger_position_suppressed_witness :
  let payload := [("chargePos", VArr [VObj [("x", VInt 5); ("y", VInt 7); ("a", VInt 90)]])] in
  let s1 :=
    set_charger_changeFlag (VBool false)
      (fst (T950.sample_handlePos payload T950.new_session)) in
  T950.sample_handlePos payload s1 = (s1, Ok tt)
  /\ T950.cp_changeFlag (T950.chargePosition (fst (T950.sample_handlePos payload s1)))
     = VBool false.
Proof.
  intros payload.
  apply (charger_position_suppressed T950.sample_isPositionInSpotArea T950.sample_distance
           T950.sample_getSpotAreaName payload
           [("x", VInt 5); ("y", VInt 7); ("a", VInt 90)] (VBool false) T950.new_session);
    reflexivity.
Defined.

Lemma handlePos_without_position_witness :
  T950.sample_handlePos [("deebotPos", VNull)] T950.new_session
  = (T950.new_session, Throw "TypeError").
Proof.
  apply (handlePos_without_position T950.sample_isPositionInSpotArea T950.sample_distance
           T950.sample_getSpotAreaName [("deebotPos", VNull)] T950.new_session);
    reflexivity.
Defined.

(** ** The 950-type session: the clean state *)

Section CleanInfoMore.

Variable super_run : string -> list value -> M T950.session unit.
Variable hasMainBrush hasUnitCareInfo hasRoundMopInfo : T950.session -> bool.
Variable isMapImageSupported : T950.session -> bool.
Variable getModelType : T950.session -> string.
Variable isValidVirtualWallType : value -> bool.
Variable isAirPurifier : value -> bool.
Variable COMPONENT_TO_ECOVACS : string -> value.
Variable CLEAN_MODE_FROM_ECOVACS : string -> value.

Let handleCleanInfo :=
  T950.handleCleanInfo super_run hasMainBrush hasUnitCareInfo hasRoundMopInfo
    isMapImageSupported getModelType isValidVirtualWallType isAirPurifier
    COMPONENT_TO_ECOVACS CLEAN_MODE_FROM_ECOVACS.

(** The clean report of a clean payload: the mode of the clean type while
    the robot is working, else the mode of its motion state. *)
Definition clean_report_of (type motionState : value) : value :=
  if strict_eq motionState (VStr "working")
  then CLEAN_MODE_FROM_ECOVACS (to_string type)
  else CLEAN_MODE_FROM_ECOVACS (to_string motionState).

(** The area values of a clean payload: [content.value] when [content] is
    an object, else [content] itself. *)
Definition area_values (content : value) : value :=
  if typeof_object content
  then match property content "value" with Ok v => v | Throw _ => VUndefined end
  else content.

(** X9: a spot-area clean, in the new form ([content] an object with type
    ['spotArea']) or in the old one ([cleanState.type] ['spotArea'] and
    [content] the list itself), records its areas in [currentSpotAreas],
    leaves [currentCustomAreaValues] empty, reports the mode and sends
    nothing. *)
Theorem spot_area_clean_recorded (payload cleanState : obj) (s : T950.session) :
  strict_eq (field payload "state") (VStr "clean") = true ->
  field payload "cleanState" = VObj cleanState ->
  clean_type payload = Ok (VStr "spotArea") ->
  handleCleanInfo payload s
  = (T950.set_currentSpotAreas (area_values (field cleanState "content"))
       (T950.set_cleanReport
          (clean_report_of (VStr "spotArea") (field cleanState "motionState"))
          (reset_areas s)), Ok tt).
Proof.
  intros Hstate Hcs Htype. unfold clean_type in Htype. rewrite Hcs in Htype.
  cbn [property] in Htype.
  unfold handleCleanInfo, T950.handleCleanInfo, bind, get, modify, ret.
  rewrite Hstate, Hcs. cbn [property fst snd].
  unfold area_values, clean_report_of, reset_areas.
  destruct (typeof_object (field cleanState "content")) eqn:Hobj; cbn [fst snd].
  - rewrite Htype. cbn [fst snd strict_eq String.eqb Ascii.eqb Bool.eqb orb].
    destruct (strict_eq (field cleanState "motionState") (VStr "working")); cbn [fst snd];
      (destruct (property (field cleanState "content") "value") eqn:Hv;
       [reflexivity |
        destruct (field cleanState "content"); discriminate]).
  - injection Htype as ->.
    cbn [fst snd strict_eq String.eqb Ascii.eqb Bool.eqb orb].
    destruct (strict_eq (field cleanState "motionState") (VStr "working")); reflexivity.
Qed.

(** X10: a custom-area clean whose [content] is an object with a string
    [value] records the value in [currentCustomAreaValues] and leaves
    [currentSpotAreas] empty; it is reported as ['setLocation'] exactly
    when [donotClean] is 1 or the value has two comma-separated parts,
    and as the mode of the payload otherwise. *)
Theorem custom_area_clean_recorded (payload cleanState content : obj) (v : string)
    (s : T950.session) :
  strict_eq (field payload "state") (VStr "clean") = true ->
  field payload "cleanState" = VObj cleanState ->
  field cleanState "content" = VObj content ->
  field content "type" = VStr "customArea" ->
  field content "value" = VStr v ->
  let two_parts :=
    (length (filter (fun c => Ascii.eqb c ","%char) (list_ascii_of_string v)) =? 1)%nat in
  handleCleanInfo payload s
  = (T950.set_currentCustomAreaValues (VStr v)
       (T950.set_cleanReport
          (if strict_eq (field content "donotClean") (VInt 1) || two_parts
           then VStr "setLocation"
           else clean_report_of (VStr "customArea") (field cleanState "motionState"))
          (reset_areas s)), Ok tt).
Proof.
  intros Hstate Hcs Hcontent Htype Hv. cbv zeta.
  unfold handleCleanInfo, T950.handleCleanInfo, T950.split_length, bind, get, modify, ret.
  rewrite Hstate, Hcs. cbn [property fst snd]. rewrite Hcontent.
  cbn [typeof_object property fst snd]. rewrite Htype, Hv.
  cbn [fst snd strict_eq String.eqb Ascii.eqb Bool.eqb orb].
  unfold clean_report_of, reset_areas.
  destruct (strict_eq (field cleanState "motionState") (VStr "working")); cbn [fst snd];
    destruct (strict_eq (field content "donotClean") (VInt 1)); cbn [fst snd orb];
    try (destruct s; reflexivity);
    change (S (length (filter (fun c => Ascii.eqb c ","%char) (list_ascii_of_string v))) =? 2)%nat
      with (length (filter (fun c => Ascii.eqb c ","%char) (list_ascii_of_string v)) =? 1)%nat;
    destruct (length (filter (fun c => Ascii.eqb c ","%char) (list_ascii_of_string v)) =? 1)%nat;
    destruct s; reflexivity.
Qed.

(** X11: a clean payload without [cleanState] makes [handleCleanInfo]
    throw after it has emptied the two area fields: the areas are lost
    while the clean report keeps its old value. *)
Theorem clean_without_cleanState_throws (payload : obj) (s : T950.session) :
  strict_eq (field payload "state") (VStr "clean") = true ->
  nullish (field payload "cleanState") = true ->
  handleCleanInfo payload s = (reset_areas s, Throw "TypeError")
  /\ T950.cleanReport (reset_areas s) = T950.cleanReport s.
Proof.
  intros Hstate Hnull.
  unfold handleCleanInfo, T950.handleCleanInfo, bind, get, modify, ret.
  rewrite Hstate. split; [| destruct s; reflexivity].
  destruct (field payload "cleanState"); try discriminate Hnull; reflexivity.
Qed.

End CleanInfoMore.

(** The scenario of a spot-area clean of the areas 1 and 2, and a custom
    area given by one point. *)
Definition spot_area_cleanState : obj :=
  [("motionState", VStr "working"); ("type", VStr "spotArea");
   ("content", VObj [("type", VStr "spotArea"); ("value", VStr "1,2")])].

Definition custom_area_content : obj :=
  [("type", VStr "customArea"); ("value", VStr "120,-50")].

Definition custom_area_cleanState : obj :=
  [("motionState", VStr "working"); ("content", VObj custom_area_content)].

Lemma spot_area_clean_recorded_witness :
  let s' :=
    fst (T950.sample_handleCleanInfo
           [("state", VStr "clean"); ("cleanState", VObj spot_area_cleanState)]
           T950.new_session) in
  T950.currentSpotAreas s' = VStr "1,2" /\ T950.cleanReport s' = VStr "spot_area".
Proof.
  cbv zeta. unfold T950.sample_handleCleanInfo.
  rewrite (spot_area_clean_recorded T950.sample_super_run T950.no_capability
             T950.no_capability T950.no_capability T950.no_capability (fun _ => "950")
             (fun v => strict_eq v (VStr "vw") || strict_eq v (VStr "mw"))
             (fun _ => false) T950.sample_components_to T950.sample_clean_mode
             [("state", VStr "clean"); ("cleanState", VObj spot_area_cleanState)]
             spot_area_cleanState T950.new_session eq_refl eq_refl eq_refl).
  split; reflexivity.
Defined.

Lemma custom_area_clean_recorded_witness :
  let s' :=
    fst (T950.sample_handleCleanInfo
           [("state", VStr "clean"); ("cleanState", VObj custom_area_cleanState)]
           T950.new_session) in
  T950.currentCustomAreaValues s' = VStr "120,-50"
  /\ T950.cleanReport s' = VStr "setLocation".
Proof.
  cbv zeta. unfold T950.sample_handleCleanInfo.
  rewrite (custom_area_clean_recorded T950.sample_super_run T950.no_capability
             T950.no_capability T950.no_capability T950.no_capability (fun _ => "950")
             (fun v => strict_eq v (VStr "vw") || strict_eq v (VStr "mw"))
             (fun _ => false) T950.sample_components_to T950.sample_clean_mode
             [("state", VStr "clean"); ("cleanState", VObj custom_area_cleanState)]
             custom_area_cleanState custom_area_content "120,-50"
             T950.new_session eq_refl eq_refl eq_refl eq_refl eq_refl).
  split; reflexivity.
Defined.

Lemma clean_without_cleanState_throws_witness :
  snd (T950.sample_handleCleanInfo [("state", VStr "clean")] T950.new_session)
  = Throw "TypeError".
Proof.
  unfold T950.sample_handleCleanInfo.
  rewrite (proj1 (clean_without_cleanState_throws T950.sample_super_run T950.no_capability
             T950.no_capability T950.no_capability T950.no_capability (fun _ => "950")
             (fun v => strict_eq v (VStr "vw") || strict_eq v (VStr "mw"))
             (fun _ => false) T950.sample_components_to T950.sample_clean_mode
             [("state", VStr "clean")] T950.new_session eq_refl eq_refl)).
  reflexivity.
Defined.

(** ** The 950-type session: map sets *)

Section MapSetMore.

Variable JSON_stringify : value -> string.

Let handleMapSet := T950.handleMapSet JSON_stringify.

Lemma resolve_mid_spec (payload : obj) (mapMID : value) (s : T950.session) :
  resolve_mid (T950.currentMapMID s) payload = Some mapMID ->
  (isNaN (field payload "mid") && negb (truthy (T950.currentMapMID s))) = false
  /\ (if isNaN (field payload "mid") then T950.currentMapMID s
      else field payload "mid") = mapMID.
Proof.
  unfold resolve_mid. intros Hmid.
  destruct (isNaN (field payload "mid")); [| injection Hmid as <-; split; reflexivity].
  destruct (truthy (T950.currentMapMID s)); [| discriminate Hmid].
  injection Hmid as <-. split; reflexivity.
Qed.

Lemma map_m_mssid (vs : list value) (s : T950.session) :
  Forall (fun v => nullish v = false) vs ->
  T950.map_m (fun subset => get subset "mssid") vs s = (s, Ok (map mssid_of vs)).
Proof.
  induction 1 as [| v vs Hv _ IH]; [reflexivity |].
  cbn [T950.map_m map]. unfold bind, get at 1.
  assert (Hid : property v "mssid" = Ok (mssid_of v))
    by (unfold mssid_of; destruct v; try discriminate Hv; reflexivity).
  rewrite Hid, IH. reflexivity.
Qed.

(** X12: a spot-area payload (type ['ar']) changes nothing in the session
    and returns the [MapSpotAreas] result for the resolved map, with the
    set ID of the payload and the IDs of its subsets in their order. *)
Theorem handleMapSet_spot_areas (payload : obj) (mapMID : value) (s : T950.session) :
  resolve_mid (T950.currentMapMID s) payload = Some mapMID ->
  field payload "type" = VStr "ar" ->
  readable_subsets payload ->
  handleMapSet payload s
  = (s, Ok (T950.Build_mapset "MapSpotAreas"
              (T950.SpotAreasData
                 (T950.Build_EcovacsMapSpotAreas mapMID (field payload "msid")
                    (map mssid_of (own_values (field payload "subsets"))))))).
Proof.
  intros Hmid Hty Hsub. destruct (resolve_mid_spec payload mapMID s Hmid) as [Hskip Hm].
  unfold handleMapSet, T950.handleMapSet, bind at 1, gets at 1.
  rewrite Hskip, Hm, Hty. cbn [strict_eq String.eqb Ascii.eqb Bool.eqb].
  unfold bind. rewrite (map_m_mssid _ s Hsub). reflexivity.
Qed.

(** X13: a payload without a numeric [mid], while no current map is
    known, is skipped, and a payload of a type other than ['ar'], ['vw']
    and ['mw'] gives the [error] result; each leaves the session as it
    was, one warning apart. *)
Theorem handleMapSet_rejects (payload : obj) (s : T950.session) :
  (resolve_mid (T950.currentMapMID s) payload = None ->
   handleMapSet payload s
   = (T950.set_warnings
        (T950.warnings s ++ ["mid is not a number. Skipping message for map"]) s,
      Ok skip))
  /\ (resolve_mid (T950.currentMapMID s) payload <> None ->
      strict_eq (field payload "type") (VStr "ar")
      || strict_eq (field payload "type") (VStr "vw")
      || strict_eq (field payload "type") (VStr "mw") = false ->
      handleMapSet payload s
      = (T950.set_warnings
           (T950.warnings s
            ++ [("unknown mapset type: " ++ JSON_stringify (field payload "type"))%string])
           s,
         Ok (T950.Build_mapset "error" T950.NoData))).
Proof.
  unfold handleMapSet, T950.handleMapSet, resolve_mid, bind, gets, T950.envLogWarn,
    modify, ret.
  split.
  - intros Hmid. destruct (isNaN (field payload "mid")); [| discriminate Hmid].
    destruct (truthy (T950.currentMapMID s)); [discriminate Hmid | reflexivity].
  - intros Hmid Hty.
    apply Bool.orb_false_iff in Hty as [Hty Hmw].
    apply Bool.orb_false_iff in Hty as [Har Hvw].
    destruct (isNaN (field payload "mid")); cbn [andb negb].
    + destruct (truthy (T950.currentMapMID s)); [| contradiction].
      cbn [negb]. rewrite Har, Hvw, Hmw. reflexivity.
    + rewrite Har, Hvw, Hmw. reflexivity.
Qed.

End MapSetMore.

Definition spot_areas_payload : obj :=
  [("mid", VStr "7"); ("type", VStr "ar"); ("msid", VStr "3");
   ("subsets", VArr [VObj [("mssid", VStr "0")]; VObj [("mssid", VStr "4")]])].

Lemma handleMapSet_spot_areas_witness :
  T950.handleMapSet to_string spot_areas_payload T950.new_session
  = (T950.new_session,
     Ok (T950.Build_mapset "MapSpotAreas"
           (T950.SpotAreasData
              (T950.Build_EcovacsMapSpotAreas (VStr "7") (VStr "3")
                 [VStr "0"; VStr "4"])))).
Proof.
  apply (handleMapSet_spot_areas to_string spot_areas_payload (VStr "7") T950.new_session).
  - reflexivity.
  - reflexivity.
  - repeat constructor.
Defined.

Lemma handleMapSet_rejects_witness :
  snd (T950.handleMapSet to_string [("type", VStr "vw")] T950.new_session) = Ok skip
  /\ T950.mapVirtualBoundaries
       (fst (T950.handleMapSet to_string [("type", VStr "vw")] T950.new_session)) = ∅.
Proof.
  rewrite (proj1 (handleMapSet_rejects to_string [("type", VStr "vw")] T950.new_session)
             eq_refl).
  split; reflexivity.
Defined.

Section MapSetFrame.

Variable JSON_stringify : value -> string.

Let handleMapSet := T950.handleMapSet JSON_stringify.

(** The boundaries and the flags of the map [k] are the same in two
    sessions. *)
Definition same_map (k : string) (s s' : T950.session) : Prop :=
  T950.mapVirtualBoundaries s' !! k = T950.mapVirtualBoundaries s !! k
  /\ T950.mapVirtualBoundariesResponses s' !! k
     = T950.mapVirtualBoundariesResponses s !! k.

Lemma same_map_refl (k : string) (s : T950.session) : same_map k s s.
Proof. split; reflexivity. Qed.

Lemma same_map_trans (k : string) (s1 s2 s3 : T950.session) :
  same_map k s1 s2 -> same_map k s2 s3 -> same_map k s1 s3.
Proof. intros [H1 H2] [H3 H4]. split; congruence. Qed.

Lemma fst_bind {S A B} (m : M S A) (f : A -> M S B) (s : S) :
  fst (bind m f s)
  = match m s with
    | (s1, Ok a) => fst (f a s1)
    | (s1, Throw _) => s1
    end.
Proof. unfold bind. destruct (m s) as [s1 [a | e]]; reflexivity. Qed.

Lemma push_loop_same_map (k key : string) (ty : value) (vs : list value) :
  key <> k ->
  forall s,
    same_map k s
      (fst (for_each
              (fun subset =>
                 bind (get subset "mssid")
                   (fun mssid =>
                      T950.push_boundary key
                        (T950.Build_EcovacsMapVirtualBoundary mssid ty)))
              vs s)).
Proof.
  intros Hne. induction vs as [| v vs IH]; intros s; [apply same_map_refl |].
  cbn [for_each]. rewrite fst_bind. unfold bind at 1, get at 1.
  destruct (property v "mssid") as [id | e]; [| apply same_map_refl].
  unfold T950.push_boundary at 1, modify at 1.
  eapply same_map_trans; [| apply IH].
  split; destruct s; cbn; [apply lookup_alter_ne; exact Hne | reflexivity].
Qed.

Lemma mark_response_same_map (k key : string) (slot : nat) (s : T950.session) :
  key <> k -> same_map k s (fst (T950.mark_response key slot s)).
Proof.
  intros Hne. unfold T950.mark_response, bind, gets, modify.
  destruct (T950.mapVirtualBoundariesResponses s !! key) as [[vw mw] |];
    [| apply same_map_refl].
  split; destruct s; cbn; [reflexivity | apply lookup_insert_ne; exact Hne].
Qed.

(** X14: [handleMapSet] works on one map: whatever the payload and
    however the call ends, the boundaries and the received flags of every
    map other than the one that the payload resolves to are as they
    were. *)
Theorem handleMapSet_other_maps (payload : obj) (k : string) (s : T950.session) :
  (forall mapMID,
     resolve_mid (T950.currentMapMID s) payload = Some mapMID -> to_string mapMID <> k) ->
  same_map k s (fst (handleMapSet payload s)).
Proof.
  intros Hk. unfold handleMapSet, T950.handleMapSet.
  unfold bind at 1, gets at 1.
  unfold resolve_mid in Hk.
  destruct (isNaN (field payload "mid") && negb (truthy (T950.currentMapMID s))) eqn:Hskip.
  { split; destruct s; reflexivity. }
  set (mapMID := if isNaN (field payload "mid") then T950.currentMapMID s
                 else field payload "mid") in *.
  assert (Hne : to_string mapMID <> k).
  { apply Hk. subst mapMID. destruct (isNaN (field payload "mid")); [| reflexivity].
    destruct (truthy (T950.currentMapMID s)); [reflexivity | discriminate Hskip]. }
  clear Hk Hskip.
  destruct (strict_eq (field payload "type") (VStr "ar")).
  { rewrite fst_bind.
    assert (Hpure : forall vs s0,
              fst (T950.map_m (fun subset => get subset "mssid") vs s0) = s0).
    { induction vs as [| v vs IH]; intros s0; [reflexivity |].
      cbn [T950.map_m]. rewrite fst_bind. unfold get at 1.
      destruct (property v "mssid"); [| reflexivity].
      rewrite fst_bind. specialize (IH s0).
      destruct (T950.map_m _ vs s0) as [s1 [ids | e]]; cbn [fst] in *; exact IH. }
    specialize (Hpure (own_values (field payload "subsets")) s).
    destruct (T950.map_m _ _ s) as [s1 [ids | e]]; cbn [fst] in *; subst s1;
      apply same_map_refl. }
  destruct (strict_eq (field payload "type") (VStr "vw")
            || strict_eq (field payload "type") (VStr "mw")).
  2: { split; destruct s; reflexivity. }
  (* the initialisation *)
  rewrite fst_bind. unfold gets at 1.
  rewrite fst_bind.
  assert (Hinit : exists sa,
    match T950.mapVirtualBoundaries s !! to_string mapMID with
    | Some _ => ret tt
    | None =>
        bind
          (modify (T950.set_mapVirtualBoundaries
                     (<[to_string mapMID := T950.Build_EcovacsMapVirtualBoundaries mapMID []]>
                        (T950.mapVirtualBoundaries s))))
          (fun _ =>
             modify (fun s0 =>
               T950.set_mapVirtualBoundariesResponses
                 (<[to_string mapMID := (false, false)]>
                    (T950.mapVirtualBoundariesResponses s0)) s0))
    end s = (sa, Ok tt) /\ same_map k s sa).
  { destruct (T950.mapVirtualBoundaries s !! to_string mapMID).
    - exists s. split; [reflexivity | apply same_map_refl].
    - eexists. split; [reflexivity |].
      split; destruct s; cbn; apply lookup_insert_ne; exact Hne. }
  destruct Hinit as (sa & -> & Hsa).
  eapply same_map_trans; [exact Hsa |].
  (* the loop *)
  rewrite fst_bind.
  pose proof (push_loop_same_map k (to_string mapMID) (field payload "type")
                (own_values (field payload "subsets")) Hne sa) as Hloop.
  destruct (for_each _ _ sa) as [sb [[] | e]]; cbn [fst] in Hloop; [| exact Hloop].
  eapply same_map_trans; [exact Hloop |].
  (* the flag *)
  rewrite fst_bind.
  assert (Hmark : same_map k sb
            (fst ((if strict_eq (field payload "type") (VStr "vw")
                   then T950.mark_response (to_string mapMID) 0
                   else if strict_eq (field payload "type") (VStr "mw")
                        then T950.mark_response (to_string mapMID) 1
                        else ret tt) sb))).
  { destruct (strict_eq (field payload "type") (VStr "vw"));
      [apply mark_response_same_map; exact Hne |].
    destruct (strict_eq (field payload "type") (VStr "mw"));
      [apply mark_response_same_map; exact Hne | apply same_map_refl]. }
  match goal with
  | |- context [match ?m sb with _ => _ end] => destruct (m sb) as [sc [[] | e]]
  end; cbn [fst] in Hmark; [| exact Hmark].
  eapply same_map_trans; [exact Hmark |].
  (* the result *)
  unfold bind, gets, T950.envLogWarn, modify, ret, throw.
  destruct (T950.mapVirtualBoundariesResponses sc !! to_string mapMID) as [[vw mw] |];
    [| apply same_map_refl].
  destruct (vw && mw).
  - destruct (T950.mapVirtualBoundaries sc !! to_string mapMID); apply same_map_refl.
  - split; destruct sc; reflexivity.
Qed.

End MapSetFrame.

Lemma handleMapSet_other_maps_witness :
  same_map "2" T950.new_session
    (fst (T950.handleMapSet to_string
            [("mid", VStr "1"); ("type", VStr "vw");
             ("subsets", VArr [VObj [("mssid", VStr "0")]])] T950.new_session)).
Proof.
  apply (handleMapSet_other_maps to_string).
  intros mapMID H. injection H as <-. discriminate.
Defined.

Section Requery.

Variable JSON_stringify : value -> string.
Variable hasMainBrush hasUnitCareInfo hasRoundMopInfo : T950.session -> bool.
Variable isMapImageSupported : T950.session -> bool.
Variable getModelType : T950.session -> string.
Variable isValidVirtualWallType : value -> bool.
Variable isAirPurifier : value -> bool.
Variable COMPONENT_TO_ECOVACS : string -> value.

Let handleMapSet := T950.handleMapSet JSON_stringify.

Let run_switch :=
  T950.run_switch hasMainBrush hasUnitCareInfo hasRoundMopInfo isMapImageSupported
    getModelType isValidVirtualWallType isAirPurifier COMPONENT_TO_ECOVACS.

(** A boundary payload of type [t] that names its map. *)
Definition boundary_payload_of (mapMID : value) (t : string) (p : obj) : Prop :=
  isNaN (field p "mid") = false /\ field p "mid" = mapMID
  /\ field p "type" = VStr t /\ readable_subsets p.

Lemma boundary_payload_of_resolves (mapMID : value) (t : string) (p : obj) (cur : value) :
  boundary_payload_of mapMID t p -> resolve_mid cur p = Some mapMID.
Proof.
  intros (Hnum & Hmid & _). unfold resolve_mid. rewrite Hnum, Hmid. reflexivity.
Qed.

(** One round of the join: the wall payload, then the mop payload. *)
Lemma join_round (wall mop : obj) (mapMID : value) (s : T950.session) :
  boundary_payload_of mapMID "vw" wall ->
  boundary_payload_of mapMID "mw" mop ->
  joinable s (to_string mapMID) ->
  snd (join_state s mapMID) = (false, false) ->
  let d := extend (boundaries_of wall ++ boundaries_of mop) (fst (join_state s mapMID)) in
  exists s1 s2,
    handleMapSet wall s = (s1, Ok skip)
    /\ handleMapSet mop s1 = (s2, Ok (consolidated d))
    /\ T950.mapVirtualBoundaries s2 !! to_string mapMID = Some d
    /\ is_Some (T950.mapVirtualBoundariesResponses s2 !! to_string mapMID).
Proof.
  intros Hwall Hmop Hjoin Hrec. cbv zeta.
  pose proof (boundary_payload_of_resolves mapMID "vw" wall (T950.currentMapMID s) Hwall)
    as Hr1.
  destruct Hwall as (_ & _ & Hty1 & Hsub1).
  destruct (handleMapSet_boundaries JSON_stringify wall "vw" mapMID s Hr1 Hty1
              (or_introl eq_refl) Hsub1 Hjoin) as (s1 & Heq1 & Hd1 & Hf1 & _).
  rewrite Hrec in Heq1, Hf1.
  unfold mark in Heq1, Hf1. cbn [fst snd String.eqb Ascii.eqb Bool.eqb andb] in Heq1, Hf1.
  destruct (join_state_stored s1 mapMID _ _ Hd1 Hf1) as [Hjs1 Hjoin1].
  pose proof (boundary_payload_of_resolves mapMID "mw" mop (T950.currentMapMID s1) Hmop)
    as Hr2.
  destruct Hmop as (_ & _ & Hty2 & Hsub2).
  destruct (handleMapSet_boundaries JSON_stringify mop "mw" mapMID s1 Hr2 Hty2
              (or_intror eq_refl) Hsub2 Hjoin1) as (s2 & Heq2 & Hd2 & Hf2 & _).
  rewrite Hjs1 in Heq2, Hd2.
  unfold mark in Heq2. cbn [fst snd String.eqb Ascii.eqb Bool.eqb andb] in Heq2, Hd2.
  rewrite extend_extend in Heq2, Hd2.
  exists s1, s2. repeat split; eauto.
Qed.

(** X15: the boundaries of a map are never cleared. After a complete join
    on a map without boundaries, [run('GetVirtualBoundaries', mapID)]
    clears the flags only, so the answers to the new query are buffered
    and joined again, and the second [MapVirtualBoundaries] result holds
    every boundary twice. *)
Theorem requery_accumulates_boundaries (wall mop : obj) (mapMID : value)
    (s : T950.session) :
  boundary_payload_of mapMID "vw" wall ->
  boundary_payload_of mapMID "mw" mop ->
  num_gt (to_number mapMID) (of_Z 0) = true ->
  T950.mapVirtualBoundaries s !! to_string mapMID = None ->
  let once := (boundaries_of wall ++ boundaries_of mop)%list in
  let s2 := fst (handleMapSet mop (fst (handleMapSet wall s))) in
  let s3 := fst (run_switch (toLowerCase "GetVirtualBoundaries") [mapMID] s2) in
  snd (handleMapSet mop (fst (handleMapSet wall s)))
  = Ok (consolidated (T950.Build_EcovacsMapVirtualBoundaries mapMID once))
  /\ snd (handleMapSet wall s3) = Ok skip
  /\ snd (handleMapSet mop (fst (handleMapSet wall s3)))
     = Ok (consolidated (T950.Build_EcovacsMapVirtualBoundaries mapMID (once ++ once))).
Proof.
  intros Hwall Hmop Hpos Hfresh. cbv zeta.
  assert (Hjs : join_state s mapMID
                = (T950.Build_EcovacsMapVirtualBoundaries mapMID [], (false, false)))
    by (unfold join_state; rewrite Hfresh; reflexivity).
  assert (Hjoin : joinable s (to_string mapMID))
    by (unfold joinable; rewrite Hfresh; intros [d Hd]; discriminate Hd).
  destruct (join_round wall mop mapMID s Hwall Hmop Hjoin) as (s1 & s2 & E1 & E2 & Hd2 & _).
  { rewrite Hjs. reflexivity. }
  rewrite Hjs in E2, Hd2. cbn [fst] in E2, Hd2.
  rewrite E1. cbn [fst]. rewrite E2. cbn [fst snd].
  split; [reflexivity |].
  destruct (GetVirtualBoundaries_clears_flags hasMainBrush hasUnitCareInfo hasRoundMopInfo
              isMapImageSupported getModelType isValidVirtualWallType isAirPurifier
              COMPONENT_TO_ECOVACS mapMID s2 Hpos) as (Hf3 & Hb3 & _ & Hrec3).
  fold run_switch in Hf3, Hb3, Hrec3.
  set (s3 := fst (run_switch (toLowerCase "GetVirtualBoundaries") [mapMID] s2)) in *.
  assert (Hjoin3 : joinable s3 (to_string mapMID)) by (intros _; rewrite Hf3; eauto).
  assert (Hjs3 : fst (join_state s3 mapMID)
                 = extend (boundaries_of wall ++ boundaries_of mop)
                     (T950.Build_EcovacsMapVirtualBoundaries mapMID [])).
  { unfold join_state. rewrite Hb3, Hd2. reflexivity. }
  destruct (join_round wall mop mapMID s3 Hwall Hmop Hjoin3 Hrec3)
    as (s4 & s5 & E4 & E5 & _).
  rewrite Hjs3, extend_extend in E5.
  rewrite E4. cbn [fst snd]. rewrite E5. cbn [snd].
  split; reflexivity.
Qed.

End Requery.

Lemma requery_accumulates_boundaries_witness :
  let wall :=
    [("mid", VStr "1"); ("type", VStr "vw"); ("subsets", VArr [VObj [("mssid", VStr "0")]])] in
  let mop :=
    [("mid", VStr "1"); ("type", VStr "mw"); ("subsets", VArr [VObj [("mssid", VStr "1")]])] in
  let s2 :=
    fst (T950.handleMapSet to_string mop
           (fst (T950.handleMapSet to_string wall T950.new_session))) in
  let s3 :=
    fst (T950.run_switch T950.no_capability T950.no_capability T950.no_capability
           T950.no_capability (fun _ => "950") (fun _ => false) (fun _ => false)
           T950.sample_components_to (toLowerCase "GetVirtualBoundaries") [VStr "1"] s2) in
  snd (T950.handleMapSet to_string mop (fst (T950.handleMapSet to_string wall s3)))
  = Ok (consolidated
          (T950.Build_EcovacsMapVirtualBoundaries (VStr "1")
             [T950.Build_EcovacsMapVirtualBoundary (VStr "0") (VStr "vw");
              T950.Build_EcovacsMapVirtualBoundary (VStr "1") (VStr "mw");
              T950.Build_EcovacsMapVirtualBoundary (VStr "0") (VStr "vw");
              T950.Build_EcovacsMapVirtualBoundary (VStr "1") (VStr "mw")])).
Proof.
  intros wall mop s2 s3.
  apply (requery_accumulates_boundaries to_string T950.no_capability T950.no_capability
           T950.no_capability T950.no_capability (fun _ => "950") (fun _ => false)
           (fun _ => false) T950.sample_components_to wall mop (VStr "1")
           T950.new_session).
  - repeat split. repeat constructor.
  - repeat split. repeat constructor.
  - reflexivity.
  - reflexivity.
Defined.

(** ** The 950-type session: life span, clean logs, errors *)

Lemma find_app {A} (f : A -> bool) (l1 l2 : list A) :
  find f (l1 ++ l2) = match find f l1 with Some x => Some x | None => find f l2 end.
Proof.
  induction l1 as [| x l1 IH]; [reflexivity |]. cbn. destruct (f x); [reflexivity | exact IH].
Qed.

Lemma handleLifespan_step (C : string -> value) (element : obj) (rest : list value)
    (s : T950.session) :
  exists s1,
    T950.handleLifespan C (VArr (VObj element :: rest)) s
    = T950.handleLifespan C (VArr rest) s1
    /\ T950.components s1
       = <[component_key C element :=
             T950.lifespan_percent (field element "left") (field element "total")]>
           (T950.components s).
Proof.
  unfold T950.handleLifespan, component_key. cbn [own_values for_each truthy].
  unfold bind at 1 2 3 4, get, ret, modify, T950.envLogWarn, T950.emit.
  cbn [property fst snd].
  destruct (truthy (C (to_string (field element "type")))); cbn [fst snd];
    unfold bind; cbn [fst snd]; eexists; (split; [reflexivity |]);
    destruct s; reflexivity.
Qed.

(** X16: on a list of component objects [handleLifespan] never throws,
    the last element of a component decides its percentage, and the
    components that the payload does not name keep their value. *)
Theorem handleLifespan_last_wins (C : string -> value) (elements : list obj)
    (s : T950.session) :
  snd (T950.handleLifespan C (VArr (map VObj elements)) s) = Ok tt
  /\ forall key,
       T950.components (fst (T950.handleLifespan C (VArr (map VObj elements)) s)) !! key
       = match find (fun e => String.eqb (component_key C e) key) (rev elements) with
         | Some e =>
             Some (T950.lifespan_percent (field e "left") (field e "total"))
         | None => T950.components s !! key
         end.
Proof.
  revert s. induction elements as [| e elements IH]; intros s.
  - split; [reflexivity |]. intros key. reflexivity.
  - cbn [map]. destruct (handleLifespan_step C e (map VObj elements) s) as (s1 & -> & Hc).
    destruct (IH s1) as [Hok Hkey]. split; [exact Hok |].
    intros key. rewrite Hkey. cbn [rev]. rewrite find_app.
    destruct (find _ (rev elements)); [reflexivity |].
    cbn [find]. rewrite Hc.
    destruct (String.eqb_spec (component_key C e) key) as [<- | Hne].
    + apply lookup_insert_eq.
    + apply lookup_insert_ne. exact Hne.
Qed.

Section CleanLogsMore.

Variable getTimeStringFormatted : num -> value.

Let ingest_log := T950.ingest_log getTimeStringFormatted.
Let handleCleanLogs := T950.handleCleanLogs getTimeStringFormatted.

(** A timestamp after the epoch: a positive number. *)
Definition after_epoch (n : num) : Prop := num_lt (of_Z 0) n = true.

Lemma num_lt_trans (a b c : num) :
  num_lt a b = true -> num_lt b c = true -> num_lt a c = true.
Proof.
  destruct a as [p | | sa], b as [q | | sb], c as [r | | sc]; cbn;
    try discriminate; try (rewrite !Qltb_lt; apply Qlt_trans);
    repeat match goal with b : bool |- _ => destruct b end; cbn; congruence.
Qed.

(** The last timestamp in [s'] is the one in [s] or a later one. *)
Definition not_earlier (s s' : T950.session) : Prop :=
  exists l l',
    T950.cleanLog_lastTimestamp s = Some l /\ T950.cleanLog_lastTimestamp s' = Some l'
    /\ after_epoch l /\ (l' = l \/ num_lt l l' = true).

Lemma not_earlier_positive (s s' : T950.session) :
  not_earlier s s' ->
  exists l', T950.cleanLog_lastTimestamp s' = Some l' /\ after_epoch l'.
Proof.
  intros (l & l' & _ & Hl' & Hpos & [E | Hlt]); exists l'; (split; [exact Hl' |]).
  - rewrite E. exact Hpos.
  - exact (num_lt_trans _ _ _ Hpos Hlt).
Qed.

Lemma not_earlier_trans (s1 s2 s3 : T950.session) :
  not_earlier s1 s2 -> not_earlier s2 s3 -> not_earlier s1 s3.
Proof.
  intros (l1 & l2 & H1 & H2 & Hp1 & H12) (l2' & l3 & H2' & H3 & _ & H23).
  rewrite H2 in H2'. injection H2' as <-.
  exists l1, l3. repeat split; try assumption.
  destruct H12 as [-> | H12]; [exact H23 |].
  destruct H23 as [-> | H23]; [right; exact H12 |].
  right. exact (num_lt_trans _ _ _ H12 H23).
Qed.

Lemma ingest_log_not_earlier (log : obj) (s : T950.session) (l : num) :
  T950.cleanLog_lastTimestamp s = Some l -> after_epoch l ->
  not_earlier s (fst (ingest_log (VObj log) s)).
Proof.
  intros Hl Hpos. unfold ingest_log. rewrite ingest_log_eq.
  destruct (T950.cleanLog s !! log_key log).
  - exists l, l. cbn. auto.
  - cbv zeta. unfold newer. rewrite Hl.
    assert (Htruthy : num_truthy l = true).
    { unfold after_epoch in Hpos. destruct l as [q | | b]; cbn in *; try discriminate;
        [| reflexivity].
      apply Bool.negb_true_iff, Qzero_false. intros Hz.
      apply Qltb_lt in Hpos. rewrite Hz in Hpos. discriminate Hpos. }
    rewrite Htruthy, Bool.orb_false_r.
    destruct (num_lt l (to_number (field log "ts"))) eqn:Hlt; cbn [fst].
    + exists l, (to_number (field log "ts")). repeat split; auto.
    + exists l, l. repeat split; auto.
Qed.

(** X17: the recorded last timestamp never moves back: when it is a
    positive number, then after [handleCleanLogs], whatever the logs of
    the payload, it is the same or a later one. *)
Theorem last_timestamp_never_moves_back (logs : list obj) (l : num) (s : T950.session) :
  T950.cleanLog_lastTimestamp s = Some l -> after_epoch l ->
  exists l',
    T950.cleanLog_lastTimestamp
      (fst (handleCleanLogs [("logs", VArr (map VObj logs))] s)) = Some l'
    /\ (l' = l \/ num_lt l l' = true).
Proof.
  intros Hl Hpos.
  assert (Hloop : forall s0, (exists l0, T950.cleanLog_lastTimestamp s0 = Some l0 /\ after_epoch l0) ->
                  not_earlier s0 (fst (for_each ingest_log (map VObj logs) s0))).
  { induction logs as [| log logs IH]; intros s0 (l0 & Hl0 & Hp0).
    - exists l0, l0. cbn. auto.
    - cbn [map for_each]. rewrite fst_bind.
      pose proof (ingest_log_not_earlier log s0 l0 Hl0 Hp0) as Hstep.
      assert (Hok : snd (ingest_log (VObj log) s0) = Ok tt).
      { unfold ingest_log. rewrite ingest_log_eq.
        destruct (T950.cleanLog s0 !! _); reflexivity. }
      destruct (ingest_log (VObj log) s0) as [s1 r1]. cbn [fst snd] in *. subst r1.
      eapply not_earlier_trans; [exact Hstep |].
      apply IH. exact (not_earlier_positive _ _ Hstep). }
  unfold handleCleanLogs, T950.handleCleanLogs. rewrite fst_bind. unfold modify at 1.
  cbn [hasOwnProperty assoc String.eqb Ascii.eqb Bool.eqb field own_values].
  fold ingest_log.
  destruct (Hloop (T950.set_cleanLog ∅ s)) as (l0 & l' & Hl0 & Hl' & _ & Hle).
  { exists l. split; [destruct s; exact Hl | exact Hpos]. }
  exists l'. split; [exact Hl' |].
  assert (l0 = l) by (destruct s; cbn in *; congruence). subst l0. exact Hle.
Qed.

End CleanLogsMore.

Definition session_with_last_timestamp : T950.session :=
  T950.set_cleanLog_lastTimestamp (Some (of_Z 100)) T950.new_session.

Definition later_logs : list obj :=
  [[("id", VStr "a"); ("ts", VInt 200); ("area", VInt 12); ("last", VInt 600)];
   [("id", VStr "b"); ("ts", VInt 50); ("area", VInt 7); ("last", VInt 300)]].

Lemma last_timestamp_never_moves_back_witness :
  exists l',
    T950.cleanLog_lastTimestamp
      (fst (T950.handleCleanLogs T950.sample_time_string
              [("logs", VArr (map VObj later_logs))] session_with_last_timestamp))
    = Some l'
    /\ (l' = of_Z 100 \/ num_lt (of_Z 100) l' = true).
Proof.
  apply (last_timestamp_never_moves_back T950.sample_time_string later_logs (of_Z 100)
           session_with_last_timestamp); reflexivity.
Defined.

(** X18: [handleResponseError] throws exactly when the payload has no
    code ([undefined] or [null]), and then it leaves the session as it
    was. *)
Theorem handleResponseError_throws_without_code (E : string -> value) (payload : obj)
    (s : T950.session) :
  (nullish (field payload "code") = true <->
   T950.handleResponseError E payload s = (s, Throw "TypeError"))
  /\ (nullish (field payload "code") = false <->
      snd (T950.handleResponseError E payload s) = Ok tt).
Proof.
  destruct (code_string payload) as [c |] eqn:Hc.
  - rewrite (handleResponseError_eq E payload c s Hc). cbn [snd].
    assert (Hn : nullish (field payload "code") = false)
      by (unfold code_string in Hc; destruct (field payload "code"); try discriminate Hc;
          reflexivity).
    rewrite Hn. split; split; intros H; try discriminate H; reflexivity.
  - assert (Hn : nullish (field payload "code") = true)
      by (unfold code_string in Hc; destruct (field payload "code"); try discriminate Hc;
          reflexivity).
    assert (Ht : T950.handleResponseError E payload s = (s, Throw "TypeError")).
    { unfold T950.handleResponseError, bind, T950.toString.
      destruct (field payload "code"); try discriminate Hn; reflexivity. }
    rewrite Hn, Ht. split; split; intros H; try discriminate H; reflexivity.
Qed.

(** ** The 950-type session: what a command can do *)

Section RunMore.

Variable hasMainBrush hasUnitCareInfo hasRoundMopInfo : T950.session -> bool.
Variable isMapImageSupported : T950.session -> bool.
Variable getModelType : T950.session -> string.
Variable isValidVirtualWallType : value -> bool.
Variable isAirPurifier : value -> bool.
Variable COMPONENT_TO_ECOVACS : string -> value.

Let run_switch :=
  T950.run_switch hasMainBrush hasUnitCareInfo hasRoundMopInfo isMapImageSupported
    getModelType isValidVirtualWallType isAirPurifier COMPONENT_TO_ECOVACS.

(** The commands that read [args[0].toString()]. *)
Definition reads_first_argument (c : string) : bool :=
  existsb (String.eqb c) ["getmapimage"; "spotarea_v2"; "customarea_v2"; "mappoint_v2"].

Ltac run_leaf :=
  cbv beta iota delta [bind gets modify ret throw T950.sendCommand T950.toString];
  cbn [fst snd];
  repeat match goal with
         | |- context [if ?b then _ else _] =>
             lazymatch b with
             | context [match _ with _ => _ end] => fail
             | _ => destruct b eqn:?
             end; cbv beta iota; cbn [fst snd]
         | |- context [match ?x with _ => _ end] =>
             lazymatch x with
             | context [match _ with _ => _ end] => fail
             | _ => destruct x eqn:?
             end; cbv beta iota; cbn [fst snd]
         end.

Ltac run_sent s :=
  split; [reflexivity |];
  first [ exists []; rewrite app_nil_r; split; [destruct s; reflexivity | cbn; lia]
        | eexists [_]; split; [destruct s; reflexivity | cbn; lia]
        | eexists [_; _]; split;
          [destruct s; cbn; rewrite <- app_assoc; reflexivity | cbn; lia] ].

(** X19: the switch of [run] throws only in the four commands that read
    their first argument as a string, only when that argument is
    [undefined] or [null], and then nothing of the session has changed;
    in every other case it ends normally, with at most two requests
    added at the end of the queue. *)
Theorem run_switch_outcome (c : string) (args : list value) (s : T950.session) :
  (snd (run_switch c args s) = Ok tt
   /\ exists requests,
        T950.sent (fst (run_switch c args s)) = (T950.sent s ++ requests)%list
        /\ (length requests <= 2)%nat)
  \/ (run_switch c args s = (s, Throw "TypeError")
      /\ reads_first_argument c = true
      /\ nullish (nth 0 args VUndefined) = true).
Proof.
  unfold run_switch, T950.run_switch. cbv zeta.
  repeat (match goal with
          | |- context [String.eqb c ?n] => destruct (String.eqb c n) eqn:?
          end; cbn [orb]; cbv beta iota).
  all: try (left; run_leaf; solve [run_sent s]).
  all: match goal with
       | H : String.eqb ?x _ = true |- _ => apply String.eqb_eq in H; subst x
       end.
  all: cbv beta iota delta [T950.toString bind throw ret]; cbn [fst snd];
    destruct (nth 0 args VUndefined) eqn:Harg; cbn [fst snd nullish];
    try (right; repeat split; reflexivity).
  all: left; run_leaf; run_sent s.
Qed.

End RunMore.

(** * More of the 950-type session: maps and schedule *)

Module T950x.

(** The arguments of [new map.EcovacsMap(mapID, mapIndex, mapName,
    mapStatus, mapIsCurrentMap, mapIsBuilt)]. *)
Record EcovacsMap : Type := {
  mapID : value;
  mapIndex : value;
  mapName : value;
  mapStatus : value;
  mapIsCurrentMap : value;
  mapIsBuilt : value
}.

(** [cleanCtl]: its [type] and, when assigned, its [spotAreas]. *)
Record CleanCtl : Type := { ctl_type : value; ctl_spotAreas : option value }.

Record Weekdays : Type := { Mon : bool; Tue : bool; Wed : bool; Thu : bool;
                            Fri : bool; Sat : bool; Sun : bool }.

Record ScheduleEntry : Type := {
  sid : value;
  cleanCmd : CleanCtl;
  content : value;
  enabled : bool;
  onlyOnce : bool;
  weekdays : Weekdays;
  hour : value;
  minute : value;
  mapID_of : value
}.

(** The session with the fields that [handleCachedMapInfo] and
    [handleSched] write besides those of [T950.session]. *)
Record session : Type := Session {
  core : T950.session;
  currentMapName : value;
  currentMapIndex : value;
  maps : list EcovacsMap;
  schedule : list ScheduleEntry
}.

Definition set_core (f : T950.session -> T950.session) (s : session) : session :=
  Session (f (core s)) (currentMapName s) (currentMapIndex s) (maps s) (schedule s).

Definition set_currentMapName (v : value) (s : session) : session :=
  Session (core s) v (currentMapIndex s) (maps s) (schedule s).

Definition set_currentMapIndex (v : value) (s : session) : session :=
  Session (core s) (currentMapName s) v (maps s) (schedule s).

Definition set_maps (l : list EcovacsMap) (s : session) : session :=
  Session (core s) (currentMapName s) (currentMapIndex s) l (schedule s).

Definition set_schedule (l : list ScheduleEntry) (s : session) : session :=
  Session (core s) (currentMapName s) (currentMapIndex s) (maps s) l.

Definition new_session : session :=
  Session T950.new_session VUndefined VUndefined [] [].

(** The body of the loop of [handleCachedMapInfo] for
    [infoEvent[mapIndex]]. *)
Definition cached_map_entry (entry : value) : M session unit :=
  (mid <- get entry "mid" ;;
   if strict_neq mid (VStr "0") then
     index <- get entry "index" ;;
     name <- get entry "name" ;;
     status <- get entry "status" ;;
     using_ <- get entry "using" ;;
     built <- get entry "built" ;;
     modify (fun s =>
               set_maps (maps s ++ [Build_EcovacsMap mid index name status using_ built]) s) ;;;
     if strict_eq using_ (VInt 1) then
       modify (set_currentMapName name) ;;;
       modify (set_core (T950.set_currentMapMID mid)) ;;;
       modify (set_currentMapIndex index)
     else ret tt
   else ret tt)%js.

Definition handleCachedMapInfo (payload : obj) : M session unit :=
  (modify (set_currentMapName (VStr "unknown")) ;;;
   modify (set_maps []) ;;;
   let infoEvent := field payload "info" in
   for_each cached_map_entry (own_values infoEvent))%js.

Definition handleMapInfoV2 (payload : obj) : M session unit :=
  (modify (set_core (T950.set_currentMapMID (field payload "mid"))) ;;;
   modify (set_currentMapName (VStr "standard")) ;;;
   modify (set_currentMapIndex (VInt 0)) ;;;
   modify (set_maps []) ;;;
   modify (fun s =>
             set_maps
               (maps s ++ [Build_EcovacsMap (T950.currentMapMID (core s)) (currentMapIndex s)
                             (currentMapName s) (VInt 1) (VInt 1) (VInt 1)]) s))%js.

(** [v.hasOwnProperty(k)] for a key [k] that is neither [length] nor an
    index: a [TypeError] on [undefined] and [null], false on the values
    that are not objects. *)
Definition has_own {S} (v : value) (k : string) : M S bool :=
  match v with
  | VUndefined | VNull => throw "TypeError"
  | VObj fields => ret (hasOwnProperty fields k)
  | _ => ret false
  end.

(** [v.split('')]: the characters of a string; the other values have no
    [split]. *)
Definition split_chars {S} (v : value) : M S (list ascii) :=
  match v with
  | VStr s => ret (list_ascii_of_string s)
  | _ => throw "TypeError"
  end.

(** [Boolean(Number(weekdays[i]))] *)
Definition weekday (chars : list ascii) (i : nat) : bool :=
  match nth_error chars i with
  | Some c => num_truthy (to_number (VStr (String c EmptyString)))
  | None => num_truthy (to_number VUndefined)
  end.

Definition lift {S A} (r : result A) : M S A := fun s => (s, r).

Section Sched.

(** [JSON.parse] on the string of its argument. *)
Variable JSON_parse : string -> result value.

(** The body of the loop of [handleSched] for [payload[c]]. On a string
    [resultData.repeat] is the method of [String.prototype], which is
    not [undefined], is not a number and has no [split]. *)
Definition sched_entry (resultData : value) : M session unit :=
  match resultData with
  | VStr _ => throw "TypeError"
  | _ =>
      (repeat_ <- get resultData "repeat" ;;
       if strict_neq repeat_ VUndefined then
         hasContent <- has_own resultData "content" ;;
         cleanCtl <-
           (if hasContent : bool then
              content <- get resultData "content" ;;
              hasJsonStr <- has_own content "jsonStr" ;;
              if hasJsonStr : bool then
                jsonStr <- get content "jsonStr" ;;
                json <- lift (JSON_parse (to_string jsonStr)) ;;
                type <- get json "type" ;;
                if strict_eq type (VStr "spotArea") then
                  spotAreas <- get json "content" ;;
                  ret (Build_CleanCtl type (Some spotAreas))
                else ret (Build_CleanCtl type None)
              else ret (Build_CleanCtl (VStr "auto") None)
            else ret (Build_CleanCtl (VStr "auto") None)) ;;
         let onlyOnce := num_eqb (to_number repeat_) (of_Z 0) in
         weekdays <- split_chars repeat_ ;;
         let weekdaysObj :=
           Build_Weekdays (weekday weekdays 1) (weekday weekdays 2) (weekday weekdays 3)
             (weekday weekdays 4) (weekday weekdays 5) (weekday weekdays 6)
             (weekday weekdays 0) in
         sid <- get resultData "sid" ;;
         content <- get resultData "content" ;;
         enable <- get resultData "enable" ;;
         hour <- get resultData "hour" ;;
         minute <- get resultData "minute" ;;
         mid <- get resultData "mid" ;;
         modify (fun s =>
                   set_schedule
                     (schedule s
                      ++ [Build_ScheduleEntry sid cleanCtl content
                            (num_truthy (to_number enable)) onlyOnce weekdaysObj
                            hour minute mid]) s)
       else ret tt)%js
  end.

(** [payload] is the array of the message. *)
Definition handleSched (payload : list value) : M session unit :=
  (modify (set_schedule []) ;;;
   for_each sched_entry payload)%js.

End Sched.

End T950x.

(** ** The maps of [handleCachedMapInfo] *)

(** The entries that are listed (their [mid] is not ['0']), the ones
    that make a map the current one, and the map built from an entry. *)
Definition listed (entry : obj) : bool := strict_neq (field entry "mid") (VStr "0").

Definition in_use (entry : obj) : bool :=
  listed entry && strict_eq (field entry "using") (VInt 1).

Definition ecovacs_map (entry : obj) : T950x.EcovacsMap :=
  T950x.Build_EcovacsMap (field entry "mid") (field entry "index") (field entry "name")
    (field entry "status") (field entry "using") (field entry "built").

(** The name, the ID and the index of the current map. *)
Definition current_map (s : T950x.session) : value * value * value :=
  (T950x.currentMapName s, T950.currentMapMID (T950x.core s), T950x.currentMapIndex s).

Lemma cached_map_entry_eq (entry : obj) (s : T950x.session) :
  T950x.cached_map_entry (VObj entry) s
  = (if listed entry then
       let s1 := T950x.set_maps (T950x.maps s ++ [ecovacs_map entry]) s in
       if strict_eq (field entry "using") (VInt 1) then
         T950x.set_currentMapIndex (field entry "index")
           (T950x.set_core (T950.set_currentMapMID (field entry "mid"))
              (T950x.set_currentMapName (field entry "name") s1))
       else s1
     else s, Ok tt).
Proof.
  unfold T950x.cached_map_entry, listed, bind, get, modify, ret. cbn [property fst snd].
  destruct (strict_neq (field entry "mid") (VStr "0")); [| reflexivity].
  cbv zeta. destruct (strict_eq (field entry "using") (VInt 1)); reflexivity.
Qed.

Lemma cached_map_loop (infos : list obj) (s : T950x.session) :
  let s' := fst (for_each T950x.cached_map_entry (map VObj infos) s) in
  snd (for_each T950x.cached_map_entry (map VObj infos) s) = Ok tt
  /\ T950x.maps s' = (T950x.maps s ++ map ecovacs_map (List.filter listed infos))%list
  /\ current_map s'
     = match find in_use (rev infos) with
       | Some entry => (field entry "name", field entry "mid", field entry "index")
       | None => current_map s
       end.
Proof.
  revert s. induction infos as [| entry infos IH]; intros s.
  - cbn. rewrite app_nil_r. auto.
  - cbn [map for_each]. unfold bind at 1 2 3. rewrite cached_map_entry_eq.
    cbn [fst snd]. cbv zeta in IH.
    match goal with
    | |- context [for_each _ _ ?s1] => destruct (IH s1) as (Hok & Hmaps & Hcur)
    end.
    split; [exact Hok |]. rewrite Hmaps, Hcur. cbn [rev]. rewrite find_app.
    cbn [List.filter find].
    destruct (find in_use (rev infos)) as [e |]; unfold in_use;
      destruct (listed entry); cbn [andb map];
      try destruct (strict_eq (field entry "using") (VInt 1));
      cbn [T950x.maps T950x.set_maps T950x.set_currentMapIndex T950x.set_core
           T950x.set_currentMapName];
      rewrite <- ?app_assoc; split; reflexivity.
Qed.

(** X20: [handleCachedMapInfo] lists the entries whose [mid] is not
    ['0'], in their order. The last listed entry with [using === 1]
    gives the name, the ID and the index of the current map; when there
    is none the name is ['unknown'] while the ID and the index stay
    those of the map that was current before. *)
Theorem handleCachedMapInfo_current_map (infos : list obj) (s : T950x.session) :
  let s' := fst (T950x.handleCachedMapInfo [("info", VArr (map VObj infos))] s) in
  snd (T950x.handleCachedMapInfo [("info", VArr (map VObj infos))] s) = Ok tt
  /\ T950x.maps s' = map ecovacs_map (List.filter listed infos)
  /\ current_map s'
     = match find in_use (rev infos) with
       | Some entry => (field entry "name", field entry "mid", field entry "index")
       | None =>
           (VStr "unknown", T950.currentMapMID (T950x.core s), T950x.currentMapIndex s)
       end.
Proof.
  unfold T950x.handleCachedMapInfo. unfold bind at 1 2 3 4 5 6, modify. cbn [fst snd].
  cbn [field assoc String.eqb Ascii.eqb Bool.eqb own_values].
  match goal with
  | |- context [for_each _ _ ?s1] =>
      destruct (cached_map_loop infos s1) as (Hok & Hmaps & Hcur)
  end.
  cbv zeta. split; [exact Hok |]. split; [exact Hmaps |]. rewrite Hcur.
  destruct (find in_use (rev infos)); reflexivity.
Qed.

(** ** The schedule of [handleSched] *)

(** A [repeat] of seven binary digits, Sunday first. *)
Definition is01 (c : ascii) : bool := Ascii.eqb c "0" || Ascii.eqb c "1".

Definition binary_week (r : string) : bool :=
  (String.length r =? 7)%nat && forallb is01 (list_ascii_of_string r).

Definition any_day (w : T950x.Weekdays) : bool :=
  T950x.Mon w || T950x.Tue w || T950x.Wed w || T950x.Thu w || T950x.Fri w
  || T950x.Sat w || T950x.Sun w.

(** An entry is for one time only exactly when it names no weekday. *)
Definition once_or_weekly (e : T950x.ScheduleEntry) : Prop :=
  T950x.onlyOnce e = negb (any_day (T950x.weekdays e)).

(** Every string [repeat] of the payload is a binary week. *)
Definition week_repeat (resultData : value) : bool :=
  match resultData with
  | VObj fields =>
      match field fields "repeat" with
      | VStr r => binary_week r
      | _ => true
      end
  | _ => true
  end.

Lemma is01_cases (c : ascii) : is01 c = true -> c = "0"%char \/ c = "1"%char.
Proof.
  unfold is01. intros H. apply Bool.orb_true_iff in H.
  destruct H as [H | H]; apply Ascii.eqb_eq in H; auto.
Qed.

Lemma binary_week_once (r : string) :
  binary_week r = true ->
  num_eqb (to_number (VStr r)) (of_Z 0)
  = negb (T950x.weekday (list_ascii_of_string r) 1
          || T950x.weekday (list_ascii_of_string r) 2
          || T950x.weekday (list_ascii_of_string r) 3
          || T950x.weekday (list_ascii_of_string r) 4
          || T950x.weekday (list_ascii_of_string r) 5
          || T950x.weekday (list_ascii_of_string r) 6
          || T950x.weekday (list_ascii_of_string r) 0).
Proof.
  unfold binary_week. intros H. apply andb_prop in H. destruct H as [Hlen Hall].
  do 8 (destruct r as [| ? r]; try discriminate Hlen).
  cbn [list_ascii_of_string forallb] in Hall.
  repeat match goal with
         | H : _ && _ = true |- _ => apply andb_prop in H; destruct H
         end.
  repeat match goal with
         | H : is01 _ = true |- _ => apply is01_cases in H; destruct H; subst
         end;
    vm_compute; reflexivity.
Qed.

Lemma for_each_app {S A} (body : A -> M S unit) (xs ys : list A) (s : S) :
  for_each body (xs ++ ys) s = bind (for_each body xs) (fun _ => for_each body ys) s.
Proof.
  revert s. induction xs as [| x xs IH]; intros s; [reflexivity |].
  cbn [app for_each]. unfold bind. destruct (body x s) as [s1 [[] | e]].
  - rewrite IH. reflexivity.
  - reflexivity.
Qed.

Section SchedMore.

Variable JSON_parse : string -> result value.

Let sched_entry := T950x.sched_entry JSON_parse.
Let handleSched := T950x.handleSched JSON_parse.

Ltac sched_cases :=
  cbv beta iota delta [bind get gets modify ret throw T950x.lift T950x.has_own
                       T950x.split_chars];
  cbn [fst snd property];
  repeat match goal with
         | |- context [if ?b then _ else _] =>
             lazymatch b with
             | context [match _ with _ => _ end] => fail
             | _ => destruct b eqn:?
             end; cbv beta iota; cbn [fst snd property]
         | |- context [match ?x with _ => _ end] =>
             lazymatch x with
             | context [match _ with _ => _ end] => fail
             | _ => destruct x eqn:?
             end; cbv beta iota; cbn [fst snd property]
         end.

Lemma sched_entry_keeps (resultData : value) (s : T950x.session) :
  week_repeat resultData = true ->
  Forall once_or_weekly (T950x.schedule s) ->
  Forall once_or_weekly (T950x.schedule (fst (sched_entry resultData s))).
Proof.
  intros Hweek Hs. unfold sched_entry, T950x.sched_entry.
  destruct resultData as [| | b | z | r | items | fields]; try exact Hs.
  cbn [week_repeat] in Hweek. revert Hweek.
  sched_cases; intros Hweek; try exact Hs.
  all: cbn [T950x.schedule T950x.set_schedule]; apply Forall_app; split;
    [exact Hs | constructor; [| constructor]];
    unfold once_or_weekly, any_day; cbn; apply binary_week_once; exact Hweek.
Qed.

Lemma sched_loop_keeps (payload : list value) (s : T950x.session) :
  forallb week_repeat payload = true ->
  Forall once_or_weekly (T950x.schedule s) ->
  Forall once_or_weekly (T950x.schedule (fst (for_each sched_entry payload s))).
Proof.
  revert s. induction payload as [| x payload IH]; intros s Hall Hs; [exact Hs |].
  cbn [forallb] in Hall. apply andb_prop in Hall. destruct Hall as [Hx Hall].
  cbn [for_each]. unfold bind.
  pose proof (sched_entry_keeps x s Hx Hs) as Hstep.
  destruct (sched_entry x s) as [s1 [[] | e]]; cbn [fst] in *.
  - apply IH; assumption.
  - exact Hstep.
Qed.

(** X21: when every string [repeat] of the payload is a week of seven
    binary digits, every entry of the schedule after [handleSched] is
    for one time only exactly when it names no weekday, whatever else
    the payload holds and also where the handler has thrown. *)
Theorem handleSched_once_or_weekly (payload : list value) (s : T950x.session) :
  forallb week_repeat payload = true ->
  Forall once_or_weekly (T950x.schedule (fst (handleSched payload s))).
Proof.
  intros Hall. unfold handleSched, T950x.handleSched. unfold bind at 1, modify at 1.
  apply sched_loop_keeps; [exact Hall | constructor].
Qed.

Definition is_string (v : value) : bool :=
  match v with VStr _ => true | _ => false end.

Lemma property_throws (v : value) (k error : string) :
  property v k = Throw error -> error = "TypeError".
Proof. destruct v; cbn; intros H; try discriminate H; congruence. Qed.

(** An entry whose [repeat] is neither [undefined] nor a string ends in
    an exception, the session left as it was: a [TypeError], or the
    error of [JSON.parse] on its [content.jsonStr]. *)
Lemma sched_entry_not_a_string (entry : obj) (s : T950x.session) :
  strict_neq (field entry "repeat") VUndefined = true ->
  is_string (field entry "repeat") = false ->
  exists error,
    sched_entry (VObj entry) s = (s, Throw error)
    /\ (error = "TypeError" \/ exists text, JSON_parse text = Throw error)
    /\ (hasOwnProperty entry "content" = false -> error = "TypeError").
Proof.
  intros Hdef Hstr. unfold sched_entry, T950x.sched_entry.
  revert Hdef Hstr.
  sched_cases; intros Hdef Hstr; try discriminate Hdef; try discriminate Hstr;
    (eexists; split; [reflexivity |]; split;
     [first [ left; reflexivity
            | left; eapply property_throws; eassumption
            | right; eexists; eassumption ]
     | intros H; first [reflexivity | discriminate H]]).
Qed.

(** X22: an entry whose [repeat] is neither [undefined] nor a string (a
    number, say) stops [handleSched] with an exception, a [TypeError]
    unless [JSON.parse] has thrown on the [content.jsonStr] of the entry
    before: the entries before it are kept, the ones after it are not
    read. *)
Theorem handleSched_repeat_not_a_string (before after : list value) (entry : obj)
    (s : T950x.session) :
  snd (handleSched before s) = Ok tt ->
  strict_neq (field entry "repeat") VUndefined = true ->
  is_string (field entry "repeat") = false ->
  exists error,
    handleSched (before ++ VObj entry :: after) s
    = (fst (handleSched before s), Throw error)
    /\ (error = "TypeError" \/ exists text, JSON_parse text = Throw error)
    /\ (hasOwnProperty entry "content" = false -> error = "TypeError").
Proof.
  unfold handleSched, T950x.handleSched. unfold bind at 1 2 3, modify at 1 2 3.
  intros Hok Hdef Hstr. rewrite for_each_app. unfold bind at 1.
  destruct (for_each (T950x.sched_entry JSON_parse) before (T950x.set_schedule [] s))
    as [s1 r1]. cbn [fst snd] in *. subst r1.
  cbn [for_each]. unfold bind at 1.
  destruct (sched_entry_not_a_string entry s1 Hdef Hstr) as (error & Hentry & Herror).
  unfold sched_entry in Hentry. rewrite Hentry. exists error. split; [reflexivity | exact Herror].
Qed.

End SchedMore.

Definition no_json (text : string) : result value := Throw "SyntaxError".

Definition sched_payload : list value :=
  [VObj [("sid", VStr "1"); ("repeat", VStr "0100000"); ("enable", VInt 1);
         ("hour", VInt 6); ("minute", VInt 30); ("mid", VStr "199")];
   VObj [("sid", VStr "2"); ("repeat", VStr "0000000"); ("enable", VInt 0);
         ("hour", VInt 18); ("minute", VInt 0); ("mid", VStr "199")]].

Lemma handleSched_once_or_weekly_witness :
  Forall once_or_weekly
    (T950x.schedule (fst (T950x.handleSched no_json sched_payload T950x.new_session))).
Proof.
  apply (handleSched_once_or_weekly no_json sched_payload T950x.new_session).
  reflexivity.
Defined.

(** An entry with a numeric [repeat] and a [content] that carries JSON. *)
Definition numeric_repeat : obj :=
  [("sid", VStr "3"); ("repeat", VInt 0);
   ("content", VObj [("jsonStr", VStr "{")])].

Lemma handleSched_repeat_not_a_string_witness :
  exists error,
    T950x.handleSched no_json (sched_payload ++ VObj numeric_repeat :: sched_payload)
      T950x.new_session
    = (fst (T950x.handleSched no_json sched_payload T950x.new_session), Throw error)
    /\ (error = "TypeError" \/ exists text, no_json text = Throw error)
    /\ (hasOwnProperty numeric_repeat "content" = false -> error = "TypeError").
Proof.
  apply (handleSched_repeat_not_a_string no_json sched_payload sched_payload
           numeric_repeat T950x.new_session); reflexivity.
Defined.

(** ** The current map is one of the listed maps *)

Definition current_map_listed (s : T950x.session) : Prop :=
  exists m,
    In m (T950x.maps s)
    /\ (T950x.mapName m, T950x.mapID m, T950x.mapIndex m) = current_map s.

(** X23: after [handleCachedMapInfo] on a payload with an entry in use,
    and after [handleMapInfoV2], the name, the ID and the index of the
    current map are those of one of the listed maps. *)
Theorem current_map_listed_after (infos : list obj) (payload : obj) (s : T950x.session) :
  existsb in_use infos = true ->
  current_map_listed
    (fst (T950x.handleCachedMapInfo [("info", VArr (map VObj infos))] s))
  /\ current_map_listed (fst (T950x.handleMapInfoV2 payload s)).
Proof.
  intros Hused. split.
  - unfold T950x.handleCachedMapInfo. unfold bind at 1 2, modify. cbn [fst snd].
    cbn [field assoc String.eqb Ascii.eqb Bool.eqb own_values].
    match goal with
    | |- context [for_each _ _ ?s1] =>
        destruct (cached_map_loop infos s1) as (_ & Hmaps & Hcur)
    end.
    cbv zeta. unfold current_map_listed. rewrite Hmaps, Hcur. cbn [T950x.maps app].
    destruct (find in_use (rev infos)) as [entry |] eqn:Hfind.
    + apply find_some in Hfind. destruct Hfind as [Hin Hentry].
      exists (ecovacs_map entry). split; [| reflexivity].
      apply in_map, filter_In. split; [apply in_rev; exact Hin |].
      unfold in_use in Hentry. apply andb_prop in Hentry. tauto.
    + apply existsb_exists in Hused. destruct Hused as (entry & Hin & Hentry).
      apply in_rev in Hin. rewrite (find_none _ _ Hfind entry Hin) in Hentry.
      discriminate Hentry.
  - unfold current_map_listed, current_map. eexists. split; [left; reflexivity |].
    destruct s. reflexivity.
Qed.

Definition cached_maps : list obj :=
  [[("mid", VStr "0"); ("index", VInt 0); ("name", VStr ""); ("using", VInt 0)];
   [("mid", VStr "199"); ("index", VInt 1); ("name", VStr "home"); ("using", VInt 1)];
   [("mid", VStr "200"); ("index", VInt 2); ("name", VStr "cellar"); ("using", VInt 0)]].

Lemma current_map_listed_after_witness :
  current_map_listed
    (fst (T950x.handleCachedMapInfo [("info", VArr (map VObj cached_maps))]
            T950x.new_session))
  /\ current_map_listed
       (fst (T950x.handleMapInfoV2 [("mid", VStr "199")] T950x.new_session)).
Proof.
  apply (current_map_listed_after cached_maps [("mid", VStr "199")] T950x.new_session).
  reflexivity.
Defined.

(** ** A life-span query and its answer *)

Lemma handleLifespan_lookup (C : string -> value) (elements : list obj)
    (s : T950.session) (key : string) :
  T950.components (fst (T950.handleLifespan C (VArr (map VObj elements)) s)) !! key
  = match find (fun e => String.eqb (component_key C e) key) (rev elements) with
    | Some e => Some (T950.lifespan_percent (field e "left") (field e "total"))
    | None => T950.components s !! key
    end.
Proof.
  revert s. induction elements as [| e elements IH]; intros s; [reflexivity |].
  cbn [map]. destruct (handleLifespan_step C e (map VObj elements) s) as (s1 & -> & Hc).
  rewrite IH. cbn [rev]. rewrite find_app.
  destruct (find _ (rev elements)); [reflexivity |].
  cbn [find]. rewrite Hc.
  destruct (String.eqb_spec (component_key C e) key) as [<- | Hne].
  - apply lookup_insert_eq.
  - apply lookup_insert_ne. exact Hne.
Qed.

Section LifeSpanQuery.

Variable hasMainBrush hasUnitCareInfo hasRoundMopInfo : T950.session -> bool.
Variable isMapImageSupported : T950.session -> bool.
Variable getModelType : T950.session -> string.
Variable isValidVirtualWallType : value -> bool.
Variable isAirPurifier : value -> bool.
Variable COMPONENT_TO_ECOVACS : string -> value.
Variable COMPONENT_FROM_ECOVACS : string -> value.

Let run_switch :=
  T950.run_switch hasMainBrush hasUnitCareInfo hasRoundMopInfo isMapImageSupported
    getModelType isValidVirtualWallType isAirPurifier COMPONENT_TO_ECOVACS.

Let handleLifespan := T950.handleLifespan COMPONENT_FROM_ECOVACS.

(** The percentage of the last element filed under [key]. *)
Definition answered (elements : list obj) (key : string) : option num :=
  (fun e => T950.lifespan_percent (field e "left") (field e "total"))
  <$> find (fun e => String.eqb (component_key COMPONENT_FROM_ECOVACS e) key)
        (rev elements).

(** X24: after [run('GetLifeSpan')] without a component and the answer
    of the device, the store holds the components of the answer and
    nothing older; after [run('GetLifeSpan', component)] the components
    that the answer does not name keep their value. *)
Theorem life_span_query_and_answer (component : value) (elements : list obj)
    (s : T950.session) (key : string) :
  let all := fst (run_switch (toLowerCase "GetLifeSpan") [] s) in
  let one := fst (run_switch (toLowerCase "GetLifeSpan") [component] s) in
  T950.components (fst (handleLifespan (VArr (map VObj elements)) all)) !! key
  = answered elements key
  /\ T950.components (fst (handleLifespan (VArr (map VObj elements)) one)) !! key
     = match answered elements key with
       | Some n => Some n
       | None => T950.components s !! key
       end.
Proof.
  cbv zeta. unfold handleLifespan, answered. rewrite !handleLifespan_lookup.
  assert (Hall : T950.components (fst (run_switch (toLowerCase "GetLifeSpan") [] s)) = ∅)
    by reflexivity.
  assert (Hone : T950.components (fst (run_switch (toLowerCase "GetLifeSpan") [component] s))
                 = T950.components s)
    by (destruct s; reflexivity).
  rewrite Hall, Hone.
  destruct (find _ (rev elements)); cbn [fmap option_fmap option_map]; auto.
Qed.

End LifeSpanQuery.

